(** * geco-afip: access tickets, certificate store and tax-id validation

    A shallow embedding of
      - [src/services/padron.service.ts]      (validarCUIT),
      - [src/services/wsaa.service.ts]        (class WSAAService),
      - [src/services/certificate.service.ts] (class CertificateService),
      - [src/middlewares/auth.middleware.ts], [src/controllers/invoice.controller.ts]
        and [src/server.ts] (the route that clears the cache, the deletion
        of a certificate),
    and the properties the specification states about them, followed by
    further properties of the same code.

    Conventions of the embedding.
      - A JavaScript string is a [string] of 8-bit code units.
      - A JavaScript number that the code uses as an integer (tenant ids,
        epoch milliseconds, digits) is a [Z].
      - A [Date] is its time value, [None] for an Invalid Date.
      - The process state (both in-memory caches), the file system, the
        clock and the traces of the calls made to external collaborators
        are one record [World]; a method is a function
        [World -> result A * World], an exception is the [Throw] result.
      - A path is the list of the segments of an absolute, normalised
        POSIX path; [path_join] normalises as [path.join] of Node does.
      - Libraries the repository only calls (node-forge, axios, the XML and
        JSON parsers, the configuration) are the fields of a record [Env];
        [getField] of node-forge is written out, as the tax id depends on
        how it looks a field up. *)

From Stdlib Require Import ZArith Lia Ascii String List.
From stdpp Require Import base option list strings gmap pretty.

Local Open Scope Z_scope.

(** ** JavaScript strings *)

Module Js.

Definition chars (s : string) : list ascii := list_ascii_of_string s.

(** [/\d/] *)
Definition is_digit (c : ascii) : bool :=
  let n := nat_of_ascii c in ((48 <=? n) && (n <=? 57))%nat.

(** [/\s/], on code units below 256: TAB, LF, VT, FF, CR, SPACE, NBSP. *)
Definition is_space (c : ascii) : bool :=
  let n := nat_of_ascii c in
  ((9 <=? n) && (n <=? 13) || (n =? 32) || (n =? 160))%nat.

(** [Number(c)] for a one-character string holding a decimal digit. *)
Definition Number_digit (c : ascii) : Z := Z.of_nat (nat_of_ascii c) - 48.

Fixpoint filter_chars (keep : ascii -> bool) (s : string) : string :=
  match s with
  | EmptyString => EmptyString
  | String c r =>
      if keep c then String c (filter_chars keep r) else filter_chars keep r
  end.

Fixpoint all_chars (p : ascii -> bool) (s : string) : bool :=
  match s with
  | EmptyString => true
  | String c r => p c && all_chars p r
  end.

(** [/^\d+$/.test(s)] *)
Definition test_digits (s : string) : bool :=
  match s with
  | EmptyString => false
  | _ => all_chars is_digit s
  end.

(** [s.startsWith(p)] *)
Definition startsWith (s p : string) : bool := String.prefix p s.

(** [s.includes(p)] *)
Fixpoint includes (s p : string) : bool :=
  String.prefix p s ||
  match s with
  | EmptyString => false
  | String _ r => includes r p
  end.

(** [s.endsWith(p)] *)
Fixpoint endsWith (s p : string) : bool :=
  String.eqb s p ||
  match s with
  | EmptyString => false
  | String _ r => endsWith r p
  end.

(** [s.substring(0, n)] *)
Definition substring0 (n : nat) (s : string) : string := String.substring 0 n s.

(** [s.match(/\d{11}/)]: the leftmost run of eleven digits, [None] for
    [null]. *)
Fixpoint match_d11 (s : string) : option string :=
  let head := String.substring 0 11 s in
  if (String.length head =? 11)%nat && all_chars is_digit head then Some head
  else match s with
       | EmptyString => None
       | String _ r => match_d11 r
       end.

(** [xs.join(sep)] *)
Fixpoint join (sep : string) (xs : list string) : string :=
  match xs with
  | [] => ""
  | [x] => x
  | x :: r => x +:+ sep +:+ join sep r
  end.

End Js.

(** ** Tax-id validation ([padron.service.ts]) *)

(** [documento.replace(/[-\s]/g, '')] *)
Definition normalizarDocumento (documento : string) : string :=
  Js.filter_chars
    (fun c => negb (Ascii.eqb c "-"%char || Js.is_space c)) documento.

Definition multiplicadores : list Z := [5; 4; 3; 2; 7; 6; 5; 4; 3; 2].

Definition validarCUIT (cuit : string) : bool :=
  let cuitLimpio := normalizarDocumento cuit in
  if negb (String.length cuitLimpio =? 11)%nat || negb (Js.test_digits cuitLimpio)
  then false
  else
    let digitos := map Js.Number_digit (Js.chars cuitLimpio) in
    let digitoVerificador := nth 10 digitos 0 in
    let suma :=
      fold_left
        (fun suma i => suma + nth i digitos 0 * nth i multiplicadores 0)
        (seq 0 10) 0 in
    let resto := Z.rem suma 11 in
    let resultado := 11 - resto in
    if resultado =? 11 then digitoVerificador =? 0
    else if resultado =? 10 then digitoVerificador =? 9
    else digitoVerificador =? resultado.

(** The check digit as the specification words it, to be compared with the
    code above. *)
Module CuitSpec.

Definition weights : list Z := [5; 4; 3; 2; 7; 6; 5; 4; 3; 2].

Definition weighted_sum (ds : list Z) : Z :=
  foldr Z.add 0 (zip_with Z.mul ds weights).

Definition check_digit (first10 : list Z) : Z :=
  let r := 11 - (weighted_sum first10) mod 11 in
  if decide (r = 11) then 0 else if decide (r = 10) then 9 else r.

Definition eleven_digits (s : string) : Prop :=
  String.length s = 11%nat /\ Js.all_chars Js.is_digit s = true.

Definition digits (s : string) : list Z := map Js.Number_digit (Js.chars s).

Definition valid (s : string) : Prop :=
  check_digit (take 10 (digits s)) = nth 10 (digits s) 0.

End CuitSpec.

(** ** JavaScript values *)

#[local] Set Warnings "-register-all".

(** The values [JSON.parse] and the XML parser hand back. *)
Inductive jsval : Type :=
| JUndefined
| JNull
| JBool (b : bool)
| JNum (n : Z)
| JStr (s : string)
| JObj (fields : list (string * jsval))
| JArr (items : list jsval).

(** ToBoolean *)
Definition truthy (v : jsval) : bool :=
  match v with
  | JUndefined | JNull => false
  | JBool b => b
  | JNum n => negb (n =? 0)
  | JStr s => negb (String.eqb s "")
  | JObj _ | JArr _ => true
  end.

(** [a || b] *)
Definition js_or (a b : jsval) : jsval := if truthy a then a else b.

Fixpoint assoc (k : string) (fields : list (string * jsval)) : jsval :=
  match fields with
  | [] => JUndefined
  | (k', v) :: r => if String.eqb k k' then v else assoc k r
  end.

(** A time value: milliseconds since the epoch; [None] is an Invalid Date. *)
Definition Date : Type := option Z.

Definition maxTime : Z := 8640000000000000.

Definition is_time (t : Z) : Prop := - maxTime <= t <= maxTime.

(** [new Date(t)] for a number [t] (TimeClip). *)
Definition timeClip (t : Z) : Date :=
  if (- maxTime <=? t) && (t <=? maxTime) then Some t else None.

(** [a > b] on a Date and a valid Date: false when [a] is invalid. *)
Definition date_gt (a : Date) (b : Z) : bool :=
  match a with
  | Some x => x >? b
  | None => false
  end.

(** ** Errors and results *)

Record HttpResponse : Type := {
  status : Z;
  statusText : string;
  data : jsval;
}.

(** An [Error] object: its [message], and the [response] axios attaches. *)
Record JsError : Type := {
  message : string;
  response : option HttpResponse;
}.

Definition mkError (msg : string) : JsError :=
  {| message := msg; response := None |}.

Definition TypeError : JsError := mkError "TypeError".
Definition RangeError : JsError := mkError "RangeError: Invalid time value".

Inductive result (A : Type) : Type :=
| Ok (a : A)
| Throw (e : JsError).
Arguments Ok {A} a.
Arguments Throw {A} e.

(** [v[k]]: a TypeError on [undefined] and [null]. *)
Definition get_prop (v : jsval) (k : string) : result jsval :=
  match v with
  | JUndefined | JNull => Throw TypeError
  | JObj fields => Ok (assoc k fields)
  | _ => Ok JUndefined
  end.

(** [v?.[k]] *)
Definition opt_prop (v : jsval) (k : string) : jsval :=
  match v with
  | JObj fields => assoc k fields
  | _ => JUndefined
  end.

(** [`${v}`] *)
Fixpoint js_to_string (v : jsval) : string :=
  match v with
  | JUndefined => "undefined"
  | JNull => "null"
  | JBool true => "true"
  | JBool false => "false"
  | JNum n => pretty n
  | JStr s => s
  | JObj _ => "[object Object]"
  | JArr items =>
      Js.join ","
        (map (fun i => match i with
                       | JUndefined | JNull => ""
                       | _ => js_to_string i
                       end) items)
  end.

(** [v.includes(x)] for a string [x]: the String and the Array method; any
    other receiver has no such method. *)
Definition js_includes (v : jsval) (x : string) : result bool :=
  match v with
  | JStr s => Ok (Js.includes s x)
  | JArr items =>
      Ok (existsb (fun i => match i with
                            | JStr s => String.eqb s x
                            | _ => false
                            end) items)
  | _ => Throw TypeError
  end.

(** ** The data model *)

(** [TicketAcceso] of [types/afip.types.ts]. *)
Record TicketAcceso : Type := {
  token : jsval;
  sign : jsval;
  expirationTime : Date;
}.

(** A path is absolute and normalised: the list of its segments below the
    root. *)
Definition Path : Type := list string.

(** The pieces of a string between its separators [/] (POSIX). *)
Fixpoint segments (s : string) : list string :=
  match s with
  | EmptyString => [EmptyString]
  | String c r =>
      if Ascii.eqb c "/" then EmptyString :: segments r
      else match segments r with
           | seg :: rest => String c seg :: rest
           | [] => [String c EmptyString]
           end
  end.

(** One step of the normalisation: an empty segment and [.] stay where they
    are, [..] goes up (the root is its own parent), a name goes down. *)
Definition enter (p : Path) (seg : string) : Path :=
  if String.eqb seg "" || String.eqb seg "." then p
  else if String.eqb seg ".." then removelast p
  else p ++ [seg].

(** [path.join(dir, name)] of Node for an absolute, normalised [dir]: the
    two are joined by a separator and the result is normalised, so the
    separators of [name] are honoured. The code joins no name that ends in a
    separator. *)
Definition path_join (dir : Path) (name : string) : Path :=
  fold_left enter (segments name) dir.

(** No character of the string is a separator. *)
Definition no_separator (s : string) : bool :=
  Js.all_chars (fun c => negb (Ascii.eqb c "/")) s.

(** What a directory lists as the name of an entry: one segment. *)
Definition plain_name (n : string) : bool :=
  no_separator n
  && negb (String.eqb n "" || String.eqb n "." || String.eqb n "..").

(** [CertificateInfo] of [types/afip.types.ts]. *)
Record CertificateInfo : Type := {
  ci_businessId : Z;
  cuit : jsval;
  certPath : Path;
  keyPath : Path;
  password : jsval;
  validFrom : option Date;
  validTo : option Date;
}.

(** node-forge: an attribute of a distinguished name. *)
Record Attr : Type := {
  a_type : string;
  a_name : option string;
  a_shortName : option string;
  a_value : string;
}.

(** node-forge: a distinguished name. *)
Record DName : Type := {
  attributes : list Attr;
}.

(** node-forge, [dn.getField(sn)] for a string [sn] ([_getAttribute] of
    x509.js with the options [{shortName: sn}]): the first attribute whose
    short name is [sn]. The name of an attribute is not looked at. *)
Definition getField (d : DName) (sn : string) : option Attr :=
  if String.eqb sn "" then None
  else List.find (fun a => bool_decide (a_shortName a = Some sn)) (attributes d).

(** node-forge, [_shortNames] of x509.js: the short name the parser gives to
    an attribute of a known name. The serial number has none. *)
Definition forge_shortName (name : string) : option string :=
  if String.eqb name "commonName" then Some "CN"
  else if String.eqb name "countryName" then Some "C"
  else if String.eqb name "localityName" then Some "L"
  else if String.eqb name "stateOrProvinceName" then Some "ST"
  else if String.eqb name "organizationName" then Some "O"
  else if String.eqb name "organizationalUnitName" then Some "OU"
  else if String.eqb name "emailAddress" then Some "E"
  else None.

(** The attribute is as the parser of node-forge makes it
    ([RDNAttributesAsArray]): its short name is the one of its name. *)
Definition parsed_attr (a : Attr) : bool :=
  bool_decide (a_shortName a = a_name a ≫= forge_shortName).

Record Certificate : Type := {
  subject : DName;
  issuer : DName;
  notBefore : Date;
  notAfter : Date;
  cert_body : string;
}.

Record PrivateKey : Type := { key_body : string }.

(** What [p12.getBags] finds: [None] for no bag, [Some None] for a bag
    without content. *)
Record Pkcs12 : Type := {
  certBag : option (option Certificate);
  keyBag : option (option PrivateKey);
}.

(** The ephemeral request [generateTRA] serialises. *)
Record SigningRequest : Type := {
  uniqueId : Z;
  generationTime : string;
  tra_expirationTime : string;
  tra_service : string;
}.

(** ** The world *)

Inductive FsOp : Type :=
| OpExists (p : Path)
| OpRead (p : Path)
| OpWrite (p : Path)
| OpUnlink (p : Path)
| OpMkdir (p : Path)
| OpReaddir (p : Path).

(** A JavaScript [Map] with string keys: entries in insertion order. *)
Module JsMap.
Section Ops.
Context {V : Type}.

Fixpoint get (k : string) (m : list (string * V)) : option V :=
  match m with
  | [] => None
  | (k', v) :: r => if String.eqb k k' then Some v else get k r
  end.

Definition has (k : string) (m : list (string * V)) : bool :=
  match get k m with Some _ => true | None => false end.

Fixpoint set (k : string) (v : V) (m : list (string * V)) : list (string * V) :=
  match m with
  | [] => [(k, v)]
  | (k', v') :: r =>
      if String.eqb k k' then (k', v) :: r else (k', v') :: set k v r
  end.

Fixpoint delete (k : string) (m : list (string * V)) : list (string * V) :=
  match m with
  | [] => []
  | (k', v') :: r =>
      if String.eqb k k' then delete k r else (k', v') :: delete k r
  end.

Definition keys (m : list (string * V)) : list string := map fst m.
End Ops.
End JsMap.

Record World : Type := {
  ticketCache : list (string * TicketAcceso);  (* WSAAService.ticketCache *)
  certsCache : gmap Z CertificateInfo;         (* CertificateService.certsCache *)
  files : gmap Path string;                    (* regular files *)
  dirs : gset Path;                            (* directories *)
  fsLog : list FsOp;                           (* fs calls, newest first *)
  netLog : list (string * string);             (* axios.post calls, newest first *)
  errLog : list string;                        (* logger.error, newest first *)
  ticks : nat;                                 (* clock readings so far *)
}.

(** What the code only calls. *)
Record Env : Type := {
  (* config and __dirname *)
  cacheDir : Path;
  certsPath : Path;
  wsaaUrl : string;
  (* the runtime *)
  clock : nat -> Z;                       (* the n-th [new Date()] *)
  fs_fault : nat -> FsOp -> bool;         (* does the n-th fs call fail *)
  new_Date : jsval -> Date;               (* [new Date(v)] *)
  toISOString : Z -> string;
  JSON_parse : string -> result jsval;
  JSON_stringify : jsval -> result string;   (* a string, or the use of it throws *)
  utf8 : string -> string;                (* [buffer.toString('utf-8')] *)
  (* axios: the n-th post *)
  axios_post : nat -> string -> string -> result HttpResponse;
  (* fast-xml-parser, xmlbuilder2 *)
  xml_parse : jsval -> result jsval;
  xml_render : SigningRequest -> string;
  (* node-forge *)
  certificateFromPem : string -> result Certificate;
  certificateFromDer : string -> result Certificate;
  certificateToPem : Certificate -> result string;
  privateKeyFromPem : string -> result PrivateKey;
  privateKeyToPem : PrivateKey -> result string;
  pkcs12FromDer : string -> string -> result Pkcs12;
  toPkcs12Der : PrivateKey -> Certificate -> string -> result string;
  generateKeyPair : nat -> result PrivateKey;
  signCms : string -> Certificate -> PrivateKey -> Z -> result string;
}.

Definition set_ticketCache (f : list (string * TicketAcceso) -> list (string * TicketAcceso))
    (w : World) : World :=
  {| ticketCache := f (ticketCache w); certsCache := certsCache w;
     files := files w; dirs := dirs w; fsLog := fsLog w; netLog := netLog w;
     errLog := errLog w; ticks := ticks w |}.

Definition set_certsCache (f : gmap Z CertificateInfo -> gmap Z CertificateInfo)
    (w : World) : World :=
  {| ticketCache := ticketCache w; certsCache := f (certsCache w);
     files := files w; dirs := dirs w; fsLog := fsLog w; netLog := netLog w;
     errLog := errLog w; ticks := ticks w |}.

Definition set_files (f : gmap Path string -> gmap Path string) (w : World) : World :=
  {| ticketCache := ticketCache w; certsCache := certsCache w;
     files := f (files w); dirs := dirs w; fsLog := fsLog w; netLog := netLog w;
     errLog := errLog w; ticks := ticks w |}.

Definition set_dirs (f : gset Path -> gset Path) (w : World) : World :=
  {| ticketCache := ticketCache w; certsCache := certsCache w;
     files := files w; dirs := f (dirs w); fsLog := fsLog w; netLog := netLog w;
     errLog := errLog w; ticks := ticks w |}.

Definition push_fsLog (op : FsOp) (w : World) : World :=
  {| ticketCache := ticketCache w; certsCache := certsCache w;
     files := files w; dirs := dirs w; fsLog := op :: fsLog w; netLog := netLog w;
     errLog := errLog w; ticks := ticks w |}.

Definition push_netLog (c : string * string) (w : World) : World :=
  {| ticketCache := ticketCache w; certsCache := certsCache w;
     files := files w; dirs := dirs w; fsLog := fsLog w; netLog := c :: netLog w;
     errLog := errLog w; ticks := ticks w |}.

Definition push_errLog (msg : string) (w : World) : World :=
  {| ticketCache := ticketCache w; certsCache := certsCache w;
     files := files w; dirs := dirs w; fsLog := fsLog w; netLog := netLog w;
     errLog := msg :: errLog w; ticks := ticks w |}.

Definition tick (w : World) : World :=
  {| ticketCache := ticketCache w; certsCache := certsCache w;
     files := files w; dirs := dirs w; fsLog := fsLog w; netLog := netLog w;
     errLog := errLog w; ticks := S (ticks w) |}.

(** ** Methods: state and exceptions *)

Definition M (A : Type) : Type := World -> result A * World.

Definition ret {A} (a : A) : M A := fun w => (Ok a, w).

Definition throw {A} (e : JsError) : M A := fun w => (Throw e, w).

Definition lift {A} (r : result A) : M A := fun w => (r, w).

Definition bind {A B} (m : M A) (k : A -> M B) : M B :=
  fun w =>
    match m w with
    | (Ok a, w') => k a w'
    | (Throw e, w') => (Throw e, w')
    end.

(** [try { m } catch (error) { h error }] *)
Definition try_catch {A} (m : M A) (h : JsError -> M A) : M A :=
  fun w =>
    match m w with
    | (Ok a, w') => (Ok a, w')
    | (Throw e, w') => h e w'
    end.

Definition gets {A} (f : World -> A) : M A := fun w => (Ok (f w), w).

Definition modify (f : World -> World) : M unit := fun w => (Ok tt, f w).

Declare Scope js_scope.
Delimit Scope js_scope with js.
Notation "x <- m ;; k" := (bind m (fun x => k))
  (at level 100, m at next level, right associativity) : js_scope.
Notation "m ;; k" := (bind m (fun _ => k))
  (at level 100, right associativity) : js_scope.
Local Open Scope js_scope.

(** [xs.forEach(f)] *)
Fixpoint forEach {A} (f : A -> M unit) (xs : list A) : M unit :=
  match xs with
  | [] => ret tt
  | x :: r => f x ;; forEach f r
  end.

(** [logger.error(...)] *)
Definition logger_error (msg : string) : M unit := modify (push_errLog msg).

Definition dq : string := String "034"%char "".
Definition nl : string := String "010"%char "".

Section Services.

Variable E : Env.

(** *** The runtime: clock and file system *)

(** [new Date()] *)
Definition Date_now : M Z :=
  fun w => (Ok (clock E (ticks w)), tick w).

(** [d.toISOString()] *)
Definition Date_toISOString (d : Date) : result string :=
  match d with
  | Some t => Ok (toISOString E t)
  | None => Throw RangeError
  end.

Definition ENOENT : JsError := mkError "ENOENT: no such file or directory".
Definition EIO : JsError := mkError "EIO: i/o error".

(** Logs the call and asks whether it fails. *)
Definition fs_call (op : FsOp) : M bool :=
  fun w => (Ok (fs_fault E (length (fsLog w)) op), push_fsLog op w).

Definition parent (p : Path) : Path := take (length p - 1)%nat p.

Definition prefixes (p : Path) : list Path :=
  map (fun i => take i p) (seq 0 (S (length p))).

Fixpoint strip_prefix (d p : Path) : option Path :=
  match d, p with
  | [], _ => Some p
  | x :: d', y :: p' => if String.eqb x y then strip_prefix d' p' else None
  | _ :: _, [] => None
  end.

Definition child_name (d p : Path) : option string :=
  match strip_prefix d p with
  | Some [n] => Some n
  | _ => None
  end.

Definition is_file (p : Path) (w : World) : bool :=
  bool_decide (is_Some (files w !! p)).

Definition is_dir (p : Path) (w : World) : bool :=
  bool_decide (p ∈ dirs w).

(** [fs.existsSync(p)]: never throws. *)
Definition existsSync (p : Path) : M bool :=
  modify (push_fsLog (OpExists p)) ;;
  gets (fun w => is_file p w || is_dir p w).

(** [fs.readFileSync(p, 'utf-8')] *)
Definition readFileSync (p : Path) : M string :=
  fault <- fs_call (OpRead p) ;;
  if fault : bool then throw EIO
  else
    content <- gets (fun w => files w !! p) ;;
    match content with
    | Some c => ret c
    | None => throw ENOENT
    end.

(** [fs.writeFileSync(p, c)] *)
Definition writeFileSync (p : Path) (c : string) : M unit :=
  fault <- fs_call (OpWrite p) ;;
  if fault : bool then throw EIO
  else
    ok <- gets (fun w => is_dir (parent p) w && negb (is_dir p w)) ;;
    if ok : bool then modify (set_files (insert p c)) else throw ENOENT.

(** [fs.unlinkSync(p)] *)
Definition unlinkSync (p : Path) : M unit :=
  fault <- fs_call (OpUnlink p) ;;
  if fault : bool then throw EIO
  else
    there <- gets (is_file p) ;;
    if there : bool then modify (set_files (delete p)) else throw ENOENT.

(** [fs.mkdirSync(p, { recursive: true })] *)
Definition mkdirSync (p : Path) : M unit :=
  fault <- fs_call (OpMkdir p) ;;
  if fault : bool then throw EIO
  else modify (set_dirs (fun ds => ds ∪ list_to_set (prefixes p))).

(** [fs.readdirSync(d)] *)
Definition readdirSync (d : Path) : M (list string) :=
  fault <- fs_call (OpReaddir d) ;;
  if fault : bool then throw EIO
  else
    there <- gets (is_dir d) ;;
    if there : bool
    then gets (fun w => omap (child_name d) (elements (dom (files w)))
                        ++ omap (child_name d) (elements (dirs w)))
    else throw ENOENT.

(** *** CertificateService ([certificate.service.ts]) *)

Definition certDirOf (businessId : Z) : Path :=
  path_join (certsPath E) (pretty businessId).

Definition getCertificateInfo (businessId : Z) : M (option CertificateInfo) :=
  try_catch
    (cachedEntry <- gets (fun w => certsCache w !! businessId) ;;
     hit <- match cachedEntry with
            | Some cached =>
                match validTo cached with
                | Some vt =>
                    now <- Date_now ;;
                    if date_gt vt now then ret (Some cached)
                    else
                      modify (set_certsCache (delete businessId)) ;; ret None
                | None =>
                    modify (set_certsCache (delete businessId)) ;; ret None
                end
            | None => ret None
            end ;;
     match hit with
     | Some cached => ret (Some cached)
     | None =>
         let certDir := certDirOf businessId in
         let infoPath := path_join certDir "info.json" in
         present <- existsSync infoPath ;;
         if negb present then ret None
         else
           text <- readFileSync infoPath ;;
           infoData <- lift (JSON_parse E text) ;;
           cuit' <- lift (get_prop infoData "cuit") ;;
           password' <- lift (get_prop infoData "password") ;;
           vf <- lift (get_prop infoData "validFrom") ;;
           vt <- lift (get_prop infoData "validTo") ;;
           let certInfo :=
             {| ci_businessId := businessId;
                cuit := cuit';
                certPath := path_join certDir "cert.pem";
                keyPath := path_join certDir "key.pem";
                password := password';
                validFrom := if truthy vf then Some (new_Date E vf) else None;
                validTo := if truthy vt then Some (new_Date E vt) else None |} in
           hasCert <- existsSync (certPath certInfo) ;;
           hasKey <- (if hasCert : bool then existsSync (keyPath certInfo)
                      else ret false) ;;
           if negb hasCert || negb hasKey
           then
             logger_error ("Certificate files missing for business "
                           +:+ pretty businessId) ;;
             ret None
           else
             modify (set_certsCache (insert businessId certInfo)) ;;
             ret (Some certInfo)
     end)
    (fun error =>
       logger_error ("Error getting certificate info for business "
                     +:+ pretty businessId +:+ ": " +:+ message error) ;;
       ret None).

(** [isCertificateValid] *)
Definition isCertificateValid (businessId : Z) : M bool :=
  certInfo <- getCertificateInfo businessId ;;
  match certInfo with
  | Some ci =>
      match validTo ci with
      | Some vt => now <- Date_now ;; ret (date_gt vt now)
      | None => ret false
      end
  | None => ret false
  end.

Definition readCertificate (certPath : Path) : M string := readFileSync certPath.

Definition readPrivateKey (keyPath : Path) : M string := readFileSync keyPath.

(** [if (!fs.existsSync(certDir)) fs.mkdirSync(certDir, { recursive: true })] *)
Definition ensureDir (dir : Path) : M unit :=
  present <- existsSync dir ;;
  if present : bool then ret tt else mkdirSync dir.

Definition saveCertificateFromPfx
    (businessId : Z) (cuit : string) (pfxBuffer : string) (password : string)
    : M bool :=
  try_catch
    (p12 <- lift (pkcs12FromDer E pfxBuffer password) ;;
     match certBag p12, keyBag p12 with
     | Some bagCert, Some bagKey =>
         match bagCert, bagKey with
         | Some certificate, Some privateKey =>
             certPem <- lift (certificateToPem E certificate) ;;
             keyPem <- lift (privateKeyToPem E privateKey) ;;
             let validFrom := notBefore certificate in
             let validTo := notAfter certificate in
             let certDir := certDirOf businessId in
             ensureDir certDir ;;
             writeFileSync (path_join certDir "cert.pem") certPem ;;
             writeFileSync (path_join certDir "key.pem") keyPem ;;
             isoFrom <- lift (Date_toISOString validFrom) ;;
             isoTo <- lift (Date_toISOString validTo) ;;
             now <- Date_now ;;
             let info :=
               JObj [("businessId", JNum businessId);
                     ("cuit", JStr cuit);
                     ("validFrom", JStr isoFrom);
                     ("validTo", JStr isoTo);
                     ("password", JStr password);
                     ("createdAt", JStr (toISOString E now))] in
             text <- lift (JSON_stringify E info) ;;
             writeFileSync (path_join certDir "info.json") text ;;
             modify (set_certsCache (delete businessId)) ;;
             ret true
         | _, _ => throw (mkError "Certificado o clave privada inválidos")
         end
     | _, _ =>
         throw (mkError
           "No se pudo extraer el certificado o la clave privada del archivo PFX")
     end)
    (fun error =>
       logger_error ("Error saving certificate for business "
                     +:+ pretty businessId +:+ ": " +:+ message error) ;;
       ret false).

(** The certificate of both .crt paths: PEM first, DER as fallback. *)
Definition readCrt (crtBuffer : string) : M (string * Certificate) :=
  try_catch
    (let certPem := utf8 E crtBuffer in
     certificate <- lift (certificateFromPem E certPem) ;;
     ret (certPem, certificate))
    (fun pemError =>
       try_catch
         (certificate <- lift (certificateFromDer E crtBuffer) ;;
          certPem <- lift (certificateToPem E certificate) ;;
          ret (certPem, certificate))
         (fun derError =>
            logger_error ("Failed to parse certificate: " +:+ message derError) ;;
            throw (mkError
              "No se pudo leer el certificado. Asegúrate de que sea un archivo .crt válido de AFIP."))).

(** [field && field.value], then [field.value.match(/\d{11}/)] *)
Definition cuitOfField (field : option Attr) : option string :=
  match field with
  | Some a => if String.eqb (a_value a) "" then None else Js.match_d11 (a_value a)
  | None => None
  end.

Definition orElse {A} (a b : option A) : option A :=
  match a with
  | Some x => Some x
  | None => b
  end.

(** [a.shortName === fieldName || a.name === fieldName] *)
Definition attrNamed (fieldName : string) (a : Attr) : bool :=
  bool_decide (a_shortName a = Some fieldName)
  || bool_decide (a_name a = Some fieldName).

(** The loop over [knownCuitFields], left at the first match. *)
Fixpoint scanKnownFields (attrs : list Attr) (names : list string) : option string :=
  match names with
  | [] => None
  | fieldName :: rest =>
      match cuitOfField (List.find (attrNamed fieldName) attrs) with
      | Some c => Some c
      | None => scanKnownFields attrs rest
      end
  end.

(** [`${a.name || a.shortName}=${a.value}`] *)
Definition renderAttr (a : Attr) : string :=
  let shown o := match o with Some x => x | None => "undefined" end in
  let label := match a_name a with
               | Some n => if String.eqb n "" then shown (a_shortName a) else n
               | None => shown (a_shortName a)
               end in
  label +:+ "=" +:+ a_value a.

Definition renderDName (d : DName) : string :=
  Js.join ", " (map renderAttr (attributes d)).

Definition cuitFromSerialNumber (c : Certificate) : option string :=
  cuitOfField (getField (subject c) "serialNumber").

Definition cuitFromCommonName (c : Certificate) : option string :=
  cuitOfField (orElse (getField (subject c) "CN")
                      (getField (subject c) "commonName")).

(** Lines 285-369 of [saveCertificateFromCrtKey]. *)
Definition extractCuitCrtKey (c : Certificate) : option string :=
  orElse (cuitFromSerialNumber c)
    (orElse (cuitFromCommonName c)
       (orElse (scanKnownFields (attributes (subject c))
                  ["serialNumber"; "CN"; "commonName"; "UID"; "userId";
                   "SERIALNUMBER"; "O"; "organizationName"])
          (orElse (Js.match_d11 (renderDName (subject c)))
                  (Js.match_d11 (renderDName (issuer c)))))).

(** The [else] branch of lines 511-602 of [saveCertificateFromCrt]. *)
Definition extractCuitCrt (c : Certificate) : option string :=
  orElse (cuitFromSerialNumber c)
    (orElse (cuitFromCommonName c)
       (orElse (scanKnownFields (attributes (subject c))
                  ["serialNumber"; "CN"; "commonName"; "UID"; "userId";
                   "SERIALNUMBER"])
               (Js.match_d11 (renderDName (subject c))))).

Definition infoJson (businessId : Z) (cuit isoFrom isoTo password createdAt
                     uploadMethod : string) : jsval :=
  JObj [("businessId", JNum businessId);
        ("cuit", JStr cuit);
        ("validFrom", JStr isoFrom);
        ("validTo", JStr isoTo);
        ("password", JStr password);
        ("createdAt", JStr createdAt);
        ("uploadMethod", JStr uploadMethod)].

Definition saveCertificateFromCrtKey
    (businessId : Z) (crtBuffer keyBuffer : string) (password : string)
    : M bool :=
  try_catch
    (let certDir := certDirOf businessId in
     ensureDir certDir ;;
     crt <- readCrt crtBuffer ;;
     let certPem := fst crt in
     let certificate := snd crt in
     let keyPem := utf8 E keyBuffer in
     privateKey <-
       try_catch (lift (privateKeyFromPem E keyPem))
         (fun pemError =>
            logger_error "Failed to parse private key as PEM" ;;
            throw (mkError
              "No se pudo leer la clave privada. Asegúrate de que sea un archivo .key válido en formato PEM.")) ;;
     match extractCuitCrtKey certificate with
     | None =>
         logger_error "No CUIT found in certificate. Full subject:" ;;
         throw (mkError
           "No se pudo extraer el CUIT del certificado. El certificado no contiene un CUIT válido de 11 dígitos.")
     | Some cuit =>
         let validFrom := notBefore certificate in
         let validTo := notAfter certificate in
         writeFileSync (path_join certDir "cert.pem") certPem ;;
         writeFileSync (path_join certDir "key.pem") keyPem ;;
         p12Der <- lift (toPkcs12Der E privateKey certificate password) ;;
         writeFileSync (path_join certDir "cert.pfx") p12Der ;;
         isoFrom <- lift (Date_toISOString validFrom) ;;
         isoTo <- lift (Date_toISOString validTo) ;;
         now <- Date_now ;;
         text <- lift (JSON_stringify E
                   (infoJson businessId cuit isoFrom isoTo password
                      (toISOString E now) "crt-key")) ;;
         writeFileSync (path_join certDir "info.json") text ;;
         modify (set_certsCache (delete businessId)) ;;
         ret true
     end)
    (fun error =>
       logger_error ("Error saving certificate from CRT + KEY for business "
                     +:+ pretty businessId +:+ ": " +:+ message error) ;;
       throw error).

Definition saveCertificateFromCrt
    (businessId : Z) (crtBuffer : string) (password : string)
    (providedCuit : option string) : M bool :=
  try_catch
    (let certDir := certDirOf businessId in
     ensureDir certDir ;;
     crt <- readCrt crtBuffer ;;
     let certPem := fst crt in
     let certificate := snd crt in
     let given := match providedCuit with
                  | Some g => if String.eqb g "" then None else Some g
                  | None => None
                  end in
     cuit <-
       match given with
       | Some g =>
           let cleanCuit := Js.filter_chars Js.is_digit g in
           if negb (String.length cleanCuit =? 11)%nat
           then throw (mkError "El CUIT proporcionado debe tener 11 dígitos.")
           else ret cleanCuit
       | None =>
           match extractCuitCrt certificate with
           | Some c => ret c
           | None =>
               logger_error "No CUIT found in certificate. Full subject:" ;;
               throw (mkError
                 "No se pudo extraer el CUIT del certificado. El certificado no contiene un CUIT válido de 11 dígitos. Por favor proporciona el CUIT manualmente.")
           end
       end ;;
     let keyPath := path_join certDir "key.pem" in
     hasKey <- existsSync keyPath ;;
     privateKey <-
       (if hasKey : bool
        then
          keyPem <- readFileSync keyPath ;;
          lift (privateKeyFromPem E keyPem)
        else
          seed <- gets (fun w => length (fsLog w)) ;;
          fresh <- lift (generateKeyPair E seed) ;;
          keyPem <- lift (privateKeyToPem E fresh) ;;
          writeFileSync keyPath keyPem ;;
          ret fresh) ;;
     let validFrom := notBefore certificate in
     let validTo := notAfter certificate in
     writeFileSync (path_join certDir "cert.pem") certPem ;;
     p12Der <- lift (toPkcs12Der E privateKey certificate password) ;;
     writeFileSync (path_join certDir "cert.pfx") p12Der ;;
     isoFrom <- lift (Date_toISOString validFrom) ;;
     isoTo <- lift (Date_toISOString validTo) ;;
     now <- Date_now ;;
     text <- lift (JSON_stringify E
               (infoJson businessId cuit isoFrom isoTo password
                  (toISOString E now) "crt")) ;;
     writeFileSync (path_join certDir "info.json") text ;;
     modify (set_certsCache (delete businessId)) ;;
     ret true)
    (fun error =>
       logger_error ("Error saving certificate from CRT for business "
                     +:+ pretty businessId +:+ ": " +:+ message error) ;;
       throw error).

(** *** WSAAService ([wsaa.service.ts]) *)

(** [`${businessId}_${service}`] *)
Definition cacheKey (businessId : Z) (service : string) : string :=
  pretty businessId +:+ "_" +:+ service.

(** [path.join(this.cacheDir, `ta_${cacheKey}.json`)] *)
Definition cacheFileOf (key : string) : Path :=
  path_join (cacheDir E) ("ta_" +:+ key +:+ ".json").

Definition safetyMargin : Z := 5 * 60 * 1000.

Definition isTicketValid (ticket : TicketAcceso) : M bool :=
  now <- Date_now ;;
  let expirationWithMargin :=
    match expirationTime ticket with
    | Some t => timeClip (t - safetyMargin)
    | None => None
    end in
  ret (date_gt expirationWithMargin now).

Definition generateTRA (service : string) : M string :=
  now <- Date_now ;;
  let uniqueId := now / 1000 in
  let generationTime := toISOString E now in
  expirationTime <- lift (Date_toISOString (timeClip (now + 12 * 60 * 60 * 1000))) ;;
  ret (xml_render E
         {| uniqueId := uniqueId;
            generationTime := generationTime;
            tra_expirationTime := expirationTime;
            tra_service := service |}).

Definition signTRA (tra : string) (certPath keyPath : Path) : M string :=
  try_catch
    (certPem <- readCertificate certPath ;;
     keyPem <- readPrivateKey keyPath ;;
     cert <- lift (certificateFromPem E certPem) ;;
     privateKey <- lift (privateKeyFromPem E keyPem) ;;
     signingTime <- Date_now ;;
     lift (signCms E tra cert privateKey signingTime))
    (fun error =>
       logger_error ("Error signing TRA: " +:+ message error) ;;
       throw error).

Definition soapRequestOf (cms : string) : string :=
  "<?xml version=" +:+ dq +:+ "1.0" +:+ dq +:+ " encoding=" +:+ dq +:+ "UTF-8"
  +:+ dq +:+ "?>" +:+ nl
  +:+ "<soapenv:Envelope xmlns:soapenv=" +:+ dq
  +:+ "http://schemas.xmlsoap.org/soap/envelope/" +:+ dq +:+ " xmlns:wsaa=" +:+ dq
  +:+ "http://wsaa.view.sua.dvadac.desein.afip.gov" +:+ dq +:+ ">" +:+ nl
  +:+ "  <soapenv:Header/>" +:+ nl
  +:+ "  <soapenv:Body>" +:+ nl
  +:+ "    <wsaa:loginCms>" +:+ nl
  +:+ "      <wsaa:in0>" +:+ cms +:+ "</wsaa:in0>" +:+ nl
  +:+ "    </wsaa:loginCms>" +:+ nl
  +:+ "  </soapenv:Body>" +:+ nl
  +:+ "</soapenv:Envelope>".

Definition alreadyIssuedMessage : string :=
  "AFIP ya tiene un ticket válido cacheado en su servidor. Expirará en máximo 12 horas desde su creación.".

Definition httpErrorMessage (resp : HttpResponse) : string :=
  "AFIP WSAA HTTP error: " +:+ pretty (status resp) +:+ " - " +:+ statusText resp.

(** The first 1000 characters of the body of an error response. *)
Definition responseDataOf (resp : HttpResponse) : result string :=
  match data resp with
  | JStr text => Ok (Js.substring0 1000 text)
  | other =>
      match JSON_stringify E other with
      | Ok text => Ok (Js.substring0 1000 text)
      | Throw e => Throw e
      end
  end.

Definition sendToAFIP (cms : string) : M jsval :=
  try_catch
    (let soapRequest := soapRequestOf cms in
     n <- gets (fun w => length (netLog w)) ;;
     modify (push_netLog (wsaaUrl E, soapRequest)) ;;
     response <- lift (axios_post E n (wsaaUrl E) soapRequest) ;;
     ret (data response))
    (fun error =>
       match response error with
       | Some resp =>
           responseData <- lift (responseDataOf resp) ;;
           logger_error ("AFIP WSAA HTTP error: " +:+ pretty (status resp)
                         +:+ " " +:+ responseData) ;;
           if Js.includes responseData "alreadyAuthenticated"
              || Js.includes responseData "ya posee un TA valido"
           then throw (mkError alreadyIssuedMessage)
           else throw (mkError (httpErrorMessage resp))
       | None => throw error
       end).

Definition untrustedMessage : string :=
  "❌ Certificado no confiable. Posibles causas:" +:+ nl
  +:+ "• El certificado no fue emitido por AFIP" +:+ nl
  +:+ "• Estás usando un certificado de homologación en producción (o viceversa)" +:+ nl
  +:+ "• El certificado no está firmado correctamente" +:+ nl
  +:+ "Solución: Verifica que el ambiente (.env) coincida con el certificado".

Definition expiredMessage : string :=
  "❌ Certificado expirado. Debes generar un nuevo CSR y solicitar nuevo certificado en AFIP.".

(** The message of the error thrown for a [Fault] element (lines 327-352). *)
Definition faultMessage (fault : jsval) : result string :=
  let faultCode := js_or (opt_prop fault "faultcode") (JStr "") in
  let faultString := js_or (opt_prop fault "faultstring") (JStr "Unknown error") in
  let or_else (a : result bool) (b : result bool) : result bool :=
    match a with
    | Ok false => b
    | other => other
    end in
  match or_else (js_includes faultCode "cms.cert.untrusted")
                (js_includes faultString "Certificado no emitido") with
  | Throw e => Throw e
  | Ok true => Ok untrustedMessage
  | Ok false =>
      match or_else (js_includes faultString "expired")
                    (js_includes faultString "expirado") with
      | Throw e => Throw e
      | Ok true => Ok expiredMessage
      | Ok false => Ok ("AFIP WSAA Fault: " +:+ js_to_string faultString)
      end
  end.

Definition parseResponse (xmlResponse : jsval) : M TicketAcceso :=
  try_catch
    (lift (match xmlResponse with
           | JStr _ => Ok tt
           | _ => Throw TypeError
           end) ;;
     result <- lift (xml_parse E xmlResponse) ;;
     soapEnvelope <- lift (get_prop result "soap:Envelope") ;;
     let body :=
       js_or (opt_prop soapEnvelope " soap:Body")
         (js_or (opt_prop (opt_prop result "soapenv:Envelope") "soapenv:Body")
                (opt_prop (opt_prop result "env:Envelope") "env:Body")) in
     if negb (truthy body) then throw (mkError "Invalid SOAP response structure")
     else
       let loginResponse :=
         js_or (opt_prop body "loginCmsResponse")
               (opt_prop body "ns1:loginCmsResponse") in
       if negb (truthy loginResponse)
       then
         let fault :=
           js_or (opt_prop body "soap:Fault")
             (js_or (opt_prop body "soapenv:Fault") (opt_prop body "env:Fault")) in
         if truthy fault
         then
           errorMsg <- lift (faultMessage fault) ;;
           logger_error "AFIP Fault details:" ;;
           throw (mkError errorMsg)
         else throw (mkError "No loginCmsResponse in SOAP response")
       else
         let loginReturn :=
           js_or (opt_prop loginResponse "loginCmsReturn")
                 (opt_prop loginResponse "ns1:loginCmsReturn") in
         if negb (truthy loginReturn)
         then throw (mkError "No loginCmsReturn in response")
         else
           let taXml :=
             match loginReturn with
             | JStr _ => loginReturn
             | _ => js_or (opt_prop loginReturn "#text") loginReturn
             end in
           taResult <- lift (xml_parse E taXml) ;;
           loginTicketResponse <- lift (get_prop taResult "loginTicketResponse") ;;
           let credentials := opt_prop loginTicketResponse "credentials" in
           if negb (truthy credentials)
           then throw (mkError "No credentials in TA response")
           else
             let token := opt_prop credentials "token" in
             let sign := opt_prop credentials "sign" in
             let expirationTimeStr :=
               opt_prop (opt_prop loginTicketResponse "header") "expirationTime" in
             if negb (truthy token) || negb (truthy sign)
                || negb (truthy expirationTimeStr)
             then throw (mkError "Missing token, sign or expirationTime in TA")
             else
               ret {| token := token;
                      sign := sign;
                      expirationTime := new_Date E expirationTimeStr |})
    (fun error =>
       logger_error ("Error parsing WSAA response: " +:+ message error) ;;
       throw error).

Definition requestTicketAcceso (businessId : Z) (service : string)
    : M (option TicketAcceso) :=
  try_catch
    (certInfo <- getCertificateInfo businessId ;;
     match certInfo with
     | None =>
         throw (mkError ("No certificate found for business " +:+ pretty businessId))
     | Some certInfo =>
         tra <- generateTRA service ;;
         cms <- signTRA tra (certPath certInfo) (keyPath certInfo) ;;
         response <- sendToAFIP cms ;;
         ticket <- parseResponse response ;;
         lift (Date_toISOString (expirationTime ticket)) ;;
         ret (Some ticket)
     end)
    (fun error =>
       logger_error ("Error requesting ticket acceso for business "
                     +:+ pretty businessId +:+ ": " +:+ message error) ;;
       ret None).

(** [JSON.stringify(ticket, null, 2)] sees this object. *)
Definition ticketJson (t : TicketAcceso) : jsval :=
  JObj [("token", token t);
        ("sign", sign t);
        ("expirationTime", match expirationTime t with
                           | Some e => JStr (toISOString E e)
                           | None => JNull
                           end)].

(** Lines 50-54: the parsed record with its dates rebuilt; assigning a
    property of anything but an object is a TypeError. *)
Definition reviveTicket (cached : jsval) : result TicketAcceso :=
  match cached with
  | JObj fields =>
      Ok {| token := assoc "token" fields;
            sign := assoc "sign" fields;
            expirationTime := new_Date E (assoc "expirationTime" fields) |}
  | JArr _ =>
      Ok {| token := JUndefined;
            sign := JUndefined;
            expirationTime := new_Date E JUndefined |}
  | _ => Throw TypeError
  end.

(** Step 1 of [getTicketAcceso] (lines 32-44): the cache in memory. *)
Definition memoryTier (key : string) : M (option TicketAcceso) :=
  entry <- gets (fun w => JsMap.get key (ticketCache w)) ;;
  match entry with
  | Some cached =>
      valid <- isTicketValid cached ;;
      if valid : bool then ret (Some cached)
      else modify (set_ticketCache (JsMap.delete key)) ;; ret None
  | None => ret None
  end.

(** Step 2 of [getTicketAcceso] (lines 46-72): the cache on disk. *)
Definition diskTier (key : string) : M (option TicketAcceso) :=
  let cacheFile := cacheFileOf key in
  present <- existsSync cacheFile ;;
  if present : bool
  then
    try_catch
      (fileContent <- readFileSync cacheFile ;;
       parsed <- lift (JSON_parse E fileContent) ;;
       cached <- lift (reviveTicket parsed) ;;
       valid <- isTicketValid cached ;;
       if valid : bool
       then
         lift (Date_toISOString (expirationTime cached)) ;;
         modify (set_ticketCache (JsMap.set key cached)) ;;
         ret (Some cached)
       else
         unlinkSync cacheFile ;;
         ret None)
      (fun error => ret None)
  else ret None.

(** Steps 1 and 2. *)
Definition cacheTiers (key : string) : M (option TicketAcceso) :=
  fromMemory <- memoryTier key ;;
  match fromMemory with
  | Some cached => ret (Some cached)
  | None => diskTier key
  end.

(** Step 3 of [getTicketAcceso] (lines 74-97): a new ticket, kept in both
    tiers. *)
Definition acquireTier (businessId : Z) (service : string) : M (option TicketAcceso) :=
  let key := cacheKey businessId service in
  ticket <- requestTicketAcceso businessId service ;;
  match ticket with
  | Some t =>
      modify (set_ticketCache (JsMap.set key t)) ;;
      try_catch
        (ensureDir (cacheDir E) ;;
         text <- lift (JSON_stringify E (ticketJson t)) ;;
         writeFileSync (cacheFileOf key) text)
        (fun error => ret tt) ;;
      ret (Some t)
  | None => ret None
  end.

(** The parameter [service] has the default value ['wsfe']. *)
Definition getTicketAcceso (businessId : Z) (service : string)
    : M (option TicketAcceso) :=
  try_catch
    (cached <- cacheTiers (cacheKey businessId service) ;;
     match cached with
     | Some t => ret (Some t)
     | None => acquireTier businessId service
     end)
    (fun error =>
       logger_error ("Error getting ticket acceso for business "
                     +:+ pretty businessId +:+ ": " +:+ message error) ;;
       ret None).

(** [if (businessId)] on an optional number, [if (service)] on an optional
    string. *)
Definition given_number (n : option Z) : bool :=
  match n with
  | Some z => negb (z =? 0)
  | None => false
  end.

Definition given_string (s : option string) : bool :=
  match s with
  | Some x => negb (String.eqb x "")
  | None => false
  end.

(** First branch of [clearCache] (lines 400-415). *)
Definition clearExact (businessId : Z) (service : string) : M unit :=
  let key := cacheKey businessId service in
  let cacheFile := cacheFileOf key in
  modify (set_ticketCache (JsMap.delete key)) ;;
  present <- existsSync cacheFile ;;
  if present : bool then unlinkSync cacheFile else ret tt.

(** Second branch of [clearCache] (lines 416-431). *)
Definition clearTenant (businessId : Z) : M unit :=
  keysToDelete <-
    gets (fun w => List.filter (fun key => Js.startsWith key (pretty businessId +:+ "_"))
                     (JsMap.keys (ticketCache w))) ;;
  forEach
    (fun key =>
       modify (set_ticketCache (JsMap.delete key)) ;;
       present <- existsSync (cacheFileOf key) ;;
       if present : bool then unlinkSync (cacheFileOf key) else ret tt)
    keysToDelete.

(** Third branch of [clearCache] (lines 432-446). *)
Definition clearAll : M unit :=
  modify (set_ticketCache (fun _ => [])) ;;
  present <- existsSync (cacheDir E) ;;
  if present : bool
  then
    names <- readdirSync (cacheDir E) ;;
    forEach
      (fun file =>
         if Js.startsWith file "ta_" && Js.endsWith file ".json"
         then unlinkSync (path_join (cacheDir E) file)
         else ret tt)
      names
  else ret tt.

Definition clearCache (businessId : option Z) (service : option string) : M unit :=
  if given_number businessId && given_string service
  then clearExact (default 0 businessId) (default "" service)
  else if given_number businessId
  then clearTenant (default 0 businessId)
  else clearAll.

End Services.

(** ** Sample environments and worlds *)

Module Sample.

Definition failing {A} (msg : string) : result A := Throw (mkError msg).

Definition info7 : jsval :=
  JObj [("businessId", JNum 7);
        ("cuit", JStr "30716539685");
        ("validFrom", JStr "2020-09-13T12:26:40.000Z");
        ("validTo", JStr "2027-01-15T08:00:00.000Z");
        ("password", JStr "secret")].

(** A flat rendering of an object, enough to tell two records apart. *)
Definition stringify (v : jsval) : string :=
  match v with
  | JObj fields =>
      "{" +:+ Js.join "," (map (fun kv => fst kv +:+ ":" +:+ js_to_string (snd kv)) fields)
      +:+ "}"
  | other => js_to_string other
  end.

(** An environment out of the four collaborators the samples vary: the
    fault oracle of the file system, the transport, the XML parser and the
    PEM certificate parser. *)
Definition make
    (fault : nat -> FsOp -> bool)
    (post : nat -> string -> string -> result HttpResponse)
    (parse : jsval -> result jsval)
    (fromPem : string -> result Certificate) : Env :=
  {| cacheDir := ["app"; "cache"];
     certsPath := ["app"; "certs"];
     wsaaUrl := "https://wsaahomo.afip.gov.ar/ws/services/LoginCms";
     clock := fun n => 1700000000000 + Z.of_nat n;
     fs_fault := fault;
     new_Date := fun v =>
       match v with
       | JNum n => timeClip n
       | JStr s =>
           if String.eqb s "2027-01-15T08:00:00.000Z" then Some 1800000000000
           else if String.eqb s "2020-09-13T12:26:40.000Z" then Some 1600000000000
           else None
       | _ => None
       end;
     toISOString := fun t => pretty t;
     JSON_parse := fun text =>
       if String.eqb text "info7" then Ok info7 else failing "SyntaxError";
     JSON_stringify := fun v => Ok (stringify v);
     utf8 := fun b => b;
     axios_post := post;
     xml_parse := parse;
     xml_render := fun r => tra_service r;
     certificateFromPem := fromPem;
     certificateFromDer := fun _ => failing "Too few bytes to parse DER.";
     certificateToPem := fun c => Ok (cert_body c);
     privateKeyFromPem := fun pem => Ok {| key_body := pem |};
     privateKeyToPem := fun k => Ok (key_body k);
     pkcs12FromDer := fun _ _ => failing "Too few bytes to parse DER.";
     toPkcs12Der := fun k c _ => Ok (key_body k +:+ cert_body c);
     generateKeyPair := fun n => Ok {| key_body := pretty n |};
     signCms := fun tra _ _ _ => Ok tra |}.

Definition no_fault : nat -> FsOp -> bool := fun _ _ => false.

Definition no_network : nat -> string -> string -> result HttpResponse :=
  fun _ _ _ => failing "ECONNREFUSED".

Definition no_xml : jsval -> result jsval :=
  fun _ => failing "XML data is accepted in String or Bytes[] form.".

Definition no_pem : string -> result Certificate :=
  fun _ => failing "Invalid PEM formatted message.".

(** No faults, no network, nothing parses. *)
Definition env : Env := make no_fault no_network no_xml no_pem.

Definition ticket (name : string) (expires : Z) : TicketAcceso :=
  {| token := JStr name; sign := JStr "signature"; expirationTime := Some expires |}.

Definition world0 : World :=
  {| ticketCache := []; certsCache := ∅; files := ∅; dirs := ∅;
     fsLog := []; netLog := []; errLog := []; ticks := 0 |}.

Definition minute : Z := 60 * 1000.

(** Three tickets in memory, each with its record on disk. *)
Definition world3 : World :=
  {| ticketCache :=
       [("1_wsfe", ticket "a" (1700000000000 + 60 * minute));
        ("1_ws_sr_padron_a5", ticket "b" (1700000000000 + 60 * minute));
        ("2_wsfe", ticket "c" (1700000000000 + 60 * minute))];
     certsCache := ∅;
     files := {[ ["app"; "cache"; "ta_1_wsfe.json"] := "a";
                 ["app"; "cache"; "ta_1_ws_sr_padron_a5.json"] := "b";
                 ["app"; "cache"; "ta_2_wsfe.json"] := "c" ]};
     dirs := {[ []; ["app"]; ["app"; "cache"] ]};
     fsLog := []; netLog := []; errLog := []; ticks := 0 |}.

(** Tenant 7 has ingested material; nothing is cached. *)
Definition world7 : World :=
  {| ticketCache := []; certsCache := ∅;
     files := {[ ["app"; "certs"; "7"; "info.json"] := "info7";
                 ["app"; "certs"; "7"; "cert.pem"] := "CERTIFICATE";
                 ["app"; "certs"; "7"; "key.pem"] := "PRIVATE KEY" ]};
     dirs := {[ []; ["app"]; ["app"; "certs"]; ["app"; "certs"; "7"] ]};
     fsLog := []; netLog := []; errLog := []; ticks := 0 |}.

(** What the lookup of tenant 7 builds from [info7]. *)
Definition certInfo7 : CertificateInfo :=
  {| ci_businessId := 7;
     cuit := JStr "30716539685";
     certPath := ["app"; "certs"; "7"; "cert.pem"];
     keyPath := ["app"; "certs"; "7"; "key.pem"];
     password := JStr "secret";
     validFrom := Some (Some 1600000000000);
     validTo := Some (Some 1800000000000) |}.

(** [world7] after that lookup. *)
Definition world7_cached : World :=
  {| ticketCache := []; certsCache := {[ 7 := certInfo7 ]};
     files := files world7; dirs := dirs world7;
     fsLog := [OpExists ["app"; "certs"; "7"; "key.pem"];
               OpExists ["app"; "certs"; "7"; "cert.pem"];
               OpRead ["app"; "certs"; "7"; "info.json"];
               OpExists ["app"; "certs"; "7"; "info.json"]];
     netLog := []; errLog := []; ticks := 0 |}.

(** A subject with a tax id in the serial number and another one in the
    common name, as node-forge parses it. *)
Definition subjectBoth : list Attr :=
  [ {| a_type := "2.5.4.3"; a_name := Some "commonName";
       a_shortName := Some "CN"; a_value := "CUIT 20123456786" |};
    {| a_type := "2.5.4.5"; a_name := Some "serialNumber";
       a_shortName := None; a_value := "CUIT 30716539685" |} ].

Definition certificateBoth : Certificate :=
  {| subject :=
       {| attributes := subjectBoth |};
     issuer := {| attributes := [] |};
     notBefore := Some 1600000000000;
     notAfter := Some 1800000000000;
     cert_body := "CERTIFICATE" |}.

Definition env_both : Env :=
  make no_fault no_network no_xml (fun _ => Ok certificateBoth).



(** Two tickets at the edge of the margin: at the first reading of the
    clock the one of tenant 1 has five minutes left to the millisecond, the
    one of tenant 2 a millisecond more. *)
Definition world_margin : World :=
  {| ticketCache :=
       [("1_wsfe", ticket "a" (1700000000000 + 5 * minute));
        ("2_wsfe", ticket "c" (1700000000000 + 5 * minute + 1))];
     certsCache := ∅; files := ∅; dirs := {[ [] ]};
     fsLog := []; netLog := []; errLog := []; ticks := 0 |}.

(** After a restart: the records are on disk, the memory is empty. *)
Definition world_restarted : World :=
  {| ticketCache := []; certsCache := ∅;
     files := {[ ["app"; "cache"; "ta_1_wsfe.json"] := "a";
                 ["app"; "cache"; "ta_2_wsfe.json"] := "c" ]};
     dirs := {[ []; ["app"]; ["app"; "cache"] ]};
     fsLog := []; netLog := []; errLog := []; ticks := 0 |}.

Definition certificate7 : Certificate :=
  {| subject :=
       {| attributes :=
            [ {| a_type := "2.5.4.3"; a_name := Some "commonName";
                 a_shortName := Some "CN"; a_value := "geco" |};
              {| a_type := "2.5.4.5"; a_name := Some "serialNumber";
                 a_shortName := None; a_value := "CUIT 30716539685" |} ] |};
     issuer := {| attributes := [] |};
     notBefore := Some 1600000000000;
     notAfter := Some 1800000000000;
     cert_body := "CERTIFICATE" |}.

Definition pem_ok : string -> result Certificate := fun _ => Ok certificate7.

(** The fault the authority sends when it holds a ticket already. *)
Definition faultBody : string :=
  "<soapenv:Envelope><soapenv:Body><soapenv:Fault><faultcode>ns1:coe.alreadyAuthenticated</faultcode><faultstring>El CEE ya posee un TA valido para el acceso al WSN solicitado</faultstring></soapenv:Fault></soapenv:Body></soapenv:Envelope>".

Definition faultTree : jsval :=
  JObj [("soapenv:Envelope",
         JObj [("soapenv:Body",
                JObj [("soapenv:Fault",
                       JObj [("faultcode", JStr "ns1:coe.alreadyAuthenticated");
                             ("faultstring",
                              JStr "El CEE ya posee un TA valido para el acceso al WSN solicitado")])])])].





(** The fault arrives in a response the transport accepts. *)
Definition env_fault200 : Env :=
  make no_fault
    (fun _ _ _ => Ok {| status := 200; statusText := "OK"; data := JStr faultBody |})
    (fun _ => Ok faultTree) pem_ok.

(** The authority grants a ticket. *)
Definition loginEnvelope : jsval :=
  JObj [("soapenv:Envelope",
         JObj [("soapenv:Body",
                JObj [("ns1:loginCmsResponse",
                       JObj [("ns1:loginCmsReturn", JStr "loginTicketResponse")])])])].

Definition loginTicket : jsval :=
  JObj [("loginTicketResponse",
         JObj [("header", JObj [("expirationTime", JStr "2027-01-15T08:00:00.000Z")]);
               ("credentials", JObj [("token", JStr "TOKEN"); ("sign", JStr "SIGN")])])].

Definition env_granted : Env :=
  make no_fault
    (fun _ _ _ => Ok {| status := 200; statusText := "OK"; data := JStr "loginCmsResponse" |})
    (fun v => match v with
              | JStr s => if String.eqb s "loginCmsResponse" then Ok loginEnvelope
                          else Ok loginTicket
              | _ => failing "XML data is accepted in String or Bytes[] form."
              end)
    pem_ok.

End Sample.

(** ** Predicates of the specification *)

(** A ticket is usable at [now]: its expiration less five minutes, which
    are 300000 milliseconds, is strictly later than [now]. *)
Definition usable (t : TicketAcceso) (now : Z) : Prop :=
  exists e, expirationTime t = Some e /\ e - 300000 > now.

Definition date_ok (d : Date) : Prop :=
  forall e, d = Some e -> is_time e.



(** No call to the file system fails by itself. *)
Definition no_faults (E : Env) : Prop :=
  forall n op, fs_fault E n op = false.












(** The body of an HTTP error response carries, within the 1000 characters
    the code keeps of it, one of the two marks of "a ticket already exists
    on the side of the authority". *)
Definition indicatesAlreadyIssued (resp : HttpResponse) : Prop :=
  exists text,
    data resp = JStr text
    /\ (Js.includes (Js.substring0 1000 text) "alreadyAuthenticated"
        || Js.includes (Js.substring0 1000 text) "ya posee un TA valido") = true.

(** [logger.error] of the catch of [requestTicketAcceso]. *)
Definition requestFailureLog (b : Z) (msg : string) : string :=
  "Error requesting ticket acceso for business " +:+ pretty b +:+ ": " +:+ msg.

Definition missingCertificateMessage (b : Z) : string :=
  "No certificate found for business " +:+ pretty b.


(** The bytes are read as the certificate [c]: as PEM, or else as DER. *)
Definition parsesTo (E : Env) (crtBuffer : string) (c : Certificate) : Prop :=
  certificateFromPem E (utf8 E crtBuffer) = Ok c
  \/ ((exists e, certificateFromPem E (utf8 E crtBuffer) = Throw e)
      /\ certificateFromDer E crtBuffer = Ok c).

(** ** Reasoning about methods *)

(** The method leaves the component [f] of the world as it was. *)
Definition preserves {X A} (f : World -> X) (m : M A) : Prop :=
  forall w, f (m w).2 = f w.

(** [Q] holds of the result and of the world the method leaves. *)
Definition wp {A} (m : M A) (Q : result A -> World -> Prop) (w : World) : Prop :=
  Q (m w).1 (m w).2.

(** ** Further predicates and samples *)

(** Between [w] and [w'] the fast tier changed at most at [key], and the
    files at most at the durable record of [key]. *)
Definition only_key_touched (E : Env) (key : string) (w w' : World) : Prop :=
  (forall k, k <> key -> JsMap.get k (ticketCache w') = JsMap.get k (ticketCache w))
  /\ (forall p, p <> cacheFileOf E key -> files w' !! p = files w !! p).

(** At most one request was posted between [w] and [w']. *)
Definition at_most_one_post (E : Env) (w w' : World) : Prop :=
  netLog w' = netLog w
  \/ exists cms, netLog w' = (wsaaUrl E, soapRequestOf cms) :: netLog w.

(** ** More sample environments *)

Module Scenario.

(** The environment [E] with another fault oracle, JSON parser, rendering
    of dates and PKCS#12 decoder. *)
Definition custom (E : Env)
    (fault : nat -> FsOp -> bool)
    (parse : string -> result jsval)
    (toISO : Z -> string)
    (p12 : string -> string -> result Pkcs12) : Env :=
  {| cacheDir := cacheDir E; certsPath := certsPath E; wsaaUrl := wsaaUrl E;
     clock := clock E; fs_fault := fault; new_Date := new_Date E;
     toISOString := toISO; JSON_parse := parse;
     JSON_stringify := JSON_stringify E; utf8 := utf8 E;
     axios_post := axios_post E; xml_parse := xml_parse E;
     xml_render := xml_render E; certificateFromPem := certificateFromPem E;
     certificateFromDer := certificateFromDer E;
     certificateToPem := certificateToPem E;
     privateKeyFromPem := privateKeyFromPem E;
     privateKeyToPem := privateKeyToPem E; pkcs12FromDer := p12;
     toPkcs12Der := toPkcs12Der E; generateKeyPair := generateKeyPair E;
     signCms := signCms E |}.


Definition with_fs_fault (E : Env) (fault : nat -> FsOp -> bool) : Env :=
  custom E fault (JSON_parse E) (toISOString E) (pkcs12FromDer E).




(** The authority grants tickets; the disk takes no writes. *)
Definition read_only : nat -> FsOp -> bool :=
  fun _ op =>
    match op with
    | OpWrite _ | OpMkdir _ | OpUnlink _ => true
    | _ => false
    end.

Definition env_read_only : Env := with_fs_fault Sample.env_granted read_only.

(** The ticket [Sample.env_granted] hands out. *)
Definition grantedTicket : TicketAcceso :=
  {| token := JStr "TOKEN"; sign := JStr "SIGN";
     expirationTime := Some 1800000000000 |}.

End Scenario.

(** The message of the error for a fault with the given code and text, as
    lines 336-349 of [parseResponse] choose it. *)
Definition classifyFault (code text : string) : string :=
  if Js.includes code "cms.cert.untrusted" || Js.includes text "Certificado no emitido"
  then untrustedMessage
  else if Js.includes text "expired" || Js.includes text "expirado"
  then expiredMessage
  else "AFIP WSAA Fault: " +:+ text.

(** What [parseResponse] takes for the body, the login response and the
    fault of a parsed answer (lines 313-316, 322 and 326). *)
Definition bodyOf (result : jsval) : jsval :=
  js_or (opt_prop (opt_prop result "soap:Envelope") " soap:Body")
    (js_or (opt_prop (opt_prop result "soapenv:Envelope") "soapenv:Body")
           (opt_prop (opt_prop result "env:Envelope") "env:Body")).

Definition loginResponseOf (body : jsval) : jsval :=
  js_or (opt_prop body "loginCmsResponse") (opt_prop body "ns1:loginCmsResponse").

Definition faultOf (body : jsval) : jsval :=
  js_or (opt_prop body "soap:Fault")
    (js_or (opt_prop body "soapenv:Fault") (opt_prop body "env:Fault")).

(** A value on which [.includes] is no function: a number, a boolean, an
    object (an element that has attributes or children). *)
Definition no_includes (v : jsval) : Prop :=
  match v with
  | JNum _ | JBool _ | JObj _ => True
  | _ => False
  end.

(** An answer that grants a ticket inside an envelope with the prefix
    [soap:]. *)
Definition soapPrefixedEnvelope : jsval :=
  JObj [("soap:Envelope",
         JObj [("soap:Body",
                JObj [("loginCmsResponse",
                       JObj [("loginCmsReturn", JStr "loginTicketResponse")])])])].

Definition env_soap_prefix : Env :=
  Sample.make Sample.no_fault Sample.no_network
    (fun _ => Ok soapPrefixedEnvelope) Sample.pem_ok.

(** The object [saveCertificateFromPfx] writes to info.json (lines
    123-130). *)
Definition pfxInfo (businessId : Z) (cuit isoFrom isoTo password createdAt : string)
    : jsval :=
  JObj [("businessId", JNum businessId);
        ("cuit", JStr cuit);
        ("validFrom", JStr isoFrom);
        ("validTo", JStr isoTo);
        ("password", JStr password);
        ("createdAt", JStr createdAt)].

(** The date [t] survives [toISOString] followed by [new Date]. *)
Definition iso_round_trip (E : Env) (t : Z) : Prop :=
  toISOString E t <> "" /\ new_Date E (JStr (toISOString E t)) = Some t.

(** [JSON.parse] gives back the value [v] from what [JSON.stringify] makes
    of it. *)
Definition json_round_trip (E : Env) (v : jsval) : Prop :=
  forall text, JSON_stringify E v = Ok text -> JSON_parse E text = Ok v.

(** A PKCS#12 bundle can be decoded, dates are rendered as ISO strings and
    the info.json of tenant 7 can be read back. *)
Definition iso7 (t : Z) : string :=
  if t =? 1800000000000 then "2027-01-15T08:00:00.000Z"
  else if t =? 1600000000000 then "2020-09-13T12:26:40.000Z"
  else pretty t.

Definition bundle7 : Pkcs12 :=
  {| certBag := Some (Some Sample.certificate7);
     keyBag := Some (Some {| key_body := "PRIVATE KEY" |}) |}.

Definition pfxInfo7 : jsval :=
  pfxInfo 7 "30716539685" "2020-09-13T12:26:40.000Z" "2027-01-15T08:00:00.000Z"
    "secret" "1700000000000".

Definition parse_pfxInfo7 (text : string) : result jsval :=
  if String.eqb text (Sample.stringify pfxInfo7) then Ok pfxInfo7
  else Sample.failing "SyntaxError".

Definition env_pfx : Env :=
  Scenario.custom Sample.env Sample.no_fault parse_pfxInfo7 iso7
    (fun _ _ => Ok bundle7).

(** ** The HTTP layer ([auth.middleware.ts], [invoice.controller.ts],
    [server.ts]) *)

(** [parseInt(s)] without a radix; [None] is [NaN]. The number is kept as
    the integer the digits denote. *)
Module ParseInt.

Definition digit_value (c : ascii) : option Z :=
  let n := Z.of_nat (nat_of_ascii c) in
  if (48 <=? n) && (n <=? 57) then Some (n - 48)
  else if (97 <=? n) && (n <=? 122) then Some (n - 87)
  else if (65 <=? n) && (n <=? 90) then Some (n - 55)
  else None.

Fixpoint skip_space (s : string) : string :=
  match s with
  | String c r => if Js.is_space c then skip_space r else s
  | EmptyString => EmptyString
  end.

(** The longest prefix of digits of the radix, read from the left. *)
Fixpoint read_digits (radix : Z) (s : string) (acc : option Z) : option Z :=
  match s with
  | String c r =>
      match digit_value c with
      | Some d =>
          if d <? radix then read_digits radix r (Some (radix * default 0 acc + d))
          else acc
      | None => acc
      end
  | EmptyString => acc
  end.

Definition parseInt (s : string) : option Z :=
  let trimmed := skip_space s in
  let signed :=
    match trimmed with
    | String "-" r => (-1, r)
    | String "+" r => (1, r)
    | _ => (1, trimmed)
    end in
  let prefixed :=
    match snd signed with
    | String "0" (String "x" r) => (16, r)
    | String "0" (String "X" r) => (16, r)
    | other => (10, other)
    end in
  match read_digits (fst prefixed) (snd prefixed) None with
  | Some n => Some (fst signed * n)
  | None => None
  end.

End ParseInt.

(** What the handlers read of a request: the header [x-api-key], the
    parameters of the query string, each given at most once, and the parsed
    JSON body. *)
Record Request : Type := {
  apiKeyHeader : option string;
  query : list (string * string);
  body : jsval;
}.

(** [res.status(code).json(payload)]; [res.json(payload)] has code 200. *)
Record Reply : Type := {
  code : Z;
  payload : jsval;
}.

(** A middleware answers the request or calls [next()]. *)
Inductive Outcome (A : Type) : Type :=
| Responded (r : Reply)
| Next (a : A).
Arguments Responded {A} r.
Arguments Next {A} a.

Definition failure (status : Z) (msg : string) : Reply :=
  {| code := status;
     payload := JObj [("success", JBool false); ("error", JStr msg)] |}.

Definition success (msg : string) : Reply :=
  {| code := 200;
     payload := JObj [("success", JBool true); ("message", JStr msg)] |}.

(** [req.query[name]] *)
Fixpoint queryParam (name : string) (q : list (string * string)) : jsval :=
  match q with
  | [] => JUndefined
  | (k, v) :: r => if String.eqb name k then JStr v else queryParam name r
  end.

(** A [new WSAAService()]: the method runs on an instance of its own, whose
    map of tickets starts empty and is dropped with the instance; the map of
    the singleton is the one of the world. *)
Definition freshWSAAService {A} (m : M A) : M A :=
  fun w =>
    match m (set_ticketCache (fun _ => []) w) with
    | (r, w') => (r, set_ticketCache (fun _ => ticketCache w) w')
    end.

Section Http.

Variable E : Env.

(** [config.apiKey] *)
Variable apiKey : string.

Definition authenticateApiKey (req : Request) : Outcome unit :=
  match apiKeyHeader req with
  | None => Responded (failure 401 "API key no proporcionado")
  | Some given =>
      if String.eqb given "" then Responded (failure 401 "API key no proporcionado")
      else if negb (String.eqb given apiKey)
      then Responded (failure 403 "API key inválido")
      else Next tt
  end.

(** [next()] is called with the number stored in [req.businessId]. *)
Definition validateBusinessId (req : Request) : Outcome Z :=
  let businessId :=
    js_or (queryParam "businessId" (query req)) (opt_prop (body req) "businessId") in
  if negb (truthy businessId)
  then Responded (failure 400 "businessId no proporcionado")
  else
    let businessIdNum :=
      match businessId with
      | JNum n => Some n
      | other => ParseInt.parseInt (js_to_string other)
      end in
    match businessIdNum with
    | None => Responded (failure 400 "businessId inválido")
    | Some n =>
        if n <=? 0 then Responded (failure 400 "businessId inválido")
        else Next n
    end.

(** The controller [clearCache] of [invoice.controller.ts]. *)
Definition clearCacheController (req : Request) : M Reply :=
  let businessId := queryParam "businessId" (query req) in
  let service := queryParam "service" (query req) in
  try_catch
    (if truthy businessId && truthy service
     then
       freshWSAAService
         (clearCache E (ParseInt.parseInt (js_to_string businessId))
            (Some (js_to_string service))) ;;
       ret (success ("Cache cleared for business " +:+ js_to_string businessId
                     +:+ ", service " +:+ js_to_string service))
     else if truthy businessId
     then
       freshWSAAService
         (clearCache E (ParseInt.parseInt (js_to_string businessId)) None) ;;
       ret (success ("All cache cleared for business " +:+ js_to_string businessId))
     else
       freshWSAAService (clearCache E None None) ;;
       ret (success "All cache cleared"))
    (fun error =>
       logger_error ("Error in clearCache controller: " +:+ message error) ;;
       ret (failure 500 "Error clearing cache")).

(** [app.use('/afip', authenticateApiKey)] and
    [app.delete('/afip/cache', validateBusinessId, clearCache)]. *)
Definition deleteCacheRoute (req : Request) : M Reply :=
  match authenticateApiKey req with
  | Responded r => ret r
  | Next _ =>
      match validateBusinessId req with
      | Responded r => ret r
      | Next _ => clearCacheController req
      end
  end.

End Http.

(** Requests to the route DELETE /afip/cache, with the API key "k". *)
Definition clearRequest (q : list (string * string)) (payload : jsval) : Request :=
  {| apiKeyHeader := Some "k"; query := q; body := payload |}.

(** ** The signing request ([generateCSR] of [certificate.service.ts]) *)

Section Csr.

Variable E : Env.

(** node-forge: a certification request with the given subject and the
    public key of the pair, signed with its private key, as PEM. *)
Variable signedRequestPem : PrivateKey -> list (string * string) -> result string.


End Csr.

(** ** Deleting a certificate ([deleteCertificate] of
    [invoice.controller.ts]) *)

Definition ENOTEMPTY : JsError := mkError "ENOTEMPTY: directory not empty".

Section DeleteCertificate.

Variable E : Env.

(** Does the [rmdirSync] made after [n] logged calls fail by itself. *)
Variable rmdir_fault : nat -> Path -> bool.

(** [fs.rmdirSync(p)]: the directory has to be there and to be empty. *)
Definition rmdirSync (p : Path) : M unit :=
  n <- gets (fun w => length (fsLog w)) ;;
  if rmdir_fault n p then throw EIO
  else
    there <- gets (is_dir p) ;;
    if negb there then throw ENOENT
    else
      children <- gets (fun w => omap (child_name p) (elements (dom (files w)))
                                 ++ omap (child_name p) (elements (dirs w))) ;;
      match children with
      | [] => modify (set_dirs (fun ds => ds ∖ {[ p ]}))
      | _ => throw ENOTEMPTY
      end.

Definition deleteCertificateController (req : Request) : M Reply :=
  try_catch
    (businessId <- lift (get_prop (body req) "businessId") ;;
     if negb (truthy businessId)
     then ret (failure 400 "businessId es requerido")
     else
       let certDir := path_join (certsPath E) (js_to_string businessId) in
       present <- existsSync certDir ;;
       if present : bool
       then
         names <- readdirSync E certDir ;;
         forEach (fun file => unlinkSync E (path_join certDir file)) names ;;
         rmdirSync certDir ;;
         ret (success "Certificado y clave privada eliminados correctamente")
       else
         ret (success
                "No se encontraron archivos de certificado (ya estaba eliminado)"))
    (fun error =>
       logger_error ("Error in deleteCertificate controller: " +:+ message error) ;;
       ret (failure 500 (if String.eqb (message error) ""
                         then "Error interno del servidor"
                         else message error))).

End DeleteCertificate.

(** ** The taxpayer registry ([consultarPadron] of [padron.service.ts]) *)

(** The [data] of a [PadronPersona]. *)
Record PadronData : Type := {
  razonSocial : jsval;
  domicilio : string;
  condicionIVA : jsval;
  tipoDocumento : string;
  numeroDocumento : string;
  provincia : jsval;
  localidad : jsval;
  codigoPostal : jsval;
}.

(** [PadronPersona]: [Found data] is [{ success: true, data }],
    [NotFound error] is [{ success: false, error }]. *)
Inductive PadronPersona : Type :=
| Found (data : PadronData)
| NotFound (error : string).

(** [impuestos.find((imp) => imp.idImpuesto === 30)] *)
Fixpoint findIva (impuestos : list jsval) : result jsval :=
  match impuestos with
  | [] => Ok JUndefined
  | imp :: rest =>
      match get_prop imp "idImpuesto" with
      | Throw e => Throw e
      | Ok (JNum 30) => Ok imp
      | Ok _ => findIva rest
      end
  end.

(** [v === 'ACTIVO'] *)
Definition isActivo (v : jsval) : bool :=
  match v with
  | JStr s => String.eqb s "ACTIVO"
  | _ => false
  end.

Section Padron.

Variable E : Env.

(** [config.environment] *)
Variable environment : string.

(** The package soap: [createClientAsync(url, options)], and the first
    element of what [client.getPersonaAsync(request)] resolves to. *)
Variable Client : Type.
Variable createClientAsync : string -> M Client.
Variable getPersonaAsync : Client -> jsval -> M jsval.

(** Lines 198-220: the address, out of [persona.domicilioFiscal]. *)
Definition withDomicilio (dom : jsval) (datos : PadronData) : PadronData :=
  let direccion := opt_prop dom "direccion" in
  let localidad' := opt_prop dom "localidad" in
  let provincia' :=
    js_or (opt_prop dom "descripcionProvincia")
      (js_or (opt_prop dom "descProvicia") (opt_prop dom "desc_provincia")) in
  let cp := js_or (opt_prop dom "codPostal") (opt_prop dom "cod_postal") in
  let partes :=
    (if truthy direccion then [js_to_string direccion] else [])
    ++ (if truthy localidad' then [js_to_string localidad'] else [])
    ++ (if truthy provincia' then [js_to_string provincia'] else [])
    ++ (if truthy cp then ["(" +:+ js_to_string cp +:+ ")"] else []) in
  {| razonSocial := razonSocial datos;
     domicilio := Js.join ", " partes;
     condicionIVA := condicionIVA datos;
     tipoDocumento := tipoDocumento datos;
     numeroDocumento := numeroDocumento datos;
     provincia := if truthy provincia' then provincia' else provincia datos;
     localidad := if truthy localidad' then localidad' else localidad datos;
     codigoPostal := if truthy cp then cp else codigoPostal datos |}.

Definition withCondicionIVA (v : jsval) (datos : PadronData) : PadronData :=
  {| razonSocial := razonSocial datos;
     domicilio := domicilio datos;
     condicionIVA := v;
     tipoDocumento := tipoDocumento datos;
     numeroDocumento := numeroDocumento datos;
     provincia := provincia datos;
     localidad := localidad datos;
     codigoPostal := codigoPostal datos |}.

(** [JSON.stringify(v, ...).substring(0, n)], written to the log. *)
Definition logJson (v : jsval) : M unit :=
  lift (JSON_stringify E v) ;; ret tt.

Definition consultarPadron (businessId : Z) (cuit' : string) : M PadronPersona :=
  try_catch
    (let cuitLimpio := normalizarDocumento cuit' in
     if negb (validarCUIT cuitLimpio)
     then ret (NotFound
                 "CUIT inválido. Debe tener 11 dígitos y dígito verificador correcto.")
     else
       certInfo <- getCertificateInfo E businessId ;;
       match certInfo with
       | None => ret (NotFound "No se encontró certificado para el negocio")
       | Some certInfo =>
           if negb (truthy (cuit certInfo))
           then ret (NotFound "No se encontró certificado para el negocio")
           else
             cuitCertificado <-
               lift (match cuit certInfo with
                     | JStr c => Ok (normalizarDocumento c)
                     | _ => Throw TypeError
                     end) ;;
             ta <- getTicketAcceso E businessId "ws_sr_padron_a5" ;;
             match ta with
             | None =>
                 ret (NotFound
                        "No se pudo obtener ticket de acceso de AFIP. Verifique que el certificado esté configurado correctamente.")
             | Some ta =>
                 if negb (truthy (token ta)) || negb (truthy (sign ta))
                 then
                   ret (NotFound
                          "No se pudo obtener ticket de acceso de AFIP. Verifique que el certificado esté configurado correctamente.")
                 else
                   let wsdlUrl :=
                     if String.eqb environment "produccion"
                     then "https://aws.afip.gov.ar/sr-padron/webservices/personaServiceA5?WSDL"
                     else "https://awshomo.afip.gov.ar/sr-padron/webservices/personaServiceA5?WSDL" in
                   client <- createClientAsync wsdlUrl ;;
                   let request :=
                     JObj [("token", token ta);
                           ("sign", sign ta);
                           ("cuitRepresentada", JStr cuitCertificado);
                           ("idPersona", JStr cuitLimpio)] in
                   result <- getPersonaAsync client request ;;
                   logJson result ;;
                   if negb (truthy result)
                      || negb (truthy (opt_prop result "personaReturn"))
                   then ret (NotFound "No se encontraron datos para el CUIT ingresado")
                   else
                     let personaReturn := opt_prop result "personaReturn" in
                     let persona :=
                       js_or (opt_prop personaReturn "datosGenerales") personaReturn in
                     logJson persona ;;
                     (if truthy (opt_prop persona "domicilioFiscal")
                      then logJson (opt_prop persona "domicilioFiscal")
                      else ret tt) ;;
                     (if truthy (opt_prop persona "impuesto")
                      then logJson (opt_prop persona "impuesto")
                      else ret tt) ;;
                     let datos0 :=
                       {| razonSocial :=
                            js_or (opt_prop persona "razonSocial")
                              (js_or (opt_prop persona "nombre") (JStr ""));
                          domicilio := "";
                          condicionIVA := JStr "";
                          tipoDocumento := "CUIT";
                          numeroDocumento := cuitLimpio;
                          provincia := JStr "";
                          localidad := JStr "";
                          codigoPostal := JStr "" |} in
                     let datos1 :=
                       if truthy (opt_prop persona "domicilioFiscal")
                       then withDomicilio (opt_prop persona "domicilioFiscal") datos0
                       else datos0 in
                     let impuestos :=
                       js_or (opt_prop (opt_prop personaReturn "datosRegimenGeneral")
                                "impuesto")
                         (js_or (opt_prop persona "impuestos") (JArr [])) in
                     datos2 <-
                       match impuestos with
                       | JArr items =>
                           iva <- lift (findIva items) ;;
                           if truthy iva && truthy (opt_prop iva "descripcionImpuesto")
                           then ret (withCondicionIVA
                                       (opt_prop iva "descripcionImpuesto") datos1)
                           else ret datos1
                       | _ => ret datos1
                       end ;;
                     let datos3 :=
                       if negb (truthy (condicionIVA datos2))
                          && truthy (opt_prop persona "estadoClave")
                          && isActivo (opt_prop persona "estadoClave")
                       then withCondicionIVA (JStr "Responsable Inscripto") datos2
                       else datos2 in
                     let datos4 :=
                       if negb (truthy (condicionIVA datos3))
                       then withCondicionIVA (JStr "No especificado") datos3
                       else datos3 in
                     if negb (truthy (razonSocial datos4))
                        && String.eqb (domicilio datos4) ""
                     then
                       ret (NotFound
                              "El CUIT no tiene datos registrados en el padrón de AFIP o tiene pendiente la constitución del domicilio fiscal electrónico.")
                     else ret (Found datos4)
             end
       end)
    (fun error =>
       logger_error ("Error consultando padrón AFIP: " +:+ message error) ;;
       if Js.includes (message error) "No autorizado"
       then ret (NotFound
                   "No está autorizado para consultar el padrón. Verifique que el servicio ws_sr_padron_a5 esté habilitado en AFIP.")
       else if Js.includes (message error) "No existe"
       then ret (NotFound "CUIT no encontrado en el padrón de AFIP")
       else ret (NotFound ("Error al consultar AFIP: " +:+ message error))).

End Padron.

(** An answer of the registry, and the data [consultarPadron] makes of
    it. *)
Definition personaGeco : jsval :=
  JObj [("personaReturn",
         JObj [("datosGenerales",
                JObj [("razonSocial", JStr "GECO SA");
                      ("domicilioFiscal",
                       JObj [("direccion", JStr "Calle 1");
                             ("localidad", JStr "CABA");
                             ("codPostal", JNum 1000)]);
                      ("estadoClave", JStr "ACTIVO")])])].

Definition datosGeco : PadronData :=
  {| razonSocial := JStr "GECO SA";
     domicilio := "Calle 1, CABA, (1000)";
     condicionIVA := JStr "Responsable Inscripto";
     tipoDocumento := "CUIT";
     numeroDocumento := "33693450239";
     provincia := JStr "";
     localidad := JStr "CABA";
     codigoPostal := JNum 1000 |}.

(** The path is no entry of the directory of the tenant. *)
Definition outside_tenant (E : Env) (businessId : Z) (p : Path) : Prop :=
  forall name, p <> certDirOf E businessId ++ [name].

(** A certificate that names no tax id anywhere. *)
Definition certificateAnon : Certificate :=
  {| subject :=
       {| attributes :=
            [ {| a_type := "2.5.4.3"; a_name := Some "commonName";
                 a_shortName := Some "CN"; a_value := "geco" |} ] |};
     issuer := {| attributes := [] |};
     notBefore := Some 1600000000000;
     notAfter := Some 1800000000000;
     cert_body := "CERTIFICATE" |}.

Definition env_anon : Env :=
  Sample.make Sample.no_fault Sample.no_network Sample.no_xml
    (fun _ => Ok certificateAnon).

(** * Properties *)

(** ** Tax-id validation *)

Example validarCUIT_afip : validarCUIT "33693450239" = true.
Proof. reflexivity. Qed.

Example validarCUIT_hyphens : validarCUIT "33-69345023-9" = true.
Proof. reflexivity. Qed.

Example validarCUIT_short : validarCUIT "2012345678" = false.
Proof. reflexivity. Qed.

Example validarCUIT_letters : validarCUIT "20a23456789" = false.
Proof. reflexivity. Qed.

Example validarCUIT_slashes : validarCUIT "20/12345678/9" = false.
Proof. reflexivity. Qed.

Lemma is_digit_kept (c : ascii) :
  Js.is_digit c = true -> negb (Ascii.eqb c "-"%char || Js.is_space c) = true.
Proof. destruct c as [[] [] [] [] [] [] [] []]; intros H; try discriminate H; reflexivity. Qed.

Lemma Number_digit_range (c : ascii) :
  Js.is_digit c = true -> 0 <= Js.Number_digit c <= 9.
Proof.
  unfold Js.is_digit, Js.Number_digit. intros H.
  apply andb_prop in H as [H1 H2].
  apply Nat.leb_le in H1. apply Nat.leb_le in H2. lia.
Qed.

Lemma normalizar_digits (s : string) :
  Js.all_chars Js.is_digit s = true -> normalizarDocumento s = s.
Proof.
  unfold normalizarDocumento. induction s as [|c s IH]; simpl; [reflexivity|].
  intros H. apply andb_prop in H as [Hc Hs].
  rewrite (is_digit_kept c Hc). f_equal. exact (IH Hs).
Qed.

Lemma test_digits_all (s : string) :
  Js.test_digits s = true -> Js.all_chars Js.is_digit s = true.
Proof. destruct s; [discriminate|]. exact id. Qed.

Lemma all_test_digits (s : string) :
  s <> "" -> Js.all_chars Js.is_digit s = true -> Js.test_digits s = true.
Proof. destruct s; [congruence|]. intros _. exact id. Qed.

(** The loop of the code and the sum of the specification agree. *)
Lemma check_on_digits (d0 d1 d2 d3 d4 d5 d6 d7 d8 d9 d10 : Z) :
  let digitos := [d0; d1; d2; d3; d4; d5; d6; d7; d8; d9; d10] in
  0 <= d0 -> 0 <= d1 -> 0 <= d2 -> 0 <= d3 -> 0 <= d4 -> 0 <= d5 ->
  0 <= d6 -> 0 <= d7 -> 0 <= d8 -> 0 <= d9 ->
  (let suma := fold_left
                 (fun suma i => suma + nth i digitos 0 * nth i multiplicadores 0)
                 (seq 0 10) 0 in
   let resultado := 11 - Z.rem suma 11 in
   if resultado =? 11 then d10 =? 0
   else if resultado =? 10 then d10 =? 9
   else d10 =? resultado) = true
  <-> CuitSpec.check_digit (take 10 digitos) = d10.
Proof.
  intros digitos; subst digitos. intros.
  unfold CuitSpec.check_digit, CuitSpec.weighted_sum. cbn [fold_left seq nth multiplicadores take zip_with foldr CuitSpec.weights].
  rewrite Z.rem_mod_nonneg by lia.
  replace (d0 * 5 + (d1 * 4 + (d2 * 3 + (d3 * 2 + (d4 * 7 + (d5 * 6 + (d6 * 5 + (d7 * 4 + (d8 * 3 + (d9 * 2 + 0))))))))))
    with (0 + d0 * 5 + d1 * 4 + d2 * 3 + d3 * 2 + d4 * 7 + d5 * 6 + d6 * 5 + d7 * 4 + d8 * 3 + d9 * 2) by lia.
  set (r := 11 - _ mod 11).
  destruct (decide (r = 11)) as [->|Hr11]; [simpl; lia|].
  destruct (r =? 11) eqn:E11; [lia|].
  destruct (decide (r = 10)) as [->|Hr10]; [simpl; lia|].
  destruct (r =? 10) eqn:E10; lia.
Qed.

Lemma validarCUIT_eleven (s : string) :
  CuitSpec.eleven_digits s -> (validarCUIT s = true <-> CuitSpec.valid s).
Proof.
  intros [Hlen Hdig]. unfold validarCUIT, CuitSpec.valid, CuitSpec.digits.
  rewrite (normalizar_digits s Hdig), Hlen.
  assert (Hne : s <> "") by (intros ->; discriminate Hlen).
  rewrite (all_test_digits s Hne Hdig).
  cbn [Nat.eqb negb orb].
  do 11 (destruct s as [|? s]; [discriminate Hlen|]).
  destruct s; [|discriminate Hlen].
  cbn [Js.all_chars] in Hdig.
  repeat match goal with
         | H : (_ && _)%bool = true |- _ => apply andb_prop in H as [? ?]
         end.
  repeat match goal with
         | H : Js.is_digit _ = true |- _ => apply Number_digit_range in H
         end.
  cbn [Js.chars list_ascii_of_string map].
  change (nth 10 [Js.Number_digit a; Js.Number_digit a0; Js.Number_digit a1;
                  Js.Number_digit a2; Js.Number_digit a3; Js.Number_digit a4;
                  Js.Number_digit a5; Js.Number_digit a6; Js.Number_digit a7;
                  Js.Number_digit a8; Js.Number_digit a9] 0)
    with (Js.Number_digit a9).
  apply check_on_digits; lia.
Qed.

Lemma validarCUIT_rejects (s : string) :
  ~ CuitSpec.eleven_digits (normalizarDocumento s) -> validarCUIT s = false.
Proof.
  intros Hnot. unfold validarCUIT.
  destruct (String.length (normalizarDocumento s) =? 11)%nat eqn:Hlen; [|reflexivity].
  destruct (Js.test_digits (normalizarDocumento s)) eqn:Hd; [|reflexivity].
  exfalso. apply Hnot. split.
  - by apply Nat.eqb_eq.
  - by apply test_digits_all.
Qed.

(** C2. On a string of exactly eleven decimal digits [validarCUIT] accepts
    if and only if the check digit [11 - (weighted sum of the first ten
    digits with weights 5,4,3,2,7,6,5,4,3,2) mod 11], with 11 read as 0 and
    10 read as 9, is the eleventh digit; and an input that is not eleven
    digits once normalised is rejected. *)
Theorem validarCUIT_check_digit (s : string) :
  (CuitSpec.eleven_digits s -> (validarCUIT s = true <-> CuitSpec.valid s))
  /\ (~ CuitSpec.eleven_digits (normalizarDocumento s) -> validarCUIT s = false).
Proof. split; [apply validarCUIT_eleven | apply validarCUIT_rejects]. Qed.

Lemma validarCUIT_check_digit_witness :
  (validarCUIT "33693450239" = true <-> CuitSpec.valid "33693450239")
  /\ validarCUIT "20/12345678/9" = false.
Proof.
  split.
  - apply (proj1 (validarCUIT_check_digit "33693450239")).
    split; reflexivity.
  - apply (proj2 (validarCUIT_check_digit "20/12345678/9")).
    intros [Hlen _]. vm_compute in Hlen. discriminate Hlen.
Defined.

(** ** The in-memory map *)

Lemma JsMap_get_delete_eq {V} (k : string) (m : list (string * V)) :
  JsMap.get k (JsMap.delete k m) = None.
Proof.
  induction m as [|[k' v] m IH]; simpl; [reflexivity|].
  destruct (String.eqb k k') eqn:Hk; simpl; [exact IH|]. by rewrite Hk.
Qed.

Lemma JsMap_get_delete_ne {V} (k k' : string) (m : list (string * V)) :
  k' <> k -> JsMap.get k' (JsMap.delete k m) = JsMap.get k' m.
Proof.
  intros Hne. induction m as [|[k0 v] m IH]; simpl; [reflexivity|].
  destruct (String.eqb k k0) eqn:Hk; simpl.
  - apply String.eqb_eq in Hk as <-.
    destruct (String.eqb k' k) eqn:Hk'; [|exact IH].
    apply String.eqb_eq in Hk'. contradiction.
  - by rewrite IH.
Qed.

Lemma JsMap_get_set_eq {V} (k : string) (v : V) (m : list (string * V)) :
  JsMap.get k (JsMap.set k v m) = Some v.
Proof.
  induction m as [|[k' v'] m IH]; simpl.
  - by rewrite String.eqb_refl.
  - destruct (String.eqb k k') eqn:Hk; simpl; by rewrite Hk.
Qed.

Lemma JsMap_get_set_ne {V} (k k' : string) (v : V) (m : list (string * V)) :
  k' <> k -> JsMap.get k' (JsMap.set k v m) = JsMap.get k' m.
Proof.
  intros Hne. induction m as [|[k0 v0] m IH]; simpl.
  - destruct (String.eqb k' k) eqn:Hk'; [|reflexivity].
    apply String.eqb_eq in Hk'. contradiction.
  - destruct (String.eqb k k0) eqn:Hk; simpl.
    + apply String.eqb_eq in Hk as <-.
      destruct (String.eqb k' k) eqn:Hk'; [|reflexivity].
      apply String.eqb_eq in Hk'. contradiction.
    + by rewrite IH.
Qed.


(** ** The safety margin *)

Lemma safetyMargin_minutes : safetyMargin = 300000.
Proof. reflexivity. Qed.

Lemma isTicketValid_run (E : Env) (t : TicketAcceso) (w : World) :
  isTicketValid E t w =
  (Ok (date_gt (match expirationTime t with
                | Some e => timeClip (e - safetyMargin)
                | None => None
                end) (clock E (ticks w))), tick w).
Proof. reflexivity. Qed.

Lemma timeClip_in (x : Z) : is_time x -> timeClip x = Some x.
Proof.
  unfold is_time, timeClip. intros [H1 H2].
  apply Z.leb_le in H1. apply Z.leb_le in H2. by rewrite H1, H2.
Qed.

Lemma timeClip_out (x : Z) : ~ is_time x -> timeClip x = None.
Proof.
  unfold is_time, timeClip. intros H.
  destruct (- maxTime <=? x) eqn:H1; [|reflexivity].
  destruct (x <=? maxTime) eqn:H2; [|reflexivity].
  apply Z.leb_le in H1. apply Z.leb_le in H2. lia.
Qed.

Lemma is_time_dec (x : Z) : {is_time x} + {~ is_time x}.
Proof. unfold is_time. apply and_dec; apply Z_le_dec. Defined.

Lemma margin_usable (t : TicketAcceso) (now : Z) :
  date_ok (expirationTime t) -> is_time now ->
  date_gt (match expirationTime t with
           | Some e => timeClip (e - safetyMargin)
           | None => None
           end) now = true
  <-> usable t now.
Proof.
  intros Hok Hnow. unfold usable.
  destruct (expirationTime t) as [e|] eqn:He.
  - specialize (Hok e eq_refl).
    destruct (is_time_dec (e - safetyMargin)) as [Hin|Hout].
    + rewrite (timeClip_in _ Hin). cbn [date_gt]. rewrite Z.gtb_lt.
      rewrite safetyMargin_minutes. split.
      * intros H. exists e. split; [reflexivity | lia].
      * intros (e' & [= <-] & H). lia.
    + rewrite (timeClip_out _ Hout). cbn [date_gt].
      split; [discriminate|]. intros (e' & [= <-] & H).
      exfalso. apply Hout. unfold is_time, safetyMargin in *. lia.
  - split; [discriminate|]. intros (e' & [=] & _).
Qed.

Lemma memoryTier_hit (E : Env) (key : string) (w : World) (t : TicketAcceso) :
  JsMap.get key (ticketCache w) = Some t ->
  memoryTier E key w =
  if date_gt (match expirationTime t with
              | Some e => timeClip (e - safetyMargin)
              | None => None
              end) (clock E (ticks w))
  then (Ok (Some t), tick w)
  else (Ok None, set_ticketCache (JsMap.delete key) (tick w)).
Proof.
  intros Hget. unfold memoryTier, bind, gets. rewrite Hget.
  rewrite isTicketValid_run. by destruct (date_gt _ _).
Qed.

Lemma memoryTier_miss (E : Env) (key : string) (w : World) :
  JsMap.get key (ticketCache w) = None -> memoryTier E key w = (Ok None, w).
Proof. intros Hget. unfold memoryTier, bind, gets. by rewrite Hget. Qed.

(** What [getTicketAcceso] does once the memory tier has answered. *)
Lemma getTicketAcceso_after_memory (E : Env) (b : Z) (s : string) (w : World) :
  getTicketAcceso E b s w =
  match memoryTier E (cacheKey b s) w with
  | (Ok (Some t), w1) => (Ok (Some t), w1)
  | (Ok None, w1) =>
      try_catch
        (cached <- diskTier E (cacheKey b s) ;;
         match cached with
         | Some t => ret (Some t)
         | None => acquireTier E b s
         end)
        (fun error =>
           logger_error ("Error getting ticket acceso for business "
                         +:+ pretty b +:+ ": " +:+ message error) ;;
           ret None) w1
  | (Throw e, w1) =>
      (Ok None, push_errLog ("Error getting ticket acceso for business "
                             +:+ pretty b +:+ ": " +:+ message e) w1)
  end.
Proof.
  unfold getTicketAcceso, cacheTiers, try_catch, bind at 1 2.
  destruct (memoryTier E (cacheKey b s) w) as [[[t|]|e] w1]; reflexivity.
Qed.

(** C1. A ticket held in the fast tier is returned from it if and only if
    its expiration time less five minutes (300000 ms, see [usable]) is
    strictly later than the current time; otherwise, so with five minutes
    or less left, it is dropped from the fast tier and the call goes on as a
    call that finds no entry there. *)
Theorem fast_tier_safety_margin (E : Env) (b : Z) (s : string) (w : World)
    (t : TicketAcceso) :
  JsMap.get (cacheKey b s) (ticketCache w) = Some t ->
  date_ok (expirationTime t) ->
  is_time (clock E (ticks w)) ->
  let now := clock E (ticks w) in
  let key := cacheKey b s in
  let w' := set_ticketCache (JsMap.delete key) (tick w) in
  (memoryTier E key w = (Ok (Some t), tick w) <-> usable t now)
  /\ (usable t now -> getTicketAcceso E b s w = (Ok (Some t), tick w))
  /\ (~ usable t now ->
      memoryTier E key w = (Ok None, w')
      /\ JsMap.get key (ticketCache w') = None
      /\ getTicketAcceso E b s w = getTicketAcceso E b s w').
Proof.
  intros Hget Hok Hnow now key w'.
  pose proof (margin_usable t now Hok Hnow) as Hm.
  pose proof (memoryTier_hit E key w t Hget) as Hhit.
  fold now in Hhit.
  assert (Hgone : JsMap.get key (ticketCache w') = None)
    by apply JsMap_get_delete_eq.
  destruct (date_gt _ now) eqn:Hv.
  - assert (Hu : usable t now) by (by apply Hm).
    split; [|split].
    + by rewrite Hhit.
    + intros _. rewrite getTicketAcceso_after_memory. fold key. by rewrite Hhit.
    + intros Hnu. contradiction.
  - assert (Hnu : ~ usable t now) by (intros Hu; apply Hm in Hu; discriminate Hu).
    split; [|split].
    + rewrite Hhit. split; [intros [=] | intros Hu; contradiction].
    + intros Hu. contradiction.
    + intros _. split; [exact Hhit|]. split; [exact Hgone|].
      rewrite !getTicketAcceso_after_memory. fold key.
      rewrite Hhit. by rewrite (memoryTier_miss E key w' Hgone).
Qed.

Lemma fast_tier_safety_margin_witness :
  let now := clock Sample.env 0 in
  let late := Sample.ticket "a" (now + 300000) in
  let early := Sample.ticket "c" (now + 300001) in
  let w := Sample.world_margin in
  (* five minutes left, to the millisecond: dropped *)
  (memoryTier Sample.env "1_wsfe" w
   = (Ok None, set_ticketCache (JsMap.delete "1_wsfe") (tick w))
   /\ JsMap.get "1_wsfe"
        (ticketCache (set_ticketCache (JsMap.delete "1_wsfe") (tick w))) = None)
  (* a millisecond more: served *)
  /\ getTicketAcceso Sample.env 2 "wsfe" w = (Ok (Some early), tick w).
Proof.
  intros now late early w.
  assert (Htime : is_time (clock Sample.env (ticks w)))
    by (unfold is_time, maxTime; simpl; lia).
  split.
  - destruct (fast_tier_safety_margin Sample.env 1 "wsfe" w late)
      as (_ & _ & Hdrop).
    + reflexivity.
    + intros e [= <-]. unfold is_time, maxTime, now. simpl. lia.
    + exact Htime.
    + destruct Hdrop as (Hmem & Hgone & _).
      * intros (e & [= <-] & Hlt). unfold now in Hlt. simpl in Hlt. lia.
      * split; [exact Hmem | exact Hgone].
  - apply (fast_tier_safety_margin Sample.env 2 "wsfe" w early).
    + reflexivity.
    + intros e [= <-]. unfold is_time, maxTime, now. simpl. lia.
    + exact Htime.
    + exists (now + 300001). split; [reflexivity|]. unfold now. simpl. lia.
Defined.

(** ** Frames: what a method leaves alone *)

Section Preserves.
Context {X : Type} (f : World -> X).

Lemma preserves_ret {A} (a : A) : preserves f (ret a).
Proof. by intros w. Qed.

Lemma preserves_throw {A} (e : JsError) : preserves f (@throw A e).
Proof. by intros w. Qed.

Lemma preserves_lift {A} (r : result A) : preserves f (lift r).
Proof. by intros w. Qed.

Lemma preserves_gets {A} (g : World -> A) : preserves f (gets g).
Proof. by intros w. Qed.

Lemma preserves_modify (g : World -> World) :
  (forall w, f (g w) = f w) -> preserves f (modify g).
Proof. intros H w. apply H. Qed.

Lemma preserves_bind {A B} (m : M A) (k : A -> M B) :
  preserves f m -> (forall a, preserves f (k a)) -> preserves f (bind m k).
Proof.
  intros Hm Hk w. unfold bind. specialize (Hm w).
  destruct (m w) as [[a|e] w1]; simpl in *; [|exact Hm].
  by rewrite Hk.
Qed.

Lemma preserves_try_catch {A} (m : M A) (h : JsError -> M A) :
  preserves f m -> (forall e, preserves f (h e)) -> preserves f (try_catch m h).
Proof.
  intros Hm Hh w. unfold try_catch. specialize (Hm w).
  destruct (m w) as [[a|e] w1]; simpl in *; [exact Hm|].
  by rewrite Hh.
Qed.

Lemma preserves_forEach {A} (g : A -> M unit) (xs : list A) :
  (forall x, preserves f (g x)) -> preserves f (forEach g xs).
Proof.
  intros Hg. induction xs as [|x xs IH]; simpl.
  - apply preserves_ret.
  - apply preserves_bind; [apply Hg | intros _; exact IH].
Qed.

Lemma preserves_run {A} (m : M A) (w : World) (r : result A) (w' : World) :
  preserves f m -> m w = (r, w') -> f w' = f w.
Proof. intros Hm Hrun. specialize (Hm w). by rewrite Hrun in Hm. Qed.
End Preserves.

(** One step of a frame proof: the shape of the method decides. *)
Ltac frame_step :=
  lazymatch goal with
  | |- preserves _ (bind _ _) => apply preserves_bind; [|intros ?]
  | |- preserves _ (try_catch _ _) => apply preserves_try_catch; [|intros ?]
  | |- preserves _ (forEach _ _) => apply preserves_forEach; intros ?
  | |- preserves _ (ret _) => apply preserves_ret
  | |- preserves _ (throw _) => apply preserves_throw
  | |- preserves _ (lift _) => apply preserves_lift
  | |- preserves _ (gets _) => apply preserves_gets
  | |- preserves _ (modify _) => apply preserves_modify; intros ?; reflexivity
  | |- preserves _ (match ?x with _ => _ end) => destruct x
  | |- preserves _ (let _ := _ in _) => cbv zeta
  end.

Ltac frame :=
  repeat first
    [ frame_step
    | progress unfold logger_error, Date_now, fs_call, existsSync, readFileSync,
        writeFileSync, unlinkSync, mkdirSync, readdirSync, ensureDir,
        readCertificate, readPrivateKey
    | intros ?; reflexivity ].

Lemma getCertificateInfo_netLog (E : Env) (b : Z) :
  preserves netLog (getCertificateInfo E b).
Proof. unfold getCertificateInfo. frame. Qed.

Lemma memoryTier_netLog (E : Env) (key : string) :
  preserves netLog (memoryTier E key).
Proof. unfold memoryTier, isTicketValid. frame. Qed.

Lemma diskTier_netLog (E : Env) (key : string) :
  preserves netLog (diskTier E key).
Proof. unfold diskTier, isTicketValid. frame. Qed.

Lemma cacheTiers_netLog (E : Env) (key : string) :
  preserves netLog (cacheTiers E key).
Proof.
  unfold cacheTiers. apply preserves_bind; [apply memoryTier_netLog|].
  intros [t|]; [apply preserves_ret | apply diskTier_netLog].
Qed.

(** ** Missing certificate *)

Lemma requestTicketAcceso_not_found (E : Env) (b : Z) (s : string) (w w1 : World) :
  getCertificateInfo E b w = (Ok None, w1) ->
  requestTicketAcceso E b s w
  = (Ok None, push_errLog (requestFailureLog b (missingCertificateMessage b)) w1).
Proof.
  intros Hlookup. unfold requestTicketAcceso, try_catch, bind at 1.
  by rewrite Hlookup.
Qed.

Lemma getTicketAcceso_miss (E : Env) (b : Z) (s : string) (w0 w : World) :
  cacheTiers E (cacheKey b s) w0 = (Ok None, w) ->
  getTicketAcceso E b s w0
  = try_catch (acquireTier E b s)
      (fun error =>
         logger_error ("Error getting ticket acceso for business "
                       +:+ pretty b +:+ ": " +:+ message error) ;;
         ret None) w.
Proof.
  intros Hmiss. unfold getTicketAcceso, try_catch, bind at 1.
  by rewrite Hmiss.
Qed.

(** C3. When the certificate store reports that no certificate is
    configured, the acquisition returns the negative outcome with the
    "no certificate" error and nothing is posted to the authority; so does
    the whole of [getTicketAcceso] when both tiers missed. *)
Theorem missing_certificate_no_network (E : Env) (b : Z) (s : string)
    (w w1 : World) :
  getCertificateInfo E b w = (Ok None, w1) ->
  let w2 := push_errLog (requestFailureLog b (missingCertificateMessage b)) w1 in
  requestTicketAcceso E b s w = (Ok None, w2)
  /\ netLog w2 = netLog w
  /\ (forall w0,
        cacheTiers E (cacheKey b s) w0 = (Ok None, w) ->
        getTicketAcceso E b s w0 = (Ok None, w2) /\ netLog w2 = netLog w0).
Proof.
  intros Hlookup w2.
  pose proof (requestTicketAcceso_not_found E b s w w1 Hlookup) as Hreq.
  assert (Hnet : netLog w2 = netLog w).
  { subst w2. simpl.
    exact (preserves_run netLog _ _ _ _ (getCertificateInfo_netLog E b) Hlookup). }
  split; [exact Hreq|]. split; [exact Hnet|].
  intros w0 Hmiss. split.
  - rewrite (getTicketAcceso_miss E b s w0 w Hmiss).
    unfold try_catch, acquireTier, bind at 1. by rewrite Hreq.
  - rewrite Hnet.
    exact (preserves_run netLog _ _ _ _ (cacheTiers_netLog E (cacheKey b s)) Hmiss).
Qed.

Lemma missing_certificate_no_network_witness :
  getTicketAcceso Sample.env 7 "wsfe" Sample.world0
  = (Ok None,
     push_errLog
       (requestFailureLog 7 (missingCertificateMessage 7))
       (push_fsLog (OpExists ["app"; "certs"; "7"; "info.json"])
          (push_fsLog (OpExists ["app"; "cache"; "ta_7_wsfe.json"]) Sample.world0)))
  /\ netLog Sample.world0 = [].
Proof.
  pose (w := push_fsLog (OpExists ["app"; "cache"; "ta_7_wsfe.json"]) Sample.world0).
  pose (w1 := push_fsLog (OpExists ["app"; "certs"; "7"; "info.json"]) w).
  assert (Hlookup : getCertificateInfo Sample.env 7 w = (Ok None, w1))
    by (vm_compute; reflexivity).
  destruct (missing_certificate_no_network Sample.env 7 "wsfe" w w1 Hlookup)
    as (_ & _ & Hcall).
  assert (Hmiss : cacheTiers Sample.env (cacheKey 7 "wsfe") Sample.world0 = (Ok None, w))
    by (vm_compute; reflexivity).
  destruct (Hcall Sample.world0 Hmiss) as [Hret Hnet].
  split; [exact Hret | reflexivity].
Defined.

(** ** Running a method: weakest preconditions *)

Lemma wp_run {A} (m : M A) (Q : result A -> World -> Prop) (w w' : World)
    (r : result A) :
  wp m Q w -> m w = (r, w') -> Q r w'.
Proof. unfold wp. intros H Hrun. by rewrite Hrun in H. Qed.

Lemma wp_bind {A B} (m : M A) (k : A -> M B) (Q : result B -> World -> Prop)
    (w : World) :
  wp m (fun r w1 => match r with
                    | Ok a => wp (k a) Q w1
                    | Throw e => Q (Throw e) w1
                    end) w ->
  wp (bind m k) Q w.
Proof. unfold wp, bind. by destruct (m w) as [[a|e] w1]. Qed.

Lemma wp_try_catch {A} (m : M A) (h : JsError -> M A)
    (Q : result A -> World -> Prop) (w : World) :
  wp m (fun r w1 => match r with
                    | Ok a => Q (Ok a) w1
                    | Throw e => wp (h e) Q w1
                    end) w ->
  wp (try_catch m h) Q w.
Proof. unfold wp, try_catch. by destruct (m w) as [[a|e] w1]. Qed.

Lemma wp_ret {A} (a : A) (Q : result A -> World -> Prop) (w : World) :
  Q (Ok a) w -> wp (ret a) Q w.
Proof. exact id. Qed.

Lemma wp_throw {A} (e : JsError) (Q : result A -> World -> Prop) (w : World) :
  Q (Throw e) w -> wp (throw e) Q w.
Proof. exact id. Qed.

Lemma wp_lift {A} (r : result A) (Q : result A -> World -> Prop) (w : World) :
  Q r w -> wp (lift r) Q w.
Proof. exact id. Qed.

Lemma wp_gets {A} (g : World -> A) (Q : result A -> World -> Prop) (w : World) :
  Q (Ok (g w)) w -> wp (gets g) Q w.
Proof. exact id. Qed.

Lemma wp_modify (g : World -> World) (Q : result unit -> World -> Prop) (w : World) :
  Q (Ok tt) (g w) -> wp (modify g) Q w.
Proof. exact id. Qed.

Lemma wp_Date_now (E : Env) (Q : result Z -> World -> Prop) (w : World) :
  Q (Ok (clock E (ticks w))) (tick w) -> wp (Date_now E) Q w.
Proof. exact id. Qed.

Lemma wp_fs_call (E : Env) (op : FsOp) (Q : result bool -> World -> Prop) (w : World) :
  Q (Ok (fs_fault E (length (fsLog w)) op)) (push_fsLog op w) ->
  wp (fs_call E op) Q w.
Proof. exact id. Qed.

Lemma wp_existsSync (p : Path) (Q : result bool -> World -> Prop) (w : World) :
  Q (Ok (is_file p w || is_dir p w)) (push_fsLog (OpExists p) w) ->
  wp (existsSync p) Q w.
Proof. exact id. Qed.

Lemma wp_mono {A} (m : M A) (Q Q' : result A -> World -> Prop) (w : World) :
  wp m Q w -> (forall r w', Q r w' -> Q' r w') -> wp m Q' w.
Proof. unfold wp. auto. Qed.

(** One step backwards through a method. *)
Ltac wp_step :=
  lazymatch goal with
  | |- wp (bind _ _) _ _ => apply wp_bind
  | |- wp (try_catch _ _) _ _ => apply wp_try_catch
  | |- wp (ret _) _ _ => apply wp_ret; cbv beta iota
  | |- wp (throw _) _ _ => apply wp_throw; cbv beta iota
  | |- wp (gets _) _ _ => apply wp_gets; cbv beta iota
  | |- wp (modify _) _ _ => apply wp_modify; cbv beta iota
  | |- wp (Date_now _) _ _ => apply wp_Date_now; cbv beta iota
  | |- wp (fs_call _ _) _ _ => apply wp_fs_call; cbv beta iota
  | |- wp (logger_error _) _ _ => unfold logger_error
  | |- wp (lift ?r) _ _ =>
      apply wp_lift;
      let H := fresh "Hlib" in destruct r eqn:H; cbv beta iota
  | |- wp (match ?x with _ => _ end) _ _ =>
      let H := fresh "Hcase" in destruct x eqn:H
  | |- wp (let _ := _ in _) _ _ => cbv zeta
  | |- wp (forEach _ _) _ _ => fail
  | |- wp _ _ _ =>
      progress unfold existsSync, readFileSync, writeFileSync, unlinkSync,
        mkdirSync, readdirSync, ensureDir, readCertificate, readPrivateKey
  end.

Ltac wp_go := repeat wp_step.

(** ** Lookup of a certificate *)

Lemma getCertificateInfo_cached (E : Env) (b : Z) (w : World)
    (ci : CertificateInfo) (t : Z) :
  certsCache w !! b = Some ci ->
  validTo ci = Some (Some t) ->
  clock E (ticks w) < t ->
  getCertificateInfo E b w = (Ok (Some ci), tick w).
Proof.
  intros Hc Hv Ht. unfold getCertificateInfo, try_catch, bind, gets, Date_now.
  rewrite Hc, Hv. cbn [date_gt].
  assert (Hgt : (t >? clock E (ticks w)) = true) by (apply Z.gtb_lt; lia).
  by rewrite Hgt.
Qed.

Lemma getCertificateInfo_fills_cache (E : Env) (b : Z) (w w1 : World)
    (ci : CertificateInfo) :
  getCertificateInfo E b w = (Ok (Some ci), w1) ->
  certsCache w1 !! b = Some ci.
Proof.
  intros Hrun.
  refine (wp_run _ (fun r w1 => forall ci, r = Ok (Some ci) -> certsCache w1 !! b = Some ci)
            _ _ _ _ Hrun ci eq_refl).
  unfold getCertificateInfo. wp_go; intros ci' [=]; subst; simpl;
    try assumption; try apply lookup_insert_eq.
Qed.

(** C9. After a lookup that returned certificate data, a second lookup made
    before the validity window ends returns the same data and touches the
    file system not at all: it is served from the in-process cache. *)
Theorem lookup_twice_reads_once (E : Env) (b : Z) (w w1 : World)
    (ci : CertificateInfo) (t : Z) :
  getCertificateInfo E b w = (Ok (Some ci), w1) ->
  validTo ci = Some (Some t) ->
  clock E (ticks w1) < t ->
  getCertificateInfo E b w1 = (Ok (Some ci), tick w1)
  /\ fsLog (getCertificateInfo E b w1).2 = fsLog w1
  /\ files (getCertificateInfo E b w1).2 = files w1.
Proof.
  intros Hfirst Hv Ht.
  pose proof (getCertificateInfo_fills_cache E b w w1 ci Hfirst) as Hc.
  pose proof (getCertificateInfo_cached E b w1 ci t Hc Hv Ht) as Hsecond.
  rewrite Hsecond. by repeat split.
Qed.

Lemma lookup_twice_reads_once_witness :
  getCertificateInfo Sample.env 7 Sample.world7_cached
  = (Ok (Some Sample.certInfo7), tick Sample.world7_cached)
  /\ fsLog (getCertificateInfo Sample.env 7 Sample.world7_cached).2
     = fsLog Sample.world7_cached
  /\ files (getCertificateInfo Sample.env 7 Sample.world7_cached).2
     = files Sample.world7_cached.
Proof.
  apply (lookup_twice_reads_once Sample.env 7 Sample.world7 Sample.world7_cached
           Sample.certInfo7 1800000000000).
  - vm_compute. reflexivity.
  - reflexivity.
  - vm_compute. reflexivity.
Defined.

(** ** Names of the durable records *)




(** A name without a separator is one segment. *)
Lemma segments_no_separator (n : string) :
  no_separator n = true -> segments n = [n].
Proof.
  unfold no_separator. induction n as [|c n IH]; cbn [segments Js.all_chars];
    [reflexivity|].
  intros H. apply andb_prop in H as [Hc Hn]. apply negb_true_iff in Hc.
  rewrite Hc. by rewrite (IH Hn).
Qed.

(** Joined to a directory, a plain name is the entry of that name. *)
Lemma path_join_plain (d : Path) (n : string) :
  plain_name n = true -> path_join d n = d ++ [n].
Proof.
  unfold plain_name, path_join. intros H. apply andb_prop in H as [Hsep Hn].
  rewrite (segments_no_separator n Hsep). cbn [fold_left]. unfold enter.
  apply negb_true_iff in Hn.
  apply orb_false_iff in Hn as [Hn H2]. apply orb_false_iff in Hn as [H0 H1].
  by rewrite H0, H1, H2.
Qed.





Example cacheFileOf_separator :
  cacheFileOf Sample.env "1_x/../ta_2_wsfe" = cacheFileOf Sample.env "2_wsfe".
Proof. reflexivity. Qed.





(** ** Clearing one key *)






(** ** The global sweep *)




Lemma strip_prefix_app (d q : Path) : strip_prefix d (d ++ q) = Some q.
Proof.
  induction d as [|x d IH]; simpl; [by destruct q|].
  by rewrite String.eqb_refl.
Qed.


Lemma child_name_join (d : Path) (n : string) : child_name d (d ++ [n]) = Some n.
Proof. unfold child_name. by rewrite strip_prefix_app. Qed.





Lemma readdirSync_wp (E : Env) (d : Path) (w : World) :
  wp (readdirSync E d)
    (fun r w' =>
       ticketCache w' = ticketCache w
       /\ files w' = files w
       /\ dirs w' = dirs w
       /\ forall names, r = Ok names ->
            forall n, is_Some (files w !! (d ++ [n])) -> n ∈ names) w.
Proof.
  wp_go; simpl; repeat split; try (intros; discriminate).
  intros names [= <-] n Hn. apply elem_of_app. left.
  apply list_elem_of_omap. exists (d ++ [n]). split.
  - apply elem_of_elements. by apply elem_of_dom.
  - apply child_name_join.
Qed.



Lemma path_join_inj (d : Path) (n n' : string) :
  plain_name n = true -> plain_name n' = true ->
  path_join d n = path_join d n' -> n = n'.
Proof.
  intros Hn Hn'. rewrite !path_join_plain by done.
  intros H. by apply app_inj_tail in H as [_ ?].
Qed.











(** ** A method without a handler *)











(** ** The sweep of one tenant *)










Lemma clearCache_tenant_only (E : Env) (b : Z) :
  b <> 0 -> clearCache E (Some b) None = clearTenant E b.
Proof.
  intros Hb. unfold clearCache, given_number, given_string.
  apply Z.eqb_neq in Hb. by rewrite Hb.
Qed.






(** ** A ticket that already exists at the authority *)

Lemma wp_preserves {X A} (f : World -> X) (m : M A)
    (Q : result A -> World -> Prop) (w : World) :
  preserves f m -> (forall r w1, f w1 = f w -> Q r w1) -> wp m Q w.
Proof. intros Hm HQ. unfold wp. apply HQ. apply Hm. Qed.

Lemma generateTRA_netLog (E : Env) (s : string) : preserves netLog (generateTRA E s).
Proof. unfold generateTRA. frame. Qed.

Lemma signTRA_netLog (E : Env) (tra : string) (c k : Path) :
  preserves netLog (signTRA E tra c k).
Proof. unfold signTRA. frame. Qed.

Lemma parseResponse_netLog (E : Env) (x : jsval) : preserves netLog (parseResponse E x).
Proof. unfold parseResponse. frame. Qed.

Lemma sendToAFIP_posts_once (E : Env) (cms : string) (w : World) :
  netLog (sendToAFIP E cms w).2 = (wsaaUrl E, soapRequestOf cms) :: netLog w.
Proof.
  change (wp (sendToAFIP E cms)
            (fun _ w' => netLog w' = (wsaaUrl E, soapRequestOf cms) :: netLog w) w).
  unfold sendToAFIP. wp_go; reflexivity.
Qed.

Lemma sendToAFIP_already_issued (E : Env) (cms : string) (w : World)
    (err : JsError) (resp : HttpResponse) :
  axios_post E (length (netLog w)) (wsaaUrl E) (soapRequestOf cms) = Throw err ->
  response err = Some resp ->
  indicatesAlreadyIssued resp ->
  (sendToAFIP E cms w).1 = Throw (mkError alreadyIssuedMessage).
Proof.
  intros Hpost Hresp (text & Hdata & Hmark).
  change (wp (sendToAFIP E cms) (fun r _ => r = Throw (mkError alreadyIssuedMessage)) w).
  unfold sendToAFIP. wp_go; simpl in *; simplify_eq; try done.
  all: unfold responseDataOf in *; rewrite Hdata in *; simplify_eq.
  congruence.
Qed.

Lemma cons_not_same {A} (x : A) (l : list A) : x :: l <> l.
Proof. intros H. apply (f_equal length) in H. simpl in H. lia. Qed.

Lemma requestTicketAcceso_wp (E : Env) (b : Z) (s : string) (w : World) :
  wp (requestTicketAcceso E b s)
    (fun r w' =>
       (netLog w' = netLog w
        \/ exists cms, netLog w' = (wsaaUrl E, soapRequestOf cms) :: netLog w)
       /\ (forall cms err resp,
             netLog w' = (wsaaUrl E, soapRequestOf cms) :: netLog w ->
             axios_post E (length (netLog w)) (wsaaUrl E) (soapRequestOf cms)
             = Throw err ->
             response err = Some resp ->
             indicatesAlreadyIssued resp ->
             r = Ok None
             /\ hd_error (errLog w')
                = Some (requestFailureLog b alreadyIssuedMessage))) w.
Proof.
  assert (Hquiet : forall (r : result (option TicketAcceso)) (w' : World),
            netLog w' = netLog w ->
            (netLog w' = netLog w
             \/ exists cms, netLog w' = (wsaaUrl E, soapRequestOf cms) :: netLog w)
            /\ (forall cms err resp,
                  netLog w' = (wsaaUrl E, soapRequestOf cms) :: netLog w ->
                  axios_post E (length (netLog w)) (wsaaUrl E) (soapRequestOf cms)
                  = Throw err ->
                  response err = Some resp ->
                  indicatesAlreadyIssued resp ->
                  r = Ok None
                  /\ hd_error (errLog w')
                     = Some (requestFailureLog b alreadyIssuedMessage))).
  { intros r w' Hsame. split; [by left|].
    intros cms err resp Hnet. rewrite Hsame in Hnet.
    symmetry in Hnet. by apply cons_not_same in Hnet. }
  unfold requestTicketAcceso. apply wp_try_catch. apply wp_bind.
  apply (wp_preserves netLog); [apply getCertificateInfo_netLog|].
  intros [[ci|]|e0] w1 H1; cbv beta iota.
  2,3: wp_go; by apply Hquiet.
  apply wp_bind. apply (wp_preserves netLog); [apply generateTRA_netLog|].
  intros [tra|e0] w2 H2; cbv beta iota.
  2: wp_go; apply Hquiet; simpl; congruence.
  apply wp_bind. apply (wp_preserves netLog); [apply signTRA_netLog|].
  intros [cms0|e0] w3 H3; cbv beta iota.
  2: wp_go; apply Hquiet; simpl; congruence.
  assert (Hw3 : netLog w3 = netLog w) by congruence.
  apply wp_bind. unfold wp at 1.
  pose proof (sendToAFIP_posts_once E cms0 w3) as Hposted. rewrite Hw3 in Hposted.
  destruct (sendToAFIP E cms0 w3) as [[body|e0] w4] eqn:Hsend; simpl in Hposted |- *.
  - (* the post went through *)
    assert (Hfinal : forall (r : result (option TicketAcceso)) (w' : World),
              netLog w' = netLog w4 ->
              (netLog w' = netLog w
               \/ exists cms, netLog w' = (wsaaUrl E, soapRequestOf cms) :: netLog w)
              /\ (forall cms err resp,
                    netLog w' = (wsaaUrl E, soapRequestOf cms) :: netLog w ->
                    axios_post E (length (netLog w)) (wsaaUrl E) (soapRequestOf cms)
                    = Throw err ->
                    response err = Some resp ->
                    indicatesAlreadyIssued resp ->
                    r = Ok None
                    /\ hd_error (errLog w')
                       = Some (requestFailureLog b alreadyIssuedMessage))).
    { intros r w' Hsame. rewrite Hsame, Hposted. split; [right; by exists cms0|].
      intros cms err resp Hnet Hpost Hresp Hind. exfalso.
      assert (Hcms : soapRequestOf cms = soapRequestOf cms0) by congruence.
      rewrite <- Hw3, Hcms in Hpost.
      pose proof (sendToAFIP_already_issued E cms0 w3 err resp Hpost Hresp Hind) as Hthrown.
      rewrite Hsend in Hthrown. discriminate Hthrown. }
    apply wp_bind. apply (wp_preserves netLog); [apply parseResponse_netLog|].
    intros [ticket|e1] w5 H5; cbv beta iota.
    + wp_go; apply Hfinal; simpl; congruence.
    + wp_go. apply Hfinal. simpl. congruence.
  - (* the post failed *)
    wp_go. simpl. rewrite Hposted. split; [right; by exists cms0|].
    intros cms err resp Hnet Hpost Hresp Hind.
    assert (Hcms : soapRequestOf cms = soapRequestOf cms0) by congruence.
    rewrite <- Hw3, Hcms in Hpost.
    pose proof (sendToAFIP_already_issued E cms0 w3 err resp Hpost Hresp Hind) as Hthrown.
    rewrite Hsend in Hthrown. simpl in Hthrown. injection Hthrown as ->.
    split; reflexivity.
Qed.




(** ** Failures at the boundary of the two services *)

Lemma try_catch_returns {A} (m : M A) (h : JsError -> M A) (w : World) :
  (forall e w1, exists a w2, h e w1 = (Ok a, w2)) ->
  exists a w', try_catch m h w = (Ok a, w').
Proof.
  intros Hh. unfold try_catch. destruct (m w) as [[a|e] w1]; [by eexists _, _|].
  apply Hh.
Qed.













(** ** The tax id of a certificate *)

(** A short name the parser gives is never "serialNumber". *)
Lemma parsed_attr_shortName (a : Attr) :
  parsed_attr a = true -> a_shortName a <> Some "serialNumber".
Proof.
  unfold parsed_attr. intros H. apply bool_decide_eq_true in H. rewrite H.
  destruct (a_name a) as [name|]; [|discriminate].
  simpl. unfold forge_shortName. repeat case_match; discriminate.
Qed.

(** So [getField('serialNumber')] finds nothing in a parsed subject. *)
Lemma getField_serialNumber (d : DName) :
  Forall (fun a => parsed_attr a = true) (attributes d) ->
  getField d "serialNumber" = None.
Proof.
  unfold getField. cbn [String.eqb Ascii.eqb]. simpl.
  induction 1 as [|a attrs Ha _ IH]; [reflexivity|].
  cbn [List.find]. rewrite bool_decide_eq_false_2; [exact IH|].
  by apply parsed_attr_shortName.
Qed.

Lemma cuitFromCommonName_found (c : Certificate) (a : Attr) (n : string) :
  getField (subject c) "CN" = Some a ->
  Js.match_d11 (a_value a) = Some n ->
  cuitFromCommonName c = Some n.
Proof.
  intros Hfield Hmatch. unfold cuitFromCommonName, cuitOfField, orElse.
  rewrite Hfield.
  destruct (String.eqb (a_value a) "") eqn:Hempty; [|exact Hmatch].
  apply String.eqb_eq in Hempty. rewrite Hempty in Hmatch. discriminate Hmatch.
Qed.

Lemma saveCertificateFromCrtKey_writes_cuit (E : Env) (b : Z) (crt key pw : string)
    (c : Certificate) (n : string) (w : World) :
  parsesTo E crt c ->
  extractCuitCrtKey c = Some n ->
  (saveCertificateFromCrtKey E b crt key pw w).1 = Ok true ->
  exists isoFrom isoTo createdAt text,
    JSON_stringify E (infoJson b n isoFrom isoTo pw createdAt "crt-key") = Ok text
    /\ files (saveCertificateFromCrtKey E b crt key pw w).2
       !! path_join (certDirOf E b) "info.json" = Some text.
Proof.
  intros Hparse Hcuit.
  change (wp (saveCertificateFromCrtKey E b crt key pw)
            (fun r w' =>
               r = Ok true ->
               exists isoFrom isoTo createdAt text,
                 JSON_stringify E (infoJson b n isoFrom isoTo pw createdAt "crt-key")
                 = Ok text
                 /\ files w' !! path_join (certDirOf E b) "info.json" = Some text) w).
  unfold saveCertificateFromCrtKey, readCrt. wp_go; try (intros [=]; fail).
  all: intros _; simpl in *.
  all: match goal with
       | H : extractCuitCrtKey ?x = Some ?y |- _ =>
           assert (Hc : x = c) by (destruct Hparse as [?|[[? ?] ?]]; congruence);
           rewrite Hc in *;
           assert (Hn : y = n) by congruence;
           rewrite Hn in *
       end.
  all: eexists _, _, _, _; split; [eassumption|]; apply lookup_insert_eq.
Qed.

(** C5 fails on the code. The first strategy asks node-forge for the field
    "serialNumber", and node-forge looks a field up by its short name, which
    the serial number has not: in a parsed certificate the first strategy
    finds nothing, and a common name that holds an 11-digit number decides,
    whatever the serial number holds. That number is what the ingestion of
    a certificate with its key writes to info.json. *)
Theorem serialNumber_is_overlooked (E : Env) (c : Certificate) (cn : Attr)
    (n : string) :
  Forall (fun a => parsed_attr a = true) (attributes (subject c)) ->
  getField (subject c) "CN" = Some cn ->
  Js.match_d11 (a_value cn) = Some n ->
  cuitFromSerialNumber c = None
  /\ extractCuitCrtKey c = Some n
  /\ (forall b crt key pw w,
        parsesTo E crt c ->
        (saveCertificateFromCrtKey E b crt key pw w).1 = Ok true ->
        exists isoFrom isoTo createdAt text,
          JSON_stringify E (infoJson b n isoFrom isoTo pw createdAt "crt-key")
          = Ok text
          /\ files (saveCertificateFromCrtKey E b crt key pw w).2
             !! path_join (certDirOf E b) "info.json" = Some text).
Proof.
  intros Hparsed Hfield Hmatch.
  assert (Hserial : cuitFromSerialNumber c = None)
    by (unfold cuitFromSerialNumber; by rewrite getField_serialNumber).
  assert (Hcuit : extractCuitCrtKey c = Some n).
  { unfold extractCuitCrtKey. rewrite Hserial. cbn [orElse].
    by rewrite (cuitFromCommonName_found c cn n Hfield Hmatch). }
  split; [exact Hserial|]. split; [exact Hcuit|].
  intros b crt key pw w Hparse Hok.
  by apply (saveCertificateFromCrtKey_writes_cuit E b crt key pw c n w).
Qed.

Lemma serialNumber_is_overlooked_witness :
  (* the serial number holds a tax id of its own *)
  List.find (fun a => bool_decide (a_name a = Some "serialNumber"))
    (attributes (subject Sample.certificateBoth))
  = Some {| a_type := "2.5.4.5"; a_name := Some "serialNumber";
            a_shortName := None; a_value := "CUIT 30716539685" |}
  (* and the one of the common name is written *)
  /\ extractCuitCrtKey Sample.certificateBoth = Some "20123456786"
  /\ exists isoFrom isoTo createdAt text,
       JSON_stringify Sample.env_both
         (infoJson 7 "20123456786" isoFrom isoTo "secret" createdAt "crt-key")
       = Ok text
       /\ files (saveCertificateFromCrtKey Sample.env_both 7 "CERTIFICATE"
                   "PRIVATE KEY" "secret" Sample.world7).2
          !! ["app"; "certs"; "7"; "info.json"] = Some text.
Proof.
  split; [reflexivity|].
  destruct (serialNumber_is_overlooked Sample.env_both Sample.certificateBoth
              {| a_type := "2.5.4.3"; a_name := Some "commonName";
                 a_shortName := Some "CN"; a_value := "CUIT 20123456786" |}
              "20123456786") as (_ & Hcuit & Hwrite).
  - repeat constructor.
  - reflexivity.
  - reflexivity.
  - split; [exact Hcuit|].
    apply (Hwrite 7 "CERTIFICATE" "PRIVATE KEY" "secret" Sample.world7).
    + left. reflexivity.
    + vm_compute. reflexivity.
Defined.

(** ** A granted ticket *)

Example granted_ticket_is_cached :
  let run := getTicketAcceso Sample.env_granted 7 "wsfe" Sample.world7 in
  let t := {| token := JStr "TOKEN"; sign := JStr "SIGN";
              expirationTime := Some 1800000000000 |} in
  run.1 = Ok (Some t)
  /\ ticketCache run.2 = [("7_wsfe", t)]
  /\ files run.2 !! ["app"; "cache"; "ta_7_wsfe.json"]
     = Some "{token:TOKEN,sign:SIGN,expirationTime:1800000000000}"
  /\ length (netLog run.2) = 1%nat.
Proof. repeat split; vm_compute; reflexivity. Qed.

(** * Further properties *)

Lemma requestTicketAcceso_ticketCache (E : Env) (b : Z) (s : string) :
  preserves ticketCache (requestTicketAcceso E b s).
Proof.
  unfold requestTicketAcceso, getCertificateInfo, generateTRA, signTRA,
    sendToAFIP, parseResponse. frame.
Qed.

Lemma requestTicketAcceso_files (E : Env) (b : Z) (s : string) :
  preserves files (requestTicketAcceso E b s).
Proof.
  unfold requestTicketAcceso, getCertificateInfo, generateTRA, signTRA,
    sendToAFIP, parseResponse. frame.
Qed.

Lemma requestTicketAcceso_returns (E : Env) (b : Z) (s : string) (w : World) :
  exists r w', requestTicketAcceso E b s w = (Ok r, w').
Proof. apply try_catch_returns. intros e w1. by eexists _, _. Qed.

(** What the second tier does to the world. *)
Lemma diskTier_wp (E : Env) (key : string) (w : World) :
  wp (diskTier E key)
    (fun r w' =>
       exists o, r = Ok o
         /\ ticketCache w' = match o with
                             | Some t => JsMap.set key t (ticketCache w)
                             | None => ticketCache w
                             end
         /\ (forall p, p <> cacheFileOf E key -> files w' !! p = files w !! p)
         /\ netLog w' = netLog w) w.
Proof.
  unfold diskTier, isTicketValid.
  wp_go; simpl; try (by exists None); try (by eexists (Some _)).
  all: exists None; repeat split; try reflexivity.
  all: intros p Hp; by rewrite lookup_delete_ne.
Qed.

(** What the third tier does to the world. *)
Lemma acquireTier_wp (E : Env) (b : Z) (s : string) (w : World) :
  wp (acquireTier E b s)
    (fun r w' =>
       exists o, r = Ok o
         /\ (requestTicketAcceso E b s w).1 = Ok o
         /\ ticketCache w' = match o with
                             | Some t => JsMap.set (cacheKey b s) t (ticketCache w)
                             | None => ticketCache w
                             end
         /\ (forall p, p <> cacheFileOf E (cacheKey b s) ->
                       files w' !! p = files w !! p)
         /\ (files w' !! cacheFileOf E (cacheKey b s)
             = files w !! cacheFileOf E (cacheKey b s)
             \/ exists t text,
                  o = Some t
                  /\ JSON_stringify E (ticketJson E t) = Ok text
                  /\ files w' !! cacheFileOf E (cacheKey b s) = Some text)
         /\ at_most_one_post E w w') w.
Proof.
  unfold acquireTier. apply wp_bind. unfold wp at 1.
  pose proof (requestTicketAcceso_ticketCache E b s w) as Htc.
  pose proof (requestTicketAcceso_files E b s w) as Hfiles.
  pose proof (requestTicketAcceso_wp E b s w) as [Hnet _].
  destruct (requestTicketAcceso_returns E b s w) as (o & w1 & Hreq).
  rewrite Hreq in *. simpl in Htc, Hfiles, Hnet |- *.
  assert (Hpost : forall w', netLog w' = netLog w1 -> at_most_one_post E w w').
  { intros w' Hsame. unfold at_most_one_post. by rewrite Hsame. }
  destruct o as [t|].
  - wp_go; simpl; exists (Some t); rewrite ?Htc, ?Hfiles;
      (split; [reflexivity|]); (split; [reflexivity|]); (split; [reflexivity|]);
      (split; [|split; [|by apply Hpost]]);
      try (by left); try done.
    all: try (intros p Hp; by rewrite lookup_insert_ne).
    all: right; eexists t, _; rewrite lookup_insert_eq; by repeat split.
  - wp_go. exists None. rewrite Htc, Hfiles. repeat split; [by left | by apply Hpost].
Qed.

(** The call once the fast tier has missed. *)
Lemma lowerTiers_wp (E : Env) (b : Z) (s : string) (w : World) :
  wp (try_catch
        (cached <- diskTier E (cacheKey b s) ;;
         match cached with
         | Some t => ret (Some t)
         | None => acquireTier E b s
         end)
        (fun error =>
           logger_error ("Error getting ticket acceso for business "
                         +:+ pretty b +:+ ": " +:+ message error) ;;
           ret None))
    (fun r w' =>
       exists o, r = Ok o
         /\ ticketCache w' = match o with
                             | Some t => JsMap.set (cacheKey b s) t (ticketCache w)
                             | None => ticketCache w
                             end
         /\ (forall p, p <> cacheFileOf E (cacheKey b s) ->
                       files w' !! p = files w !! p)
         /\ at_most_one_post E w w') w.
Proof.
  apply wp_try_catch. apply wp_bind.
  eapply wp_mono; [apply diskTier_wp|].
  intros r w1 (o & -> & Htc & Hfiles & Hnet). destruct o as [t|].
  - wp_go. exists (Some t). repeat split; try assumption. by left.
  - eapply wp_mono; [apply acquireTier_wp|].
    intros r w2 (o & -> & _ & Htc2 & Hfiles2 & _ & Hnet2).
    exists o. rewrite Htc2, Htc. split; [reflexivity|]. split; [reflexivity|].
    split.
    + intros p Hp. by rewrite Hfiles2, Hfiles.
    + unfold at_most_one_post in *. by rewrite <- Hnet.
Qed.

(** The whole of [getTicketAcceso]. *)
Lemma getTicketAcceso_wp (E : Env) (b : Z) (s : string) (w : World) :
  wp (getTicketAcceso E b s)
    (fun r w' =>
       exists o, r = Ok o
         /\ JsMap.get (cacheKey b s) (ticketCache w') = o
         /\ only_key_touched E (cacheKey b s) w w'
         /\ at_most_one_post E w w') w.
Proof.
  unfold wp. rewrite getTicketAcceso_after_memory.
  assert (Hlower : forall w1,
            netLog w1 = netLog w -> files w1 = files w ->
            JsMap.get (cacheKey b s) (ticketCache w1) = None ->
            (forall k, k <> cacheKey b s ->
                       JsMap.get k (ticketCache w1) = JsMap.get k (ticketCache w)) ->
            wp (try_catch
                  (cached <- diskTier E (cacheKey b s) ;;
                   match cached with
                   | Some t => ret (Some t)
                   | None => acquireTier E b s
                   end)
                  (fun error =>
                     logger_error ("Error getting ticket acceso for business "
                                   +:+ pretty b +:+ ": " +:+ message error) ;;
                     ret None))
              (fun r w' =>
                 exists o, r = Ok o
                   /\ JsMap.get (cacheKey b s) (ticketCache w') = o
                   /\ only_key_touched E (cacheKey b s) w w'
                   /\ at_most_one_post E w w') w1).
  { intros w1 Hnet1 Hfiles1 Hnone Hothers.
    eapply wp_mono; [apply lowerTiers_wp|].
    intros r w' (o & -> & Htc & Hfiles & Hnet). exists o.
    split; [reflexivity|]. split; [|split].
    - rewrite Htc. destruct o as [t|]; [apply JsMap_get_set_eq | exact Hnone].
    - split.
      + intros k Hk. rewrite Htc, <- (Hothers k Hk).
        destruct o as [t|]; [by apply JsMap_get_set_ne | reflexivity].
      + intros p Hp. by rewrite (Hfiles p Hp), Hfiles1.
    - unfold at_most_one_post in *. by rewrite <- Hnet1. }
  destruct (JsMap.get (cacheKey b s) (ticketCache w)) as [t|] eqn:Hget.
  - rewrite (memoryTier_hit E _ w t Hget). destruct (date_gt _ _).
    + simpl. exists (Some t). repeat split; try done. by left.
    + apply Hlower; simpl; try reflexivity.
      * apply JsMap_get_delete_eq.
      * intros k Hk. by apply JsMap_get_delete_ne.
  - rewrite (memoryTier_miss E _ w Hget). by apply Hlower.
Qed.


(** Closing the branches of a run that the hypotheses exclude. *)
Ltac no_fault_in Hfs :=
  repeat match goal with
         | H : context [fs_fault _ _ _] |- _ => rewrite Hfs in H
         end.

Ltac merge_eqs :=
  repeat match goal with
         | H1 : ?x = _, H2 : ?x = _ |- _ => rewrite H1 in H2; simplify_eq/=
         end.

(** ** The three tiers of [getTicketAcceso] *)

(** X1. Whatever the call did, it returns, and the fast tier then holds
    under the key of the call exactly what was returned: the ticket when
    one was returned, no entry when the call returned null. *)
Theorem result_is_what_is_cached (E : Env) (b : Z) (s : string) (w : World) :
  exists o,
    (getTicketAcceso E b s w).1 = Ok o
    /\ JsMap.get (cacheKey b s) (ticketCache (getTicketAcceso E b s w).2) = o.
Proof.
  destruct (getTicketAcceso_wp E b s w) as (o & Hr & Hget & _). by exists o.
Qed.

(** X2. A call for one key leaves the fast-tier entry of every other key
    and every file other than the durable record of its own key as they
    were: the certificates and the records of other tenants and services
    are never written, moved or deleted by it. *)
Theorem other_keys_untouched (E : Env) (b : Z) (s : string) (w : World) :
  let w' := (getTicketAcceso E b s w).2 in
  (forall k, k <> cacheKey b s ->
             JsMap.get k (ticketCache w') = JsMap.get k (ticketCache w))
  /\ (forall p, p <> cacheFileOf E (cacheKey b s) -> files w' !! p = files w !! p).
Proof.
  destruct (getTicketAcceso_wp E b s w) as (o & _ & _ & Hframe & _). exact Hframe.
Qed.

Lemma other_keys_untouched_witness :
  let w' := (getTicketAcceso Sample.env_granted 7 "wsfe" Sample.world7).2 in
  JsMap.get "1_wsfe" (ticketCache w') = JsMap.get "1_wsfe" (ticketCache Sample.world7)
  /\ files w' !! ["app"; "certs"; "7"; "key.pem"] = Some "PRIVATE KEY".
Proof.
  pose proof (other_keys_untouched Sample.env_granted 7 "wsfe" Sample.world7)
    as [Hkeys Hfiles].
  split.
  - apply Hkeys. discriminate.
  - rewrite Hfiles; [reflexivity | discriminate].
Defined.

(** X3. One call posts at most one request to the authority: a failed
    attempt is not tried again. *)
Theorem at_most_one_request (E : Env) (b : Z) (s : string) (w : World) :
  let w' := (getTicketAcceso E b s w).2 in
  netLog w' = netLog w
  \/ exists cms, netLog w' = (wsaaUrl E, soapRequestOf cms) :: netLog w.
Proof.
  destruct (getTicketAcceso_wp E b s w) as (o & _ & _ & _ & Hnet). exact Hnet.
Qed.

(** X4. A ticket that a call returned is served from the fast tier by the
    next call for the same key as long as it is usable: the same ticket
    comes back, and nothing but the clock is touched (no file is read, no
    request is posted). *)
Theorem next_call_is_served_from_memory (E : Env) (b : Z) (s : string)
    (w w1 : World) (t : TicketAcceso) :
  getTicketAcceso E b s w = (Ok (Some t), w1) ->
  date_ok (expirationTime t) ->
  is_time (clock E (ticks w1)) ->
  usable t (clock E (ticks w1)) ->
  getTicketAcceso E b s w1 = (Ok (Some t), tick w1).
Proof.
  intros Hfirst Hok Hnow Huse.
  destruct (getTicketAcceso_wp E b s w) as (o & Hr & Hget & _).
  rewrite Hfirst in Hr, Hget. simpl in Hr, Hget. injection Hr as <-.
  rewrite getTicketAcceso_after_memory, (memoryTier_hit E _ w1 t Hget).
  apply (margin_usable t _ Hok Hnow) in Huse. by rewrite Huse.
Qed.

Lemma next_call_is_served_from_memory_witness :
  let w1 := (getTicketAcceso Sample.env_granted 7 "wsfe" Sample.world7).2 in
  getTicketAcceso Sample.env_granted 7 "wsfe" w1
  = (Ok (Some Scenario.grantedTicket), tick w1).
Proof.
  apply (next_call_is_served_from_memory Sample.env_granted 7 "wsfe" Sample.world7).
  - vm_compute. reflexivity.
  - intros e [= <-]. unfold is_time, maxTime. lia.
  - vm_compute. split; discriminate.
  - exists 1800000000000. split; [reflexivity|]. vm_compute. reflexivity.
Defined.





(** X7. Writing the durable record is best effort: once both tiers have
    missed and the authority has granted a ticket, the call returns that
    ticket and keeps it in the fast tier, whatever the file system does
    with the record. *)
Theorem durable_write_is_best_effort (E : Env) (b : Z) (s : string)
    (w w1 : World) (t : TicketAcceso) :
  cacheTiers E (cacheKey b s) w = (Ok None, w1) ->
  (requestTicketAcceso E b s w1).1 = Ok (Some t) ->
  (getTicketAcceso E b s w).1 = Ok (Some t)
  /\ JsMap.get (cacheKey b s) (ticketCache (getTicketAcceso E b s w).2) = Some t.
Proof.
  intros Hmiss Hreq. rewrite (getTicketAcceso_miss E b s w w1 Hmiss).
  change (wp (try_catch (acquireTier E b s)
                (fun error =>
                   logger_error ("Error getting ticket acceso for business "
                                 +:+ pretty b +:+ ": " +:+ message error) ;;
                   ret None))
            (fun r w' => r = Ok (Some t)
                         /\ JsMap.get (cacheKey b s) (ticketCache w') = Some t) w1).
  apply wp_try_catch. eapply wp_mono; [apply acquireTier_wp|].
  intros r w2 (o & -> & Ho & Htc & _). rewrite Hreq in Ho. injection Ho as <-.
  split; [reflexivity|]. rewrite Htc. apply JsMap_get_set_eq.
Qed.

Lemma durable_write_is_best_effort_witness :
  let w' := (getTicketAcceso Scenario.env_read_only 7 "wsfe" Sample.world7).2 in
  ((getTicketAcceso Scenario.env_read_only 7 "wsfe" Sample.world7).1
   = Ok (Some Scenario.grantedTicket)
   /\ JsMap.get "7_wsfe" (ticketCache w') = Some Scenario.grantedTicket)
  /\ files w' !! ["app"; "cache"; "ta_7_wsfe.json"] = None.
Proof.
  split.
  - apply (durable_write_is_best_effort Scenario.env_read_only 7 "wsfe"
             Sample.world7
             (cacheTiers Scenario.env_read_only "7_wsfe" Sample.world7).2).
    + vm_compute. reflexivity.
    + vm_compute. reflexivity.
  - vm_compute. reflexivity.
Defined.

(** ** The answer of the authority *)

Lemma wp_all {A} (m : M A) (Q : result A -> World -> Prop) (w : World) :
  (forall r w1, Q r w1) -> wp m Q w.
Proof. unfold wp. auto. Qed.

Lemma parseResponse_ticket (E : Env) (x : jsval) (w : World) :
  wp (parseResponse E x)
    (fun r _ => forall t, r = Ok t ->
                  truthy (token t) = true /\ truthy (sign t) = true) w.
Proof.
  unfold parseResponse. wp_go; intros t [=]; subst; simpl.
  match goal with
  | H : _ || _ || _ = false |- _ =>
      apply orb_false_elim in H as [H _]; apply orb_false_elim in H as [H1 H2]
  end.
  split; by apply negb_false_iff.
Qed.

(** X8. A ticket obtained from the authority always carries a token and a
    signature that are not empty and an expiration time that is a valid
    date: an answer that lacks one of them is turned into the negative
    outcome. *)
Theorem obtained_ticket_is_complete (E : Env) (b : Z) (s : string)
    (w : World) (t : TicketAcceso) :
  (requestTicketAcceso E b s w).1 = Ok (Some t) ->
  truthy (token t) = true
  /\ truthy (sign t) = true
  /\ exists e, expirationTime t = Some e.
Proof.
  revert t.
  change (wp (requestTicketAcceso E b s)
            (fun r _ => forall t, r = Ok (Some t) ->
               truthy (token t) = true /\ truthy (sign t) = true
               /\ exists e, expirationTime t = Some e) w).
  unfold requestTicketAcceso. apply wp_try_catch. apply wp_bind.
  apply wp_all. intros [[ci|]|e0] w1; [|wp_go; intros ? [=]..].
  apply wp_bind. apply wp_all. intros [tra|e0] w2; [|wp_go; intros ? [=]].
  apply wp_bind. apply wp_all. intros [cms|e0] w3; [|wp_go; intros ? [=]].
  apply wp_bind. apply wp_all. intros [body|e0] w4; [|wp_go; intros ? [=]].
  apply wp_bind. eapply wp_mono; [apply parseResponse_ticket|].
  intros [ticket|e0] w5 Hticket; [|wp_go; intros ? [=]].
  destruct (Hticket ticket eq_refl) as [Htoken Hsign].
  wp_go; intros t [=]; subst.
  split; [exact Htoken|]. split; [exact Hsign|].
  destruct (expirationTime t) as [e|]; [by exists e | discriminate].
Qed.

Lemma obtained_ticket_is_complete_witness :
  truthy (token Scenario.grantedTicket) = true
  /\ truthy (sign Scenario.grantedTicket) = true
  /\ exists e, expirationTime Scenario.grantedTicket = Some e.
Proof.
  apply (obtained_ticket_is_complete Sample.env_granted 7 "wsfe" Sample.world7).
  vm_compute. reflexivity.
Defined.


Lemma js_or_code (code : string) : js_or (JStr code) (JStr "") = JStr code.
Proof.
  unfold js_or. simpl. destruct (String.eqb code "") eqn:Hc; [|reflexivity].
  simpl. apply String.eqb_eq in Hc. by subst.
Qed.

Lemma faultMessage_classify (fault : list (string * jsval)) (code text : string) :
  js_or (assoc "faultcode" fault) (JStr "") = JStr code ->
  js_or (assoc "faultstring" fault) (JStr "Unknown error") = JStr text ->
  faultMessage (JObj fault) = Ok (classifyFault code text).
Proof.
  intros Hcode Htext. unfold faultMessage, classifyFault.
  cbn [opt_prop]. rewrite Hcode, Htext. cbn [js_includes js_to_string].
  destruct (Js.includes code "cms.cert.untrusted"); [reflexivity|].
  cbn [orb].
  destruct (Js.includes text "Certificado no emitido"); [reflexivity|].
  destruct (Js.includes text "expired"); [reflexivity|].
  cbn [orb]. by destruct (Js.includes text "expirado").
Qed.

Lemma faultMessage_no_includes (fault : list (string * jsval)) :
  truthy (assoc "faultcode" fault) = true ->
  no_includes (assoc "faultcode" fault) ->
  faultMessage (JObj fault) = Throw TypeError.
Proof.
  intros Htruthy Hno. unfold faultMessage. cbn [opt_prop].
  assert (Hor : js_or (assoc "faultcode" fault) (JStr "") = assoc "faultcode" fault)
    by (unfold js_or; by rewrite Htruthy).
  rewrite !Hor.
  destruct (assoc "faultcode" fault) as [| |flag|n|text|fields|items];
    cbn in Hno; try contradiction; reflexivity.
Qed.

(** X9. Where [parseResponse] finds no login response but a fault element,
    the fault is told apart by its code and text (the empty string and
    "Unknown error" where the element has none), when these are strings: a
    code with "cms.cert.untrusted" or a text with "Certificado no emitido"
    gives the untrusted-certificate error, also when the text speaks of
    expiry; otherwise a text with "expired" or "expirado" gives the
    expired-certificate error; any other fault gives
    "AFIP WSAA Fault: <text>". The error is logged and thrown to the
    caller. A code that the parser hands back as a number, a boolean or an
    object has no method [includes]: the classification then fails with a
    TypeError, which is logged and thrown in place of the fault. *)
Theorem fault_is_classified (E : Env) (xml : string) (result : jsval)
    (fault : list (string * jsval)) (w : World) :
  xml_parse E (JStr xml) = Ok result ->
  truthy (loginResponseOf (bodyOf result)) = false ->
  faultOf (bodyOf result) = JObj fault ->
  (forall code text,
     js_or (assoc "faultcode" fault) (JStr "") = JStr code ->
     js_or (assoc "faultstring" fault) (JStr "Unknown error") = JStr text ->
     parseResponse E (JStr xml) w
     = (Throw (mkError (classifyFault code text)),
        push_errLog ("Error parsing WSAA response: " +:+ classifyFault code text)
          (push_errLog "AFIP Fault details:" w)))
  /\ (truthy (assoc "faultcode" fault) = true ->
      no_includes (assoc "faultcode" fault) ->
      parseResponse E (JStr xml) w
      = (Throw TypeError,
         push_errLog ("Error parsing WSAA response: " +:+ message TypeError) w)).
Proof.
  intros Hparse Hlogin Hfault.
  destruct result as [| | | | |top|];
    try (exfalso; cbn in Hfault; discriminate Hfault).
  unfold bodyOf in Hlogin, Hfault. cbn [opt_prop] in Hlogin, Hfault.
  assert (Hrun : forall msg : result string,
            faultMessage (JObj fault) = msg ->
            parseResponse E (JStr xml) w
            = match msg with
              | Ok m =>
                  (Throw (mkError m),
                   push_errLog ("Error parsing WSAA response: " +:+ m)
                     (push_errLog "AFIP Fault details:" w))
              | Throw e =>
                  (Throw e, push_errLog ("Error parsing WSAA response: " +:+ message e) w)
              end).
  { intros msg Hmsg.
    unfold parseResponse, try_catch, bind, lift. rewrite Hparse.
    cbn [get_prop opt_prop].
    set (body := js_or _ _) in *.
    assert (Hbody : truthy body = true)
      by (destruct body; cbn in Hfault; try discriminate Hfault; reflexivity).
    rewrite Hbody. cbn [negb].
    unfold loginResponseOf in Hlogin. rewrite Hlogin. cbn [negb].
    unfold faultOf in Hfault. rewrite Hfault. cbn [truthy].
    rewrite Hmsg. by destruct msg. }
  split.
  - intros code text Hcode Htext.
    by rewrite (Hrun _ (faultMessage_classify fault code text Hcode Htext)).
  - intros Htruthy Hno.
    by rewrite (Hrun _ (faultMessage_no_includes fault Htruthy Hno)).
Qed.

Lemma fault_is_classified_witness :
  (parseResponse Sample.env_fault200 (JStr Sample.faultBody) Sample.world0).1
  = Throw (mkError
      "AFIP WSAA Fault: El CEE ya posee un TA valido para el acceso al WSN solicitado").
Proof.
  destruct (fault_is_classified Sample.env_fault200 Sample.faultBody
              Sample.faultTree
              [("faultcode", JStr "ns1:coe.alreadyAuthenticated");
               ("faultstring",
                JStr "El CEE ya posee un TA valido para el acceso al WSN solicitado")]
              Sample.world0) as [Hclass _]; [reflexivity..|].
  by rewrite (Hclass "ns1:coe.alreadyAuthenticated"
                "El CEE ya posee un TA valido para el acceso al WSN solicitado").
Defined.

(** X10. The body of an envelope with the prefix [soap:] is looked up under
    the name " soap:Body", with a space in front: an answer whose only
    envelope is [soap:Envelope] and which has no property of that name is
    refused as "Invalid SOAP response structure", whatever its body
    carries. *)
Theorem soap_prefix_is_refused (E : Env) (xml : string)
    (top envelope : list (string * jsval)) (w : World) :
  xml_parse E (JStr xml) = Ok (JObj top) ->
  assoc "soap:Envelope" top = JObj envelope ->
  assoc " soap:Body" envelope = JUndefined ->
  assoc "soapenv:Envelope" top = JUndefined ->
  assoc "env:Envelope" top = JUndefined ->
  parseResponse E (JStr xml) w
  = (Throw (mkError "Invalid SOAP response structure"),
     push_errLog "Error parsing WSAA response: Invalid SOAP response structure" w).
Proof.
  intros Hparse Hsoap Hbody Hsoapenv Henv.
  unfold parseResponse, try_catch, bind, lift. rewrite Hparse.
  cbn [get_prop opt_prop]. rewrite Hsoap, Hsoapenv, Henv.
  cbn [opt_prop]. rewrite Hbody. reflexivity.
Qed.

Lemma soap_prefix_is_refused_witness :
  (parseResponse env_soap_prefix (JStr "<soap:Envelope>") Sample.world0).1
  = Throw (mkError "Invalid SOAP response structure").
Proof.
  rewrite (soap_prefix_is_refused env_soap_prefix "<soap:Envelope>"
             [("soap:Envelope",
               JObj [("soap:Body",
                      JObj [("loginCmsResponse",
                             JObj [("loginCmsReturn", JStr "loginTicketResponse")])])])]
             [("soap:Body",
               JObj [("loginCmsResponse",
                      JObj [("loginCmsReturn", JStr "loginTicketResponse")])])]);
    reflexivity.
Defined.

(** ** Ingestion of a PKCS#12 bundle *)

Lemma path_join_ne (d : Path) (n n' : string) :
  plain_name n = true -> plain_name n' = true ->
  n <> n' -> path_join d n <> path_join d n'.
Proof. intros Hn Hn' Hne Heq. apply Hne. by apply (path_join_inj d). Qed.

Lemma saveCertificateFromPfx_wp (E : Env) (b : Z) (cuit pfx pw : string) (w : World) :
  wp (saveCertificateFromPfx E b cuit pfx pw)
    (fun r w' =>
       r = Ok true ->
       exists p12 cert isoFrom isoTo text certPem keyPem,
         pkcs12FromDer E pfx pw = Ok p12
         /\ certBag p12 = Some (Some cert)
         /\ Date_toISOString E (notBefore cert) = Ok isoFrom
         /\ Date_toISOString E (notAfter cert) = Ok isoTo
         /\ JSON_stringify E
              (pfxInfo b cuit isoFrom isoTo pw (toISOString E (clock E (ticks w))))
            = Ok text
         /\ files w' !! path_join (certDirOf E b) "info.json" = Some text
         /\ files w' !! path_join (certDirOf E b) "cert.pem" = Some certPem
         /\ files w' !! path_join (certDirOf E b) "key.pem" = Some keyPem
         /\ certsCache w' !! b = None) w.
Proof.
  unfold saveCertificateFromPfx. wp_go; try (intros [=]; fail).
  all: intros _; simpl in *.
  all: eexists _, _, _, _, _, _, _.
  all: split; [reflexivity|]; split; [eassumption|]; split; [eassumption|].
  all: split; [eassumption|]; split; [eassumption|].
  all: split; [apply lookup_insert_eq|].
  all: split; [rewrite lookup_insert_ne by (apply path_join_ne; [reflexivity..|discriminate]);
               rewrite lookup_insert_ne by (apply path_join_ne; [reflexivity..|discriminate]);
               apply lookup_insert_eq|].
  all: split; [rewrite lookup_insert_ne by (apply path_join_ne; [reflexivity..|discriminate]);
               apply lookup_insert_eq|].
  all: apply lookup_delete_eq.
Qed.

(** A lookup that finds nothing cached and all three files in place. *)
Lemma getCertificateInfo_reads (E : Env) (b : Z) (w : World)
    (text certPem keyPem : string) (fields : list (string * jsval)) :
  no_faults E ->
  certsCache w !! b = None ->
  files w !! path_join (certDirOf E b) "info.json" = Some text ->
  JSON_parse E text = Ok (JObj fields) ->
  files w !! path_join (certDirOf E b) "cert.pem" = Some certPem ->
  files w !! path_join (certDirOf E b) "key.pem" = Some keyPem ->
  (getCertificateInfo E b w).1
  = Ok (Some {| ci_businessId := b;
                cuit := assoc "cuit" fields;
                certPath := path_join (certDirOf E b) "cert.pem";
                keyPath := path_join (certDirOf E b) "key.pem";
                password := assoc "password" fields;
                validFrom := if truthy (assoc "validFrom" fields)
                             then Some (new_Date E (assoc "validFrom" fields))
                             else None;
                validTo := if truthy (assoc "validTo" fields)
                           then Some (new_Date E (assoc "validTo" fields))
                           else None |}).
Proof.
  intros Hfs Hnone Hinfo Hparse Hcert Hkey.
  match goal with
  | |- _ = ?res => change (wp (getCertificateInfo E b) (fun r _ => r = res) w)
  end.
  unfold getCertificateInfo. wp_go.
  all: no_fault_in Hfs; unfold is_file in *; simplify_eq/=; merge_eqs.
  all: rewrite ?Hinfo, ?Hcert, ?Hkey in *; simplify_eq/=; merge_eqs.
  all: try reflexivity.
Qed.

(** X11. Round trip of a PKCS#12 ingestion: after [saveCertificateFromPfx]
    has returned true, the next lookup of the tenant returns the tax id and
    the passphrase that were given and the validity window of the
    certificate of the bundle, whatever was cached for the tenant before
    (no call to the file system failing, dates and the written info.json
    being read back as they were written). *)
Theorem pfx_round_trip (E : Env) (b : Z) (taxId pfx pw : string) (w : World)
    (p12 : Pkcs12) (cert : Certificate) (t0 t1 : Z) :
  let w1 := (saveCertificateFromPfx E b taxId pfx pw w).2 in
  no_faults E ->
  pkcs12FromDer E pfx pw = Ok p12 ->
  certBag p12 = Some (Some cert) ->
  notBefore cert = Some t0 ->
  notAfter cert = Some t1 ->
  iso_round_trip E t0 ->
  iso_round_trip E t1 ->
  json_round_trip E
    (pfxInfo b taxId (toISOString E t0) (toISOString E t1) pw
       (toISOString E (clock E (ticks w)))) ->
  (saveCertificateFromPfx E b taxId pfx pw w).1 = Ok true ->
  exists ci,
    (getCertificateInfo E b w1).1 = Ok (Some ci)
    /\ cuit ci = JStr taxId
    /\ password ci = JStr pw
    /\ validFrom ci = Some (Some t0)
    /\ validTo ci = Some (Some t1).
Proof.
  intros w1 Hfs Hp12 Hbag Hfrom Hto [Hne0 Hd0] [Hne1 Hd1] Hjson Hsaved.
  destruct (saveCertificateFromPfx_wp E b taxId pfx pw w Hsaved)
    as (p12' & cert' & isoFrom & isoTo & text & certPem & keyPem
        & Hp12' & Hbag' & Hiso0 & Hiso1 & Hstr & Hinfo & Hcert & Hkey & Hcache).
  fold w1 in Hinfo, Hcert, Hkey, Hcache.
  assert (p12' = p12) as -> by congruence.
  assert (cert' = cert) as -> by congruence.
  rewrite Hfrom in Hiso0. rewrite Hto in Hiso1. simpl in Hiso0, Hiso1.
  injection Hiso0 as <-. injection Hiso1 as <-.
  pose proof (Hjson text Hstr) as Hparse.
  eexists. split.
  - exact (getCertificateInfo_reads E b w1 text certPem keyPem _
             Hfs Hcache Hinfo Hparse Hcert Hkey).
  - cbn [cuit password validFrom validTo assoc String.eqb Ascii.eqb Bool.eqb].
    assert (Ht0 : truthy (JStr (toISOString E t0)) = true).
    { simpl. apply negb_true_iff. by apply String.eqb_neq. }
    assert (Ht1 : truthy (JStr (toISOString E t1)) = true).
    { simpl. apply negb_true_iff. by apply String.eqb_neq. }
    rewrite Ht0, Ht1, Hd0, Hd1. done.
Qed.

Lemma pfx_round_trip_witness :
  exists ci,
    (getCertificateInfo env_pfx 7
       (saveCertificateFromPfx env_pfx 7 "30716539685" "PFX" "secret" Sample.world0).2).1
    = Ok (Some ci)
    /\ cuit ci = JStr "30716539685"
    /\ password ci = JStr "secret"
    /\ validFrom ci = Some (Some 1600000000000)
    /\ validTo ci = Some (Some 1800000000000).
Proof.
  apply (pfx_round_trip env_pfx 7 "30716539685" "PFX" "secret" Sample.world0
           bundle7 Sample.certificate7 1600000000000 1800000000000).
  - intros n op. reflexivity.
  - reflexivity.
  - reflexivity.
  - reflexivity.
  - reflexivity.
  - split; [discriminate | reflexivity].
  - split; [discriminate | reflexivity].
  - intros text Htext. vm_compute in Htext. injection Htext as <-.
    vm_compute. reflexivity.
  - vm_compute. reflexivity.
Defined.

(** X12. A bundle that cannot be decoded, or that lacks the certificate or
    the key, is refused before anything is touched: the ingestion returns
    false, and the files, the directories and the cached lookups are as
    they were; no call to the file system was made. *)
Theorem refused_pfx_changes_nothing (E : Env) (b : Z) (taxId pfx pw : string)
    (w : World) :
  let w' := (saveCertificateFromPfx E b taxId pfx pw w).2 in
  match pkcs12FromDer E pfx pw with
  | Ok p12 =>
      match certBag p12, keyBag p12 with
      | Some (Some _), Some (Some _) => False
      | _, _ => True
      end
  | Throw _ => True
  end ->
  (saveCertificateFromPfx E b taxId pfx pw w).1 = Ok false
  /\ files w' = files w
  /\ dirs w' = dirs w
  /\ certsCache w' = certsCache w
  /\ fsLog w' = fsLog w.
Proof.
  intros w' Hbad. subst w'.
  unfold saveCertificateFromPfx, try_catch, bind, lift, throw, logger_error,
    modify, ret.
  destruct (pkcs12FromDer E pfx pw) as [p12|e]; [|by simpl].
  destruct (certBag p12) as [[c|]|], (keyBag p12) as [[k|]|]; by simpl.
Qed.

Lemma refused_pfx_changes_nothing_witness :
  (saveCertificateFromPfx Sample.env 7 "30716539685" "PFX" "secret" Sample.world7).1
  = Ok false
  /\ files (saveCertificateFromPfx Sample.env 7 "30716539685" "PFX" "secret"
              Sample.world7).2 = files Sample.world7.
Proof.
  destruct (refused_pfx_changes_nothing Sample.env 7 "30716539685" "PFX" "secret"
              Sample.world7 I) as (Hr & Hfiles & _).
  by split.
Defined.

(** ** The tax id of the .crt ingestions *)

Lemma substring_0_length (n : nat) (s : string) :
  (String.length (String.substring 0 n s) <= n)%nat.
Proof.
  revert s. induction n as [|n IH]; intros [|c s]; simpl; try lia.
  specialize (IH s). lia.
Qed.

Lemma match_d11_digits (s n : string) :
  Js.match_d11 s = Some n -> CuitSpec.eleven_digits n.
Proof.
  induction s as [|c s IH]; cbn [Js.match_d11]; intros H.
  - destruct (_ && _) eqn:Hc in H; [|discriminate].
    injection H as <-. apply andb_true_iff in Hc as [Hlen Hdig].
    split; [by apply Nat.eqb_eq | exact Hdig].
  - destruct (_ && _) eqn:Hc in H; [|by apply IH].
    injection H as <-. apply andb_true_iff in Hc as [Hlen Hdig].
    split; [by apply Nat.eqb_eq | exact Hdig].
Qed.

Lemma cuitOfField_digits (f : option Attr) (n : string) :
  cuitOfField f = Some n -> CuitSpec.eleven_digits n.
Proof.
  unfold cuitOfField. destruct f as [a|]; [|discriminate].
  destruct (String.eqb _ _); [discriminate|]. apply match_d11_digits.
Qed.

Lemma scanKnownFields_digits (attrs : list Attr) (names : list string) (n : string) :
  scanKnownFields attrs names = Some n -> CuitSpec.eleven_digits n.
Proof.
  induction names as [|x names IH]; simpl; [discriminate|].
  destruct (cuitOfField _) as [c|] eqn:Hc; [|exact IH].
  intros [= <-]. by apply cuitOfField_digits in Hc.
Qed.

Lemma orElse_Some {A} (a b : option A) (x : A) :
  orElse a b = Some x -> a = Some x \/ b = Some x.
Proof. destruct a; simpl; auto. Qed.

Lemma extractCuitCrtKey_digits (c : Certificate) (n : string) :
  extractCuitCrtKey c = Some n -> CuitSpec.eleven_digits n.
Proof.
  unfold extractCuitCrtKey, cuitFromSerialNumber, cuitFromCommonName. intros H.
  apply orElse_Some in H as [H|H]; [by eapply cuitOfField_digits|].
  apply orElse_Some in H as [H|H]; [by eapply cuitOfField_digits|].
  apply orElse_Some in H as [H|H]; [by eapply scanKnownFields_digits|].
  apply orElse_Some in H as [H|H]; by eapply match_d11_digits.
Qed.

Lemma extractCuitCrt_digits (c : Certificate) (n : string) :
  extractCuitCrt c = Some n -> CuitSpec.eleven_digits n.
Proof.
  unfold extractCuitCrt, cuitFromSerialNumber, cuitFromCommonName. intros H.
  apply orElse_Some in H as [H|H]; [by eapply cuitOfField_digits|].
  apply orElse_Some in H as [H|H]; [by eapply cuitOfField_digits|].
  apply orElse_Some in H as [H|H]; [by eapply scanKnownFields_digits|].
  by eapply match_d11_digits.
Qed.

Lemma filter_digits_all (s : string) :
  Js.all_chars Js.is_digit (Js.filter_chars Js.is_digit s) = true.
Proof.
  induction s as [|c s IH]; simpl; [reflexivity|].
  destruct (Js.is_digit c) eqn:Hc; simpl; [by rewrite Hc|exact IH].
Qed.

(** X13. The tax id that the two .crt ingestions write to info.json is
    always a string of exactly eleven decimal digits, be it taken from the
    certificate or given by the caller. *)
Theorem crt_tax_id_has_eleven_digits (E : Env) (b : Z) (crt key pw : string)
    (given : option string) (w : World) :
  ((saveCertificateFromCrtKey E b crt key pw w).1 = Ok true ->
   exists taxId isoFrom isoTo createdAt text,
     CuitSpec.eleven_digits taxId
     /\ JSON_stringify E (infoJson b taxId isoFrom isoTo pw createdAt "crt-key")
        = Ok text
     /\ files (saveCertificateFromCrtKey E b crt key pw w).2
        !! path_join (certDirOf E b) "info.json" = Some text)
  /\ ((saveCertificateFromCrt E b crt pw given w).1 = Ok true ->
      exists taxId isoFrom isoTo createdAt text,
        CuitSpec.eleven_digits taxId
        /\ JSON_stringify E (infoJson b taxId isoFrom isoTo pw createdAt "crt")
           = Ok text
        /\ files (saveCertificateFromCrt E b crt pw given w).2
           !! path_join (certDirOf E b) "info.json" = Some text).
Proof.
  split.
  - change (wp (saveCertificateFromCrtKey E b crt key pw)
              (fun r w' =>
                 r = Ok true ->
                 exists taxId isoFrom isoTo createdAt text,
                   CuitSpec.eleven_digits taxId
                   /\ JSON_stringify E
                        (infoJson b taxId isoFrom isoTo pw createdAt "crt-key")
                      = Ok text
                   /\ files w' !! path_join (certDirOf E b) "info.json"
                      = Some text) w).
    unfold saveCertificateFromCrtKey, readCrt. wp_go; try (intros [=]; fail).
    all: intros _; simpl in *.
    all: eexists _, _, _, _, _;
      (split; [eapply extractCuitCrtKey_digits; eassumption|]);
      (split; [eassumption | apply lookup_insert_eq]).
  - change (wp (saveCertificateFromCrt E b crt pw given)
              (fun r w' =>
                 r = Ok true ->
                 exists taxId isoFrom isoTo createdAt text,
                   CuitSpec.eleven_digits taxId
                   /\ JSON_stringify E
                        (infoJson b taxId isoFrom isoTo pw createdAt "crt")
                      = Ok text
                   /\ files w' !! path_join (certDirOf E b) "info.json"
                      = Some text) w).
    unfold saveCertificateFromCrt, readCrt. wp_go; try (intros [=]; fail).
    all: intros _; simpl in *.
    all: eexists _, _, _, _, _;
      (split; [|split; [eassumption | apply lookup_insert_eq]]).
    all: first [ eapply extractCuitCrt_digits; eassumption
               | split; [|apply filter_digits_all];
                 match goal with
                 | H : negb (_ =? 11)%nat = false |- _ =>
                     apply negb_false_iff in H; by apply Nat.eqb_eq in H
                 end ].
Qed.

Lemma crt_tax_id_has_eleven_digits_witness :
  (exists taxId isoFrom isoTo createdAt text,
     CuitSpec.eleven_digits taxId
     /\ JSON_stringify Sample.env_both
          (infoJson 7 taxId isoFrom isoTo "secret" createdAt "crt-key") = Ok text
     /\ files (saveCertificateFromCrtKey Sample.env_both 7 "CERTIFICATE"
                 "PRIVATE KEY" "secret" Sample.world7).2
        !! path_join (certDirOf Sample.env_both 7) "info.json" = Some text)
  /\ (exists taxId isoFrom isoTo createdAt text,
        CuitSpec.eleven_digits taxId
        /\ JSON_stringify Sample.env_both
             (infoJson 7 taxId isoFrom isoTo "secret" createdAt "crt") = Ok text
        /\ files (saveCertificateFromCrt Sample.env_both 7 "CERTIFICATE" "secret"
                    (Some "30-71653968-5") Sample.world7).2
           !! path_join (certDirOf Sample.env_both 7) "info.json" = Some text).
Proof.
  destruct (crt_tax_id_has_eleven_digits Sample.env_both 7 "CERTIFICATE"
              "PRIVATE KEY" "secret" (Some "30-71653968-5") Sample.world7)
    as [Hkey Hcrt].
  split; [apply Hkey | apply Hcrt]; vm_compute; reflexivity.
Defined.

(** X14. A tax id given to the ingestion of a .crt alone, once every
    character but a digit is taken out of it, is the one written to
    info.json when it has eleven digits, whatever the certificate holds;
    when it has not, the ingestion throws and has written no file, and what
    it throws for a certificate that could be read (no call to the file
    system failing) is "El CUIT proporcionado debe tener 11 dígitos.". *)
Theorem given_tax_id_is_used (E : Env) (b : Z) (crt pw given : string)
    (w : World) :
  let digits := Js.filter_chars Js.is_digit given in
  let r := (saveCertificateFromCrt E b crt pw (Some given) w).1 in
  let w' := (saveCertificateFromCrt E b crt pw (Some given) w).2 in
  given <> "" ->
  (String.length digits = 11%nat ->
   r = Ok true ->
   exists isoFrom isoTo createdAt text,
     JSON_stringify E (infoJson b digits isoFrom isoTo pw createdAt "crt") = Ok text
     /\ files w' !! path_join (certDirOf E b) "info.json" = Some text)
  /\ (String.length digits <> 11%nat ->
      (exists e, r = Throw e)
      /\ files w' = files w
      /\ (forall c, no_faults E -> certificateFromPem E (utf8 E crt) = Ok c ->
                    r = Throw (mkError "El CUIT proporcionado debe tener 11 dígitos."))).
Proof.
  intros digits r w' Hgiven. subst r w'.
  assert (Hne : String.eqb given "" = false) by (by apply String.eqb_neq).
  split.
  - intros Hlen.
    change (wp (saveCertificateFromCrt E b crt pw (Some given))
              (fun r w' =>
                 r = Ok true ->
                 exists isoFrom isoTo createdAt text,
                   JSON_stringify E (infoJson b digits isoFrom isoTo pw createdAt "crt")
                   = Ok text
                   /\ files w' !! path_join (certDirOf E b) "info.json"
                      = Some text) w).
    unfold saveCertificateFromCrt, readCrt. rewrite Hne. fold digits.
    apply Nat.eqb_eq in Hlen. rewrite Hlen. cbn [negb].
    wp_go; try (intros [=]; fail).
    all: intros _; simpl in *.
    all: eexists _, _, _, _; split; [eassumption | apply lookup_insert_eq].
  - intros Hlen.
    assert (Hl : (String.length digits =? 11)%nat = false) by (by apply Nat.eqb_neq).
    change (wp (saveCertificateFromCrt E b crt pw (Some given))
              (fun r w' =>
                 (exists e, r = Throw e)
                 /\ files w' = files w
                 /\ (forall c, no_faults E ->
                       certificateFromPem E (utf8 E crt) = Ok c ->
                       r = Throw (mkError "El CUIT proporcionado debe tener 11 dígitos."))) w).
    unfold saveCertificateFromCrt, readCrt. rewrite Hne. fold digits.
    rewrite Hl. cbn [negb].
    wp_go; simpl in *; (split; [by eexists|]); (split; [reflexivity|]).
    all: intros c Hfs Hpem; no_fault_in Hfs; try reflexivity; congruence.
Qed.

Lemma given_tax_id_is_used_witness :
  (exists isoFrom isoTo createdAt text,
     JSON_stringify Sample.env_both
       (infoJson 7 "27111111113" isoFrom isoTo "secret" createdAt "crt") = Ok text
     /\ files (saveCertificateFromCrt Sample.env_both 7 "CERTIFICATE" "secret"
                 (Some "27-11111111-3") Sample.world7).2
        !! path_join (certDirOf Sample.env_both 7) "info.json" = Some text)
  /\ (saveCertificateFromCrt Sample.env_both 7 "CERTIFICATE" "secret"
        (Some "123") Sample.world7).1
     = Throw (mkError "El CUIT proporcionado debe tener 11 dígitos.").
Proof.
  split.
  - apply (given_tax_id_is_used Sample.env_both 7 "CERTIFICATE" "secret"
             "27-11111111-3" Sample.world7);
      [discriminate | reflexivity | vm_compute; reflexivity].
  - destruct (given_tax_id_is_used Sample.env_both 7 "CERTIFICATE" "secret"
                "123" Sample.world7) as [_ Hshort]; [discriminate|].
    destruct Hshort as (_ & _ & Hmsg); [simpl; lia|].
    apply (Hmsg Sample.certificateBoth); [intros n op; reflexivity | reflexivity].
Defined.




(** ** Lookup and cache *)

(** X16. A lookup returns, and the in-process cache then holds for the
    tenant exactly what was returned: the data when data was returned, no
    entry when the lookup returned null. The entries of the other tenants,
    the files and the directories are as they were: a lookup writes
    nothing. *)
Theorem lookup_result_is_what_is_cached (E : Env) (b : Z) (w : World) :
  let w' := (getCertificateInfo E b w).2 in
  exists o,
    (getCertificateInfo E b w).1 = Ok o
    /\ certsCache w' !! b = o
    /\ (forall b', b' <> b -> certsCache w' !! b' = certsCache w !! b')
    /\ files w' = files w
    /\ dirs w' = dirs w.
Proof.
  intros w'. subst w'.
  change (wp (getCertificateInfo E b)
            (fun r w' =>
               exists o, r = Ok o
                 /\ certsCache w' !! b = o
                 /\ (forall b', b' <> b -> certsCache w' !! b' = certsCache w !! b')
                 /\ files w' = files w
                 /\ dirs w' = dirs w) w).
  unfold getCertificateInfo. wp_go; simpl.
  all: first [ eexists (Some _); split; [reflexivity|]
             | exists None; split; [reflexivity|] ].
  all: repeat split; try reflexivity; try assumption.
  all: try apply lookup_insert_eq; try apply lookup_delete_eq.
  all: try (intros b' Hb'; rewrite ?lookup_insert_ne, ?lookup_delete_ne by done; done).
Qed.

Lemma lookup_result_is_what_is_cached_witness :
  let w' := (getCertificateInfo Sample.env 7 Sample.world7).2 in
  certsCache w' !! 7 = Some Sample.certInfo7
  /\ certsCache w' !! 8 = certsCache Sample.world7 !! 8.
Proof.
  destruct (lookup_result_is_what_is_cached Sample.env 7 Sample.world7)
    as (o & Hr & Hcached & Hothers & _).
  vm_compute in Hr. injection Hr as <-.
  split; [exact Hcached|]. apply Hothers. discriminate.
Defined.

(** ** Reading a number *)

Example parseInt_digits : ParseInt.parseInt "42" = Some 42.
Proof. reflexivity. Qed.

Example parseInt_stops_at_a_letter : ParseInt.parseInt "7abc" = Some 7.
Proof. reflexivity. Qed.

Example parseInt_sign_and_space : ParseInt.parseInt "  -3" = Some (-3).
Proof. reflexivity. Qed.

Example parseInt_hexadecimal : ParseInt.parseInt "0x1F" = Some 31.
Proof. reflexivity. Qed.

Example parseInt_no_digit : ParseInt.parseInt "abc" = None.
Proof. reflexivity. Qed.

Example parseInt_empty : ParseInt.parseInt "" = None.
Proof. reflexivity. Qed.

(** ** Clearing the cache over HTTP *)


Lemma freshWSAAService_ticketCache {A} (m : M A) :
  preserves ticketCache (freshWSAAService m).
Proof.
  intros w. unfold freshWSAAService.
  by destruct (m (set_ticketCache (fun _ => []) w)) as [r w'].
Qed.

Lemma clearCacheController_ticketCache (E : Env) (req : Request) :
  preserves ticketCache (clearCacheController E req).
Proof.
  unfold clearCacheController.
  repeat first
    [ apply freshWSAAService_ticketCache
    | frame_step
    | progress unfold logger_error ].
Qed.

Lemma deleteCacheRoute_ticketCache (E : Env) (k : string) (req : Request) :
  preserves ticketCache (deleteCacheRoute E k req).
Proof.
  unfold deleteCacheRoute.
  destruct (authenticateApiKey k req); [apply preserves_ret|].
  destruct (validateBusinessId req); [apply preserves_ret|].
  apply clearCacheController_ticketCache.
Qed.

Lemma clearCache_ticks (E : Env) (b : option Z) (s : option string) :
  preserves ticks (clearCache E b s).
Proof. unfold clearCache, clearExact, clearTenant, clearAll. frame. Qed.

Lemma freshWSAAService_ticks {A} (m : M A) :
  preserves ticks m -> preserves ticks (freshWSAAService m).
Proof.
  intros Hm w. unfold freshWSAAService. specialize (Hm (set_ticketCache (fun _ => []) w)).
  by destruct (m (set_ticketCache (fun _ => []) w)) as [r w'].
Qed.

Lemma deleteCacheRoute_ticks (E : Env) (k : string) (req : Request) :
  preserves ticks (deleteCacheRoute E k req).
Proof.
  unfold deleteCacheRoute.
  destruct (authenticateApiKey k req); [apply preserves_ret|].
  destruct (validateBusinessId req); [apply preserves_ret|].
  unfold clearCacheController.
  repeat first
    [ apply freshWSAAService_ticks; apply clearCache_ticks
    | frame_step
    | progress unfold logger_error ].
Qed.

(** X17. Clearing the cache over HTTP works on a service object of its own:
    whatever the request, the fast tier of the running service is left as
    it was, so a ticket that was usable there is still returned by the next
    [getTicketAcceso], without any call to the authority. *)
Theorem http_clear_keeps_the_fast_tier (E : Env) (k : string) (req : Request)
    (w : World) :
  let w' := (deleteCacheRoute E k req w).2 in
  ticketCache w' = ticketCache w
  /\ (forall b s t,
        JsMap.get (cacheKey b s) (ticketCache w) = Some t ->
        date_ok (expirationTime t) ->
        is_time (clock E (ticks w)) ->
        usable t (clock E (ticks w)) ->
        getTicketAcceso E b s w' = (Ok (Some t), tick w')).
Proof.
  intros w'.
  assert (Htc : ticketCache w' = ticketCache w)
    by apply (deleteCacheRoute_ticketCache E k req w).
  assert (Hticks : ticks w' = ticks w)
    by apply (deleteCacheRoute_ticks E k req w).
  split; [exact Htc|].
  intros b s t Hget Hok Hnow Huse.
  rewrite <- Htc in Hget. rewrite <- Hticks in Hnow, Huse.
  rewrite getTicketAcceso_after_memory, (memoryTier_hit E _ w' t Hget).
  apply (margin_usable t _ Hok Hnow) in Huse. by rewrite Huse.
Qed.

Lemma http_clear_keeps_the_fast_tier_witness :
  let w' := (deleteCacheRoute Sample.env "k"
               (clearRequest [("businessId", "1"); ("service", "wsfe")] (JObj []))
               Sample.world3).2 in
  files w' !! ["app"; "cache"; "ta_1_wsfe.json"] = None
  /\ getTicketAcceso Sample.env 1 "wsfe" w'
     = (Ok (Some (Sample.ticket "a" (1700000000000 + 60 * Sample.minute))), tick w').
Proof.
  split; [vm_compute; reflexivity|].
  apply (http_clear_keeps_the_fast_tier Sample.env "k"
           (clearRequest [("businessId", "1"); ("service", "wsfe")] (JObj []))
           Sample.world3).
  - reflexivity.
  - intros e [= <-]. unfold is_time, maxTime, Sample.minute. lia.
  - unfold is_time, maxTime. simpl. lia.
  - exists (1700000000000 + 60 * Sample.minute).
    split; [reflexivity|]. unfold safetyMargin, Sample.minute. simpl. lia.
Defined.

Lemma validateBusinessId_query (req : Request) (bs : string) (n : Z) :
  queryParam "businessId" (query req) = JStr bs ->
  bs <> "" ->
  validateBusinessId req = Next n ->
  ParseInt.parseInt bs = Some n /\ 0 < n.
Proof.
  intros Hq Hbs. unfold validateBusinessId. rewrite Hq.
  assert (Ht : truthy (JStr bs) = true).
  { simpl. apply negb_true_iff. by apply String.eqb_neq. }
  unfold js_or. rewrite Ht. cbn [js_to_string]. rewrite Ht. cbn [negb].
  destruct (ParseInt.parseInt bs) as [m|]; [|discriminate].
  destruct (m <=? 0) eqn:Hm; [discriminate|]. intros [= <-].
  split; [reflexivity|]. apply Z.leb_gt in Hm. lia.
Qed.

Lemma restore_ticketCache (w : World) :
  set_ticketCache (fun _ => ticketCache w) (set_ticketCache (fun _ => []) w) = w.
Proof. by destruct w. Qed.

(** X18. Through the route, a request that names a tenant in the query
    string and no service changes nothing at all: the sweep of a tenant
    walks the keys of the fast tier, and the fast tier of the service
    object made for the request is empty. No durable record is deleted,
    and the reply is the success "All cache cleared for business ...". *)
Theorem http_clear_of_a_tenant_changes_nothing (E : Env) (k : string)
    (req : Request) (w : World) (bs : string) (n : Z) :
  authenticateApiKey k req = Next tt ->
  queryParam "businessId" (query req) = JStr bs ->
  bs <> "" ->
  truthy (queryParam "service" (query req)) = false ->
  validateBusinessId req = Next n ->
  deleteCacheRoute E k req w
  = (Ok (success ("All cache cleared for business " +:+ bs)), w).
Proof.
  intros Hauth Hq Hbs Hsv Hval.
  destruct (validateBusinessId_query req bs n Hq Hbs Hval) as [Hparse Hn].
  assert (Ht : truthy (JStr bs) = true).
  { simpl. apply negb_true_iff. by apply String.eqb_neq. }
  unfold deleteCacheRoute. rewrite Hauth, Hval.
  unfold clearCacheController. rewrite Hq, Hsv, Ht. cbn [andb js_to_string].
  rewrite Hparse, clearCache_tenant_only by lia.
  unfold try_catch, bind, freshWSAAService, clearTenant, bind, gets. simpl.
  unfold ret. by rewrite restore_ticketCache.
Qed.

Lemma http_clear_of_a_tenant_changes_nothing_witness :
  deleteCacheRoute Sample.env "k" (clearRequest [("businessId", "1")] (JObj []))
    Sample.world_restarted
  = (Ok (success "All cache cleared for business 1"), Sample.world_restarted).
Proof.
  apply (http_clear_of_a_tenant_changes_nothing Sample.env "k"
           (clearRequest [("businessId", "1")] (JObj [])) Sample.world_restarted
           "1" 1); try reflexivity.
  discriminate.
Defined.




(** ** The signing request and its key *)




(** ** Deleting a certificate *)

Lemma deleteCertificateController_certsCache (E : Env) (rf : nat -> Path -> bool)
    (req : Request) :
  preserves certsCache (deleteCertificateController E rf req).
Proof. unfold deleteCertificateController, rmdirSync. frame. Qed.

Lemma deleteCertificateController_ticketCache (E : Env) (rf : nat -> Path -> bool)
    (req : Request) :
  preserves ticketCache (deleteCertificateController E rf req).
Proof. unfold deleteCertificateController, rmdirSync. frame. Qed.

Lemma deleteCertificateController_ticks (E : Env) (rf : nat -> Path -> bool)
    (req : Request) :
  preserves ticks (deleteCertificateController E rf req).
Proof. unfold deleteCertificateController, rmdirSync. frame. Qed.

Lemma unlink_each_wp (E : Env) (d : Path) (names : list string) (w : World) :
  wp (forEach (fun file => unlinkSync E (path_join d file)) names)
    (fun r w' =>
       files w' ⊆ files w
       /\ (r = Ok tt -> forall n, n ∈ names -> files w' !! path_join d n = None)) w.
Proof.
  revert w. induction names as [|x names IH]; intros w; cbn [forEach].
  - wp_go. split; [done|]. intros _ n Hn. by apply elem_of_nil in Hn.
  - apply wp_bind. wp_go; simpl.
    + split; [done | intros; discriminate].
    + eapply wp_mono; [apply IH|]. simpl.
      intros r w' (Hsub & Hgone). split.
      { etrans; [exact Hsub | apply delete_subseteq]. }
      intros Hr n Hn. apply elem_of_cons in Hn as [->|Hn].
      { eapply lookup_weaken_None; [|exact Hsub]. apply lookup_delete_eq. }
      by apply Hgone.
    + split; [done | intros; discriminate].
Qed.

Lemma deleteCertificateController_files (E : Env) (rf : nat -> Path -> bool)
    (req : Request) (b : Z) (w : World) :
  opt_prop (body req) "businessId" = JNum b ->
  b <> 0 ->
  wp (deleteCertificateController E rf req)
    (fun r w' =>
       r = Ok (success "Certificado y clave privada eliminados correctamente") ->
       forall name, files w' !! (certDirOf E b ++ [name]) = None) w.
Proof.
  intros Hbody Hb.
  assert (Hget : get_prop (body req) "businessId" = Ok (JNum b)).
  { destruct (body req); simpl in Hbody |- *; try discriminate. by rewrite Hbody. }
  assert (Ht : truthy (JNum b) = true).
  { simpl. apply negb_true_iff. by apply Z.eqb_neq. }
  unfold deleteCertificateController. apply wp_try_catch. apply wp_bind.
  apply wp_lift. rewrite Hget. cbv beta iota. rewrite Ht. cbn [negb js_to_string].
  fold (certDirOf E b). apply wp_bind. apply wp_existsSync. cbv beta iota.
  destruct (is_file _ _ || is_dir _ _); [|wp_go; intros [=]].
  apply wp_bind. eapply wp_mono; [apply readdirSync_wp|]. simpl.
  intros [names|e] w1 (_ & Hf & _ & Hnames); [|wp_go; intros [=]].
  apply wp_bind. eapply wp_mono; [apply unlink_each_wp|]. simpl.
  intros [[]|e] w2 (Hsub & Hgone); [|wp_go; intros [=]].
  (* the directory is removed only when nothing is left in it *)
  unfold rmdirSync. wp_go; simpl in *; intros Hr; try discriminate Hr.
  match goal with
  | H : _ ++ _ = [] |- _ => apply app_eq_nil in H as [Hempty _]
  end.
  intros name.
  destruct (files w2 !! (certDirOf E b ++ [name])) as [c|] eqn:Hlook; [|reflexivity].
  exfalso.
  assert (Hin : name ∈ omap (child_name (certDirOf E b)) (elements (dom (files w2)))).
  { apply list_elem_of_omap. exists (certDirOf E b ++ [name]). split.
    - apply elem_of_elements, elem_of_dom. by exists c.
    - apply child_name_join. }
  rewrite Hempty in Hin. by apply elem_of_nil in Hin.
Qed.

(** X22. Deleting the certificate of a tenant removes the files of its
    directory, but neither of the two caches in memory is told: the cached
    lookup of the tenant and the tickets of the fast tier are as they were.
    A lookup made after a successful deletion, while the cached validity
    window lasts, still returns the certificate data that was deleted. *)
Theorem deleted_certificate_is_still_looked_up (E : Env)
    (rmdir_fault : nat -> Path -> bool) (req : Request) (b : Z) (w : World)
    (ci : CertificateInfo) (t : Z) :
  let r := (deleteCertificateController E rmdir_fault req w).1 in
  let w' := (deleteCertificateController E rmdir_fault req w).2 in
  opt_prop (body req) "businessId" = JNum b ->
  b <> 0 ->
  certsCache w !! b = Some ci ->
  validTo ci = Some (Some t) ->
  clock E (ticks w) < t ->
  (r = Ok (success "Certificado y clave privada eliminados correctamente") ->
   forall name, files w' !! (certDirOf E b ++ [name]) = None)
  /\ ticketCache w' = ticketCache w
  /\ getCertificateInfo E b w' = (Ok (Some ci), tick w').
Proof.
  intros r w' Hbody Hb Hcached Hvalid Hnow.
  split; [apply (deleteCertificateController_files E rmdir_fault req b w Hbody Hb)|].
  split; [apply (deleteCertificateController_ticketCache E rmdir_fault req w)|].
  apply (getCertificateInfo_cached E b w' ci t).
  - subst w'. by rewrite (deleteCertificateController_certsCache E rmdir_fault req w).
  - exact Hvalid.
  - subst w'. by rewrite (deleteCertificateController_ticks E rmdir_fault req w).
Qed.

Lemma deleted_certificate_is_still_looked_up_witness :
  let req := {| apiKeyHeader := Some "k"; query := [];
                body := JObj [("businessId", JNum 7)] |} in
  let run := deleteCertificateController Sample.env (fun _ _ => false) req
               Sample.world7_cached in
  (forall name, files run.2 !! (certDirOf Sample.env 7 ++ [name]) = None)
  /\ getCertificateInfo Sample.env 7 run.2 = (Ok (Some Sample.certInfo7), tick run.2).
Proof.
  intros req run.
  destruct (deleted_certificate_is_still_looked_up Sample.env (fun _ _ => false)
              req 7 Sample.world7_cached Sample.certInfo7 1800000000000)
    as (Hgone & _ & Hlookup).
  - reflexivity.
  - discriminate.
  - reflexivity.
  - reflexivity.
  - simpl. lia.
  - split; [|exact Hlookup]. apply Hgone. vm_compute. reflexivity.
Defined.

(** ** The taxpayer registry *)

Lemma filter_chars_idem (keep : ascii -> bool) (s : string) :
  Js.filter_chars keep (Js.filter_chars keep s) = Js.filter_chars keep s.
Proof.
  induction s as [|c s IH]; simpl; [reflexivity|].
  destruct (keep c) eqn:Hc; simpl; [by rewrite Hc, IH | exact IH].
Qed.

Lemma validarCUIT_normalizado (s : string) :
  validarCUIT (normalizarDocumento s) = validarCUIT s.
Proof. unfold validarCUIT, normalizarDocumento. by rewrite filter_chars_idem. Qed.

(** X23. A document that is not a valid tax id is refused by
    [consultarPadron] before anything is done: the answer is "CUIT
    inválido...", and neither the certificate store nor the ticket cache
    nor the registry is asked (the world is left as it was, whatever the
    SOAP client would do). *)
Theorem padron_refuses_an_invalid_tax_id (E : Env) (environment : string)
    (Client : Type) (createClientAsync : string -> M Client)
    (getPersonaAsync : Client -> jsval -> M jsval)
    (b : Z) (documento : string) (w : World) :
  validarCUIT documento = false ->
  consultarPadron E environment Client createClientAsync getPersonaAsync b documento w
  = (Ok (NotFound
           "CUIT inválido. Debe tener 11 dígitos y dígito verificador correcto."), w).
Proof.
  intros Hbad. unfold consultarPadron, try_catch.
  rewrite validarCUIT_normalizado, Hbad. reflexivity.
Qed.

Lemma padron_refuses_an_invalid_tax_id_witness :
  consultarPadron Sample.env "homologacion" unit
    (fun _ => ret tt) (fun _ _ => ret JUndefined) 7 "20-12345678-9" Sample.world7
  = (Ok (NotFound
           "CUIT inválido. Debe tener 11 dígitos y dígito verificador correcto."),
     Sample.world7).
Proof.
  apply (padron_refuses_an_invalid_tax_id Sample.env "homologacion" unit
           (fun _ => ret tt) (fun _ _ => ret JUndefined) 7 "20-12345678-9"
           Sample.world7).
  reflexivity.
Defined.

Lemma withDomicilio_fields (dom : jsval) (d : PadronData) :
  razonSocial (withDomicilio dom d) = razonSocial d
  /\ condicionIVA (withDomicilio dom d) = condicionIVA d
  /\ tipoDocumento (withDomicilio dom d) = tipoDocumento d
  /\ numeroDocumento (withDomicilio dom d) = numeroDocumento d.
Proof. done. Qed.

(** X24. An answer of [consultarPadron] that carries data is about a valid
    tax id: the document it names is the queried one without hyphens and
    spaces, of type "CUIT"; its condition before the value-added tax is
    never empty ("No especificado" at the least), and it has a name or an
    address. *)
Theorem padron_data_is_complete (E : Env) (environment : string)
    (Client : Type) (createClientAsync : string -> M Client)
    (getPersonaAsync : Client -> jsval -> M jsval)
    (b : Z) (documento : string) (w : World) (d : PadronData) :
  (consultarPadron E environment Client createClientAsync getPersonaAsync
     b documento w).1 = Ok (Found d) ->
  validarCUIT documento = true
  /\ numeroDocumento d = normalizarDocumento documento
  /\ tipoDocumento d = "CUIT"
  /\ truthy (condicionIVA d) = true
  /\ (truthy (razonSocial d) = true \/ domicilio d <> "").
Proof.
  revert d.
  change (wp (consultarPadron E environment Client createClientAsync
                getPersonaAsync b documento)
            (fun r _ => forall d, r = Ok (Found d) ->
               validarCUIT documento = true
               /\ numeroDocumento d = normalizarDocumento documento
               /\ tipoDocumento d = "CUIT"
               /\ truthy (condicionIVA d) = true
               /\ (truthy (razonSocial d) = true \/ domicilio d <> "")) w).
  unfold consultarPadron. apply wp_try_catch.
  rewrite validarCUIT_normalizado.
  destruct (validarCUIT documento) eqn:Hvalid; cbn [negb];
    [|wp_go; intros ? [=]].
  apply wp_bind. apply wp_all. intros [[ci|]|e] w1.
  2,3: wp_go; intros ? [=].
  destruct (negb (truthy (cuit ci))); [wp_go; intros ? [=]|].
  apply wp_bind. apply wp_lift.
  destruct (match cuit ci with JStr c => Ok (normalizarDocumento c) | _ => _ end)
    as [own|e]; [|wp_go; intros ? [=]].
  apply wp_bind. apply wp_all. intros [[ta|]|e] w2.
  2,3: wp_go; intros ? [=].
  destruct (negb (truthy (token ta)) || negb (truthy (sign ta)));
    [wp_go; intros ? [=]|].
  cbv zeta. apply wp_bind. apply wp_all. intros [client|e] w3;
    [|wp_go; intros ? [=]].
  apply wp_bind. apply wp_all. intros [answer|e] w4; [|wp_go; intros ? [=]].
  apply wp_bind. apply wp_all. intros [[]|e] w5; [|wp_go; intros ? [=]].
  destruct (negb (truthy answer) || _); [wp_go; intros ? [=]|].
  cbv zeta.
  apply wp_bind. apply wp_all. intros [[]|e] w6; [|wp_go; intros ? [=]].
  apply wp_bind. apply wp_all. intros [[]|e] w7; [|wp_go; intros ? [=]].
  apply wp_bind. apply wp_all. intros [[]|e] w8; [|wp_go; intros ? [=]].
  match goal with
  | |- wp (bind ?m _) _ _ =>
      match m with
      | context [ret ?d1] =>
          apply wp_bind;
          apply (wp_mono m
                   (fun r _ => forall d2, r = Ok d2 ->
                      razonSocial d2 = razonSocial d1
                      /\ domicilio d2 = domicilio d1
                      /\ tipoDocumento d2 = tipoDocumento d1
                      /\ numeroDocumento d2 = numeroDocumento d1))
      end
  end.
  { destruct (js_or _ _); wp_go; intros ? [= <-]; done. }
  intros [d2|e] w9 Hd2; [|wp_go; intros ? [=]].
  destruct (Hd2 d2 eq_refl) as (Hrs & Hdom & Htipo & Hnum).
  assert (Hbase : tipoDocumento d2 = "CUIT"
                  /\ numeroDocumento d2 = normalizarDocumento documento).
  { rewrite Htipo, Hnum. by destruct (truthy _). }
  destruct Hbase as [Htipo2 Hnum2].
  wp_go; intros d [= <-].
  split; [reflexivity|].
  match goal with
  | H : negb (truthy (razonSocial ?d4)) && String.eqb (domicilio ?d4) "" = false |- _ =>
      assert (Hfields : numeroDocumento d4 = normalizarDocumento documento
                        /\ tipoDocumento d4 = "CUIT"
                        /\ truthy (condicionIVA d4) = true)
  end.
  { repeat match goal with
           | |- context [if ?c then _ else _] => destruct c eqn:?
           end; simpl; repeat split; try assumption; try reflexivity.
    all: match goal with
         | H : negb (truthy ?v) = false |- truthy ?v = true =>
             by apply negb_false_iff in H
         end. }
  destruct Hfields as (Hn4 & Ht4 & Hc4).
  split; [exact Hn4|]. split; [exact Ht4|]. split; [exact Hc4|].
  match goal with
  | H : negb (truthy (razonSocial ?d4)) && String.eqb (domicilio ?d4) "" = false |- _ =>
      apply andb_false_iff in H; destruct H as [Hname|Haddress]
  end.
  - left. by apply negb_false_iff in Hname.
  - right. by apply String.eqb_neq in Haddress.
Qed.

Lemma padron_data_is_complete_witness :
  validarCUIT "33-69345023-9" = true
  /\ numeroDocumento datosGeco = normalizarDocumento "33-69345023-9"
  /\ tipoDocumento datosGeco = "CUIT"
  /\ truthy (condicionIVA datosGeco) = true
  /\ (truthy (razonSocial datosGeco) = true \/ domicilio datosGeco <> "").
Proof.
  apply (padron_data_is_complete Sample.env_granted "homologacion" unit
           (fun _ => ret tt) (fun _ _ => ret personaGeco) 7 "33-69345023-9"
           Sample.world7 datosGeco).
  vm_compute. reflexivity.
Defined.

(** ** One tenant at a time *)

(** A frame for one path and one tenant: the method leaves the file at [p]
    and the cached lookup of [b'] alone. *)
Ltac frame_tenant Hout Hne :=
  repeat first
    [ frame_step
    | apply preserves_modify; intros ?; simpl;
      first [ reflexivity
            | f_equal; apply lookup_insert_ne; apply not_eq_sym, Hout
            | f_equal; apply lookup_delete_ne; apply not_eq_sym, Hne ]
    | progress unfold logger_error, Date_now, fs_call, existsSync, readFileSync,
        writeFileSync, unlinkSync, mkdirSync, readdirSync, ensureDir,
        readCertificate, readPrivateKey
    | intros ?; reflexivity ].

(** X25. An ingestion for one tenant stays with that tenant: each of the
    three ingestions leaves every file outside the directory of the tenant
    and the cached lookup of every other tenant as they were. *)
Theorem ingestion_stays_with_its_tenant (E : Env) (b : Z)
    (taxId pfx crt key pw : string) (given : option string) (w : World)
    (p : Path) (b' : Z) :
  outside_tenant E b p ->
  b' <> b ->
  let same (w' : World) :=
    files w' !! p = files w !! p /\ certsCache w' !! b' = certsCache w !! b' in
  same (saveCertificateFromPfx E b taxId pfx pw w).2
  /\ same (saveCertificateFromCrtKey E b crt key pw w).2
  /\ same (saveCertificateFromCrt E b crt pw given w).2.
Proof.
  intros Hout Hne same. subst same. cbv beta.
  assert (Hpfx : preserves (fun w => (files w !! p, certsCache w !! b'))
                   (saveCertificateFromPfx E b taxId pfx pw)).
  { unfold saveCertificateFromPfx. frame_tenant Hout Hne. }
  assert (Hkey : preserves (fun w => (files w !! p, certsCache w !! b'))
                   (saveCertificateFromCrtKey E b crt key pw)).
  { unfold saveCertificateFromCrtKey, readCrt. frame_tenant Hout Hne. }
  assert (Hcrt : preserves (fun w => (files w !! p, certsCache w !! b'))
                   (saveCertificateFromCrt E b crt pw given)).
  { unfold saveCertificateFromCrt, readCrt. frame_tenant Hout Hne. }
  specialize (Hpfx w). specialize (Hkey w). specialize (Hcrt w).
  injection Hpfx as Hp1 Hp2. injection Hkey as Hk1 Hk2. injection Hcrt as Hc1 Hc2.
  auto.
Qed.

Lemma ingestion_stays_with_its_tenant_witness :
  let p := ["app"; "cache"; "ta_1_wsfe.json"] in
  files (saveCertificateFromCrt Sample.env_both 7 "CERTIFICATE" "secret" None
           Sample.world3).2 !! p = Some "a"
  /\ files (saveCertificateFromPfx Sample.env_both 7 "30716539685" "PFX" "secret"
              Sample.world3).2 !! p = Some "a".
Proof.
  intros p.
  destruct (ingestion_stays_with_its_tenant Sample.env_both 7 "30716539685" "PFX"
              "CERTIFICATE" "PRIVATE KEY" "secret" None Sample.world3 p 8)
    as ([Hpfx _] & _ & [Hcrt _]).
  - intros name. discriminate.
  - discriminate.
  - split; [etrans; [exact Hcrt|] | etrans; [exact Hpfx|]]; reflexivity.
Defined.


(** Steps of a run that need no case analysis. *)
Ltac wp_det :=
  repeat (first [ apply wp_bind | apply wp_try_catch | apply wp_ret
                | apply wp_throw | apply wp_lift | apply wp_gets
                | apply wp_modify | unfold logger_error at 1 ];
          cbn beta iota zeta delta [fst snd]).

Lemma ensureDir_files (E : Env) (d : Path) (w : World) :
  no_faults E ->
  wp (ensureDir E d) (fun r w' => r = Ok tt /\ files w' = files w) w.
Proof.
  intros Hfs. unfold ensureDir. wp_go; no_fault_in Hfs; simplify_eq/=; done.
Qed.

(** X26. A certificate in which no tax id is found is refused before any
    file is written: with the certificate and the key readable and no call
    to the file system failing, the ingestion of a .crt with its key throws
    "No se pudo extraer el CUIT del certificado...", the ingestion of a
    .crt alone to which no tax id is given throws the same with the advice
    to give the tax id by hand, and both leave the files as they were. *)
Theorem missing_tax_id_writes_nothing (E : Env) (b : Z) (crt key pw : string)
    (c : Certificate) (k : PrivateKey) (w : World) :
  no_faults E ->
  certificateFromPem E (utf8 E crt) = Ok c ->
  privateKeyFromPem E (utf8 E key) = Ok k ->
  (extractCuitCrtKey c = None ->
   (saveCertificateFromCrtKey E b crt key pw w).1
   = Throw (mkError
       "No se pudo extraer el CUIT del certificado. El certificado no contiene un CUIT válido de 11 dígitos.")
   /\ files (saveCertificateFromCrtKey E b crt key pw w).2 = files w)
  /\ (extractCuitCrt c = None ->
      (saveCertificateFromCrt E b crt pw None w).1
      = Throw (mkError
          "No se pudo extraer el CUIT del certificado. El certificado no contiene un CUIT válido de 11 dígitos. Por favor proporciona el CUIT manualmente.")
      /\ files (saveCertificateFromCrt E b crt pw None w).2 = files w).
Proof.
  intros Hfs Hpem Hkey. split; intros Hnone.
  - match goal with
    | |- _ = ?err /\ _ =>
        change (wp (saveCertificateFromCrtKey E b crt key pw)
                  (fun r w' => r = err /\ files w' = files w) w)
    end.
    unfold saveCertificateFromCrtKey, readCrt. rewrite Hpem, Hkey.
    apply wp_try_catch. apply wp_bind.
    eapply wp_mono; [apply (ensureDir_files E _ w Hfs)|].
    intros r w1 [-> Hfiles]. wp_det. rewrite Hnone. wp_det. by split.
  - match goal with
    | |- _ = ?err /\ _ =>
        change (wp (saveCertificateFromCrt E b crt pw None)
                  (fun r w' => r = err /\ files w' = files w) w)
    end.
    unfold saveCertificateFromCrt, readCrt. rewrite Hpem.
    apply wp_try_catch. apply wp_bind.
    eapply wp_mono; [apply (ensureDir_files E _ w Hfs)|].
    intros r w1 [-> Hfiles]. wp_det. rewrite Hnone. wp_det. by split.
Qed.

Lemma missing_tax_id_writes_nothing_witness :
  (saveCertificateFromCrtKey env_anon 7 "CERTIFICATE" "PRIVATE KEY" "secret"
     Sample.world7).1
  = Throw (mkError
      "No se pudo extraer el CUIT del certificado. El certificado no contiene un CUIT válido de 11 dígitos.")
  /\ files (saveCertificateFromCrtKey env_anon 7 "CERTIFICATE" "PRIVATE KEY"
              "secret" Sample.world7).2 = files Sample.world7.
Proof.
  apply (missing_tax_id_writes_nothing env_anon 7 "CERTIFICATE" "PRIVATE KEY"
           "secret" certificateAnon {| key_body := "PRIVATE KEY" |} Sample.world7).
  - intros n op. reflexivity.
  - reflexivity.
  - reflexivity.
  - reflexivity.
Defined.
